(** * CloudFormation YAML validator: reference resolution and sub-stack checks

    A shallow embedding of the analysis implemented by the [CloudformationYaml]
    class: the position mapper, the reference extractor, the referenceable
    collector, the sub-stack parameter matcher and the orchestrating pass.

    JavaScript strings are modelled by [string], offsets and indices by [Z],
    thrown exceptions by the [Throw] outcome, the diagnostic collection of the
    analysed document by an explicit state, and the object that maps a template
    URL to the parameters of the child template by a [gmap]. *)

From Stdlib Require Import ZArith List String Ascii Bool Lia.
From stdpp Require Import gmap strings.
Import ListNotations.

Set Warnings "-register-all".

Local Open Scope Z_scope.
Local Open Scope string_scope.
Local Open Scope list_scope.

(** ** JavaScript string and array primitives used by the sources *)

Module Js.

(** [s.length] *)
Definition strlen (s : string) : Z := Z.of_nat (String.length s).

Definition clamp (n : Z) (s : string) : Z := Z.max 0 (Z.min n (strlen s)).

(** [s.substring(a, b)]: both bounds are clamped to the string and swapped
    when they come in the wrong order. *)
Definition substring (s : string) (a b : Z) : string :=
  let a' := clamp a s in
  let b' := clamp b s in
  let lo := Z.min a' b' in
  let hi := Z.max a' b' in
  String.substring (Z.to_nat lo) (Z.to_nat (hi - lo)) s.

(** [s.startsWith(p)] *)
Definition startsWith (s p : string) : bool := String.prefix p s.

(** [s.lastIndexOf(c)] for a one-character needle: [-1] when absent. *)
Fixpoint lastIndexOfFrom (c : ascii) (idx : Z) (found : Z) (s : string) : Z :=
  match s with
  | EmptyString => found
  | String d r =>
    lastIndexOfFrom c (idx + 1) (if Ascii.eqb c d then idx else found) r
  end.

Definition lastIndexOf (s : string) (c : ascii) : Z := lastIndexOfFrom c 0 (-1) s.

(** [l.indexOf(x)] on arrays: the first index holding [x], [-1] when absent. *)
Fixpoint indexOfFrom {A : Type} (eqb : A -> A -> bool) (idx : Z) (l : list A) (x : A) : Z :=
  match l with
  | [] => -1
  | y :: r => if eqb y x then idx else indexOfFrom eqb (idx + 1) r x
  end.

Definition indexOf {A : Type} (eqb : A -> A -> bool) (l : list A) (x : A) : Z :=
  indexOfFrom eqb 0 l x.

(** JavaScript truthiness of a possibly undefined string. *)
Definition truthy (o : option string) : bool :=
  match o with
  | Some s => negb (String.eqb s "")
  | None => false
  end.

(** [a || b] on possibly undefined strings. *)
Definition orElse (a b : option string) : option string :=
  if truthy a then a else b.

(** What a template literal prints for a possibly undefined string. *)
Definition interpolate (o : option string) : string :=
  match o with
  | Some s => s
  | None => "undefined"
  end.

(** One result of [RegExp.prototype.exec]: [match.index] and [match[0]]. *)
Record RegExpMatch : Type := mkMatch { index : Z; matched : string }.

Definition CR : ascii := Ascii.ascii_of_nat 13.
Definition LF : ascii := Ascii.ascii_of_nat 10.

(** The loop [while ((match = regEx.exec(s)) != null)] for the global regular
    expression [\r?\n]: every line terminator of [s], leftmost first, a
    carriage return being part of the terminator when a line feed follows. *)
Fixpoint execAllLineReturn (idx : Z) (s : string) : list RegExpMatch :=
  match s with
  | EmptyString => []
  | String c r =>
    if Ascii.eqb c LF then mkMatch idx (String LF EmptyString) :: execAllLineReturn (idx + 1) r
    else
      match r with
      | String c2 r2 =>
        if Ascii.eqb c CR && Ascii.eqb c2 LF
        then mkMatch idx (String CR (String LF EmptyString)) :: execAllLineReturn (idx + 2) r2
        else execAllLineReturn (idx + 1) r
      | EmptyString => []
      end
  end.

(** The text [[^}]*}] anchored at the start of [s]: everything up to and
    including the first closing brace. *)
Fixpoint untilClosingBrace (s : string) : option string :=
  match s with
  | EmptyString => None
  | String c r =>
    if Ascii.eqb c "}" then Some (String c EmptyString)
    else option_map (String c) (untilClosingBrace r)
  end.

(** The regular expression [\${[^}]*}] anchored at the start of [s]. *)
Definition placeholderAt (s : string) : option string :=
  match s with
  | String c1 (String c2 r) =>
    if Ascii.eqb c1 "$" && Ascii.eqb c2 "{"
    then option_map (fun body => String c1 (String c2 body)) (untilClosingBrace r)
    else None
  | _ => None
  end.

(** The exec loop for the global regular expression [\${[^}]*}]: after a
    match the search resumes behind it, so [skip] characters of the match are
    passed over before the expression is tried again. *)
Fixpoint execAllPlaceholderFrom (skip : nat) (idx : Z) (s : string) : list RegExpMatch :=
  match s with
  | EmptyString => []
  | String c r =>
    match skip with
    | S k => execAllPlaceholderFrom k (idx + 1) r
    | O =>
      match placeholderAt s with
      | Some m => mkMatch idx m :: execAllPlaceholderFrom (String.length m - 1) (idx + 1) r
      | None => execAllPlaceholderFrom 0 (idx + 1) r
      end
    end
  end.

Definition execAllPlaceholder (s : string) : list RegExpMatch :=
  execAllPlaceholderFrom 0 0 s.

(** A text without closing brace. *)
Fixpoint noClosingBrace (s : string) : bool :=
  match s with
  | EmptyString => true
  | String c r => negb (Ascii.eqb c "}") && noClosingBrace r
  end.

(** An occurrence of a placeholder in a text: the matched text stands at
    its index and has the shape of a placeholder. *)
Definition placeholderOccurrence (s : string) (m : RegExpMatch) : Prop :=
  0 <= index m /\
  String.substring (Z.to_nat (index m)) (String.length (matched m)) s = matched m /\
  exists body, matched m = "${" +:+ body +:+ "}" /\ noClosingBrace body = true.

End Js.

(** ** The first revision of the class: the position mapper

    The later revision imports [getRowColumnPosition] from [common]; the
    sources hold it as a method of the first revision of the class. *)

Module Legacy.
Import Js.

Record Position : Type := mkPosition { column : Z; line : Z }.

(** [getRowColumnPosition(text, absolutePosition)]. [None] stands for the
    [TypeError] raised by reading [index] of an undefined [lastLineReturn]. *)
Definition getRowColumnPosition (text : string) (absolutePosition : Z) : option Position :=
  let textBefore := substring text 0 absolutePosition in
  let matches := execAllLineReturn 0 textBefore in
  let line := Z.of_nat (List.length matches) in
  let lastLineReturn := List.last (List.map Some matches) None in
  match lastLineReturn with
  | None => None
  | Some lastLineReturn =>
    let afterLastLineReturn := index lastLineReturn + strlen (matched lastLineReturn) in
    let column := absolutePosition - afterLastLineReturn in
    Some (mkPosition column line)
  end.

(** The position as the specification words it, to compare with: the line
    is the number of line terminators before the offset, the column the
    offset minus the position behind the last of them, or minus 0 when there
    is none. *)
Definition resolve (sourceText : string) (absoluteOffset : Z) : Position :=
  let terminators := execAllLineReturn 0 (substring sourceText 0 absoluteOffset) in
  let afterLast :=
    match List.last (List.map Some terminators) None with
    | Some terminator => index terminator + strlen (matched terminator)
    | None => 0
    end in
  mkPosition (absoluteOffset - afterLast) (Z.of_nat (List.length terminators)).

End Legacy.

(** ** The document tree handed over by the YAML parser *)

Module Yaml.
Import Js.

(** The node types of the parser; [common/NodeTypes] names the ones the
    analysis tests for ([FLOW_SEQ], [MAP], [PAIR], [PLAIN], [QUOTE_DOUBLE]). *)
Inductive NodeType : Type :=
| ALIAS | BLOCK_FOLDED | BLOCK_LITERAL | FLOW_MAP | FLOW_SEQ | MAP | PAIR
| PLAIN | QUOTE_DOUBLE | QUOTE_SINGLE | SEQ.

Definition NodeType_eqb (a b : NodeType) : bool :=
  match a, b with
  | ALIAS, ALIAS | BLOCK_FOLDED, BLOCK_FOLDED | BLOCK_LITERAL, BLOCK_LITERAL
  | FLOW_MAP, FLOW_MAP | FLOW_SEQ, FLOW_SEQ | MAP, MAP | PAIR, PAIR
  | PLAIN, PLAIN | QUOTE_DOUBLE, QUOTE_DOUBLE | QUOTE_SINGLE, QUOTE_SINGLE
  | SEQ, SEQ => true
  | _, _ => false
  end.

(** [common/ReferenceTypes] *)
Inductive ReferenceType : Type :=
| REF | SUB | GET_ATT | IF | FIND_IN_MAP | DEPENDS_ON.

Record Reference : Type := mkReference {
  refType : ReferenceType;
  referencedKey : string;
  absoluteKeyPosition : Z }.

(** The key node of a map entry; the analysis reads its start offset only. *)
Record KeyNode : Type := mkKey { keyRange0 : Z }.

(** A node of the tree. [range0] is [range[0]], the absolute start offset.
    A scalar carries the [references] the extractor stores on it and the
    [stringKey] it is classified by, and its value is a string, as the
    sources take it to be; a pair is a map entry, its value being absent for
    an entry without one. *)
Inductive Node : Type :=
| Scalar (type : NodeType) (tag : option string) (stringKey : option string)
    (value : string) (range0 : Z) (references : option (list Reference))
| Pair (tag : option string) (key : KeyNode) (stringKey : string) (value : option Node)
| Collection (type : NodeType) (tag : option string) (items : list Node) (range0 : Z).

(** The value of a property read off a node. *)
Inductive JsValue : Type :=
| Undefined
| Str (s : string)
| NodeRef (n : Node).

Record Document : Type := mkDocument { contents : option Node }.

Definition type_of (n : Node) : NodeType :=
  match n with
  | Scalar t _ _ _ _ _ => t
  | Pair _ _ _ _ => PAIR
  | Collection t _ _ _ => t
  end.

Definition tag_of (n : Node) : option string :=
  match n with
  | Scalar _ t _ _ _ _ => t
  | Pair t _ _ _ => t
  | Collection _ t _ _ => t
  end.

Definition stringKey_of (n : Node) : option string :=
  match n with
  | Scalar _ _ k _ _ _ => k
  | Pair _ _ k _ => Some k
  | Collection _ _ _ _ => None
  end.

Definition items_of (n : Node) : option (list Node) :=
  match n with
  | Collection _ _ its _ => Some its
  | _ => None
  end.

Definition value_of (n : Node) : JsValue :=
  match n with
  | Scalar _ _ _ v _ _ => Str v
  | Pair _ _ _ (Some v) => NodeRef v
  | Pair _ _ _ None => Undefined
  | Collection _ _ _ _ => Undefined
  end.

Definition key_of (n : Node) : option KeyNode :=
  match n with
  | Pair _ k _ _ => Some k
  | _ => None
  end.

Definition references_of (n : Node) : option (list Reference) :=
  match n with
  | Scalar _ _ _ _ _ r => r
  | _ => None
  end.

(** [node.tag = t] *)
Definition setTag (n : Node) (t : option string) : Node :=
  match n with
  | Scalar ty _ k v r refs => Scalar ty t k v r refs
  | Pair _ k sk v => Pair t k sk v
  | Collection ty _ its r => Collection ty t its r
  end.

(** [node.references = refs], on the scalars that hold references. *)
Definition setReferences (n : Node) (refs : list Reference) : Node :=
  match n with
  | Scalar ty t k v r _ => Scalar ty t k v r (Some refs)
  | _ => n
  end.

(** The nesting depth of a node, which bounds every traversal of it. *)
Fixpoint height (n : Node) : nat :=
  match n with
  | Scalar _ _ _ _ _ _ => O
  | Pair _ _ _ v =>
    match v with
    | Some m => S (height m)
    | None => O
    end
  | Collection _ _ its _ =>
    S (List.fold_right (fun m acc => Nat.max (height m) acc) O its)
  end.

(** The outcome of an operation that may raise an exception, the exception
    being given by its printed form. *)
Inductive Outcome (A : Type) : Type :=
| Ok (a : A)
| Throw (e : string).
Arguments Ok {A} a.
Arguments Throw {A} e.

Definition TypeError : string := "TypeError".

Definition bindO {A B : Type} (m : Outcome A) (f : A -> Outcome B) : Outcome B :=
  match m with
  | Ok a => f a
  | Throw e => Throw e
  end.

(** [l.map(f)] for an [f] that may throw: the first exception ends the loop. *)
Fixpoint mapO {A B : Type} (f : A -> Outcome B) (l : list A) : Outcome (list B) :=
  match l with
  | [] => Ok []
  | x :: r => bindO (f x) (fun y => bindO (mapO f r) (fun ys => Ok (y :: ys)))
  end.

(** [flattenArray] of [common]: the concatenation of an array of arrays. *)
Definition flattenArray {A : Type} (l : list (list A)) : list A := List.concat l.

(** Modelled from the spec: [getNodeItemByStringKey] of [common/Yaml] is not
    part of the sources. The first item of the node stored under the key, or
    nothing. *)
Definition getNodeItemByStringKey (node : Node) (k : string) : option Node :=
  match items_of node with
  | Some its =>
    List.find (fun it => match stringKey_of it with
                         | Some sk => String.eqb sk k
                         | None => false
                         end) its
  | None => None
  end.

(** The parser's [get(key)] of a collection: the value of the entry of a map
    stored under that key, a scalar being given by its value; a sequence has
    no entry under a name; any other node has no such method. *)
Definition get (n : Node) (k : string) : Outcome JsValue :=
  match n with
  | Collection ty _ _ _ =>
    if NodeType_eqb ty MAP || NodeType_eqb ty FLOW_MAP then
      match getNodeItemByStringKey n k with
      | Some (Pair _ _ _ (Some (Scalar _ _ _ v _ _))) => Ok (Str v)
      | Some (Pair _ _ _ (Some v)) => Ok (NodeRef v)
      | _ => Ok Undefined
      end
    else Ok Undefined
  | _ => Throw TypeError
  end.

(** [v.get(key)] on a value that need not be a node. *)
Definition getOf (v : JsValue) (k : string) : Outcome JsValue :=
  match v with
  | NodeRef n => get n k
  | _ => Throw TypeError
  end.

(** [document.get(key)]: the document answers for contents that are a
    collection and gives undefined otherwise. *)
Definition documentGet (d : Document) (k : string) : JsValue :=
  match contents d with
  | Some (Collection ty t its r) =>
    match get (Collection ty t its r) k with
    | Ok v => v
    | Throw _ => Undefined
    end
  | _ => Undefined
  end.

(** [getYamlNodeKeys(yamlNode)], as the first revision of the class defines
    it: the [stringKey] of every item. *)
Definition getYamlNodeKeys (yamlNode : JsValue) : list (option string) :=
  match yamlNode with
  | NodeRef n =>
    match items_of n with
    | Some its => List.map stringKey_of its
    | None => []
    end
  | _ => []
  end.

(** Modelled from the spec: [getNodeValueIfPair] of [common/Yaml] is not part
    of the sources. A map entry stands for its value node, which inherits the
    entry's tag when it has none of its own and is classified by the entry's
    key name; any other node stands for itself. An entry without a value
    yields nothing. *)
Definition getNodeValueIfPair (node : Node) : option Node :=
  match node with
  | Pair t _ sk v =>
    match v with
    | Some (Scalar ty t' _ val r refs) =>
      Some (Scalar ty (if truthy t' then t' else t) (Some sk) val r refs)
    | Some (Collection ty t' its r) =>
      Some (Collection ty (if truthy t' then t' else t) its r)
    | Some (Pair t' k' sk' v') => Some (Pair (if truthy t' then t' else t) k' sk' v')
    | None => None
    end
  | _ => Some node
  end.

End Yaml.

(** ** The analysis of one document *)

Module CloudformationYaml.
Import Js Yaml.

Definition Position : Type := Legacy.Position.

Inductive DiagnosticSeverity : Type := Error | Warning.

Record Range : Type := mkRange {
  startLine : Z; startColumn : Z; endLine : Z; endColumn : Z }.

Record Diagnostic : Type := mkDiagnostic {
  range : Range;
  severity : DiagnosticSeverity;
  message : string }.

(** Modelled from the spec: [createDiagnostic] of [common/Diagnostics] is not
    part of the sources. The range spans from (line, column) to
    (line, column + length), within one line. *)
Definition createDiagnostic (position : Position) (length : Z)
    (severity : DiagnosticSeverity) (message : string) : Diagnostic :=
  mkDiagnostic
    (mkRange (Legacy.line position) (Legacy.column position)
             (Legacy.line position) (Legacy.column position + length))
    severity message.

(** What the analysis takes from outside the class: the file system and the
    parser, each of which may throw, the position mapper imported from
    [common], and the message table of [common/Maps]. *)
Record Host : Type := mkHost {
  readFileSync : string -> Outcome string;
  parseDocument : string -> Outcome Document;
  getRowColumnPosition : string -> Z -> Position;
  referenceTypeToDiagnosticMessage : ReferenceType -> string -> string }.

(** Modelled from the spec: [Maps.nodeTagToReferenceType] of [common/Maps] is
    not part of the sources. The kind that corresponds to each of the three
    tag contexts that name a referenced entity directly. *)
Definition nodeTagToReferenceType (nodeTag : option string) : option ReferenceType :=
  match nodeTag with
  | Some t =>
    if String.eqb t "!If" then Some IF
    else if String.eqb t "!FindInMap" then Some FIND_IN_MAP
    else if String.eqb t "DependsOn" then Some DEPENDS_ON
    else None
  | None => None
  end.

(** Modelled from the spec: [Maps.nodeTypeToSubOffset] of [common/Maps] is not
    part of the sources. The adjustment is 1 for a quoted scalar and 0 for a
    plain one; the table is read for these two types only. *)
Definition nodeTypeToSubOffset (t : NodeType) : Z :=
  match t with
  | QUOTE_DOUBLE => 1
  | _ => 0
  end.

Definition tagIs (t : option string) (s : string) : bool :=
  match t with
  | Some t' => String.eqb t' s
  | None => false
  end.

(** [match[0].substring(2, match[0].length - 1)] *)
Definition placeholderName (m : RegExpMatch) : string :=
  substring (matched m) 2 (strlen (matched m) - 1).

(** The references of a [!Sub] scalar, one for each match of the regular
    expression in its value. *)
Definition subReferences (type : NodeType) (value : string) (range0 : Z) : list Reference :=
  List.map (fun m : RegExpMatch =>
              let referencedKey := placeholderName m in
              let quotesOffset := nodeTypeToSubOffset type in
              mkReference SUB referencedKey (range0 + 5 + quotesOffset + 2 + index m))
           (execAllPlaceholder value).

(** The last part of [getSubNodesWhichReference]: the inspection of a node
    that is neither a flow sequence nor a map. The first test stands for
    [nodeTag === '!If' || nodeTag === '!FindInMap' || nodeTag === 'DependsOn']
    together with the lookup of the kind in the table. *)
Definition inspectNode (nodeValue : Node) : list Node :=
  match nodeValue with
  | Scalar type tag stringKey value range0 _ =>
    if NodeType_eqb type PLAIN || NodeType_eqb type QUOTE_DOUBLE then
      let nodeTag := orElse tag stringKey in
      match nodeTagToReferenceType nodeTag with
      | Some kind => [setReferences nodeValue [mkReference kind value range0]]
      | None =>
        if tagIs tag "!GetAtt" then
          [setReferences nodeValue [mkReference GET_ATT value (range0 + 8)]]
        else if tagIs tag "!Ref" && negb (startsWith value "AWS::") then
          [setReferences nodeValue [mkReference REF value (range0 + 5)]]
        else if tagIs tag "!Sub" then
          [setReferences nodeValue (subReferences type value range0)]
        else []
      end
    else []
  | _ => []
  end.

(** [if (!item.tag) item.tag = tag] *)
Definition inheritTag (item : Node) (tag : option string) : Node :=
  if truthy (tag_of item) then item else setTag item tag.

Definition RangeError : string := "RangeError".

(** [getSubNodesWhichReference(node)] for a node that is present. The
    recursion descends into the items of the node, so the fuel stands for the
    call stack; [getSubNodesWhichReference] below provides enough of it. *)
Fixpoint getSubNodesWhichReferenceFuel (fuel : nat) (node : Node) : Outcome (list Node) :=
  match fuel with
  | O => Throw RangeError
  | S fuel' =>
    match getNodeValueIfPair node with
    | None => Throw TypeError
    | Some nodeValue =>
      match (if NodeType_eqb (type_of nodeValue) FLOW_SEQ then items_of nodeValue else None) with
      | Some (firstSubNode :: items) =>
        bindO (getSubNodesWhichReferenceFuel fuel' (inheritTag firstSubNode (tag_of nodeValue)))
          (fun firstSubNodes =>
        bindO (mapO (getSubNodesWhichReferenceFuel fuel') items)
          (fun restOfSubNodes =>
        Ok (firstSubNodes ++ flattenArray restOfSubNodes)))
      | _ =>
        match (if NodeType_eqb (type_of nodeValue) MAP then items_of nodeValue else None) with
        | Some items =>
          bindO (mapO (fun item =>
                         getSubNodesWhichReferenceFuel fuel' (inheritTag item (tag_of nodeValue)))
                      items)
            (fun subNodes => Ok (flattenArray subNodes))
        | None => Ok (inspectNode nodeValue)
        end
      end
    end
  end.

(** [getSubNodesWhichReference(node)] *)
Definition getSubNodesWhichReference (node : JsValue) : Outcome (list Node) :=
  match node with
  | NodeRef n => getSubNodesWhichReferenceFuel (S (height n)) n
  | _ => Ok []
  end.

(** [getNodesWhichReference(document)] *)
Definition getNodesWhichReference (document : Document) : Outcome (list Node) :=
  let resources := documentGet document "Resources" in
  let outputs := documentGet document "Outputs" in
  bindO (getSubNodesWhichReference resources) (fun a =>
  bindO (getSubNodesWhichReference outputs) (fun b =>
  Ok (a ++ b))).

(** [getSubStackNodePairs(node)] for a node that is present. *)
Fixpoint getSubStackNodePairsFuel (fuel : nat) (node : Node) : Outcome (list Node) :=
  match fuel with
  | O => Throw RangeError
  | S fuel' =>
    match getNodeValueIfPair node with
    | None => Throw TypeError
    | Some nodeValue =>
      match (if NodeType_eqb (type_of nodeValue) MAP then items_of nodeValue else None) with
      | Some items =>
        bindO (get nodeValue "Type") (fun type =>
        match type with
        | Str "AWS::CloudFormation::Stack" => Ok [node]
        | _ =>
          bindO (mapO (getSubStackNodePairsFuel fuel') items)
            (fun subStackNodePairs => Ok (flattenArray subStackNodePairs))
        end)
      | None => Ok []
      end
    end
  end.

Definition getSubStackNodePairs (node : option Node) : Outcome (list Node) :=
  match node with
  | Some n => getSubStackNodePairsFuel (S (height n)) n
  | None => Ok []
  end.

(** [findSubStackNodePairs(document)] *)
Definition findSubStackNodePairs (document : Document) : Outcome (list Node) :=
  match contents document with
  | Some c =>
    match items_of c with
    | Some documentItems =>
      let resources := List.find (fun item => tagIs (stringKey_of item) "Resources") documentItems in
      getSubStackNodePairs resources
    | None => Ok []
    end
  | None => Ok []
  end.

(** *** The diagnostic collection

    The passes below add to the diagnostics registered for the document
    under analysis and may throw; what was added before an exception stays
    in the collection. *)

Definition M (A : Type) : Type := list Diagnostic -> Outcome A * list Diagnostic.

Definition ret {A : Type} (a : A) : M A := fun ds => (Ok a, ds).

Definition throw {A : Type} (e : string) : M A := fun ds => (Throw e, ds).

Definition bindM {A B : Type} (m : M A) (f : A -> M B) : M B :=
  fun ds =>
    match m ds with
    | (Ok a, ds') => f a ds'
    | (Throw e, ds') => (Throw e, ds')
    end.

Definition lift {A : Type} (o : Outcome A) : M A := fun ds => (o, ds).

Notation "x <- c1 ;; c2" := (bindM c1 (fun x => c2))
  (at level 100, c1 at next level, right associativity).

(** [addDiagnostic(uri, newDiagnostic)] *)
Definition addDiagnostic (newDiagnostic : Diagnostic) : M unit :=
  fun existingDiagnostics => (Ok tt, existingDiagnostics ++ [newDiagnostic]).

(** [l.forEach(f)] *)
Fixpoint forEach {A : Type} (l : list A) (f : A -> M unit) : M unit :=
  match l with
  | [] => ret tt
  | x :: r => _ <- f x ;; forEach r f
  end.

(** A loop whose body updates the local variables [s] of the enclosing
    function. *)
Fixpoint foldM {A S : Type} (l : list A) (f : S -> A -> M S) (s : S) : M S :=
  match l with
  | [] => ret s
  | x :: r => s' <- f s x ;; foldM r f s'
  end.

(** *** Referenceables *)

Record ParameterReferenceable : Type := mkParameter {
  parameterName : string;
  hasDefault : bool }.

Record SubStackReferenceables : Type := mkSubStack {
  outputs : list string;
  parameters : gmap string (list ParameterReferenceable) }.

Record Referenceables : Type := mkReferenceables {
  subStackReferenceables : SubStackReferenceables;
  refParameters : list (option string);
  refResources : list (option string);
  refMappings : list (option string);
  refConditions : list (option string) }.

(** [!!v] *)
Definition toBoolean (v : JsValue) : bool :=
  match v with
  | Undefined => false
  | Str s => negb (String.eqb s "")
  | NodeRef _ => true
  end.

(** The loop over the declared parameters of a loaded child template. *)
Definition collectParameter (templateUrl : string)
    (referenceableParameters : gmap string (list ParameterReferenceable)) (item : Node)
    : M (gmap string (list ParameterReferenceable)) :=
  match item with
  | Pair _ _ stringKey (Some value) =>
    defaultValue <- lift (get value "Default") ;;
    ret (<[templateUrl :=
             default [] (referenceableParameters !! templateUrl)
             ++ [mkParameter stringKey (toBoolean defaultValue)]]>
           referenceableParameters)
  | _ => ret referenceableParameters
  end.

Definition loadFailureMessage (filePath error : string) : string :=
  "Unable to load or parse template file, '" +:+ filePath
  +:+ "'. Error encountered: " +:+ error.

(** The body of the loop of [getSubStackReferenceables]; [acc] holds the
    local variables [referenceableOutputs] and [referenceableParameters].
    An exception carries the text that
    [JSON.stringify(revealAllProperties(error))] gives for it. *)
Definition subStackReferenceablesOf (host : Host) (fullText parentPath : string)
    (acc : SubStackReferenceables) (nodePair : Node) : M SubStackReferenceables :=
  properties <- lift (getOf (value_of nodePair) "Properties") ;;
  templateUrl <- lift (getOf properties "TemplateURL") ;;
  match templateUrl with
  | Str templateUrl =>
    let referenceableParameters := <[templateUrl := []]> (parameters acc) in
    let filePath := parentPath +:+ "/" +:+ templateUrl in
    match bindO (readFileSync host filePath) (parseDocument host) with
    | Throw error =>
      match properties with
      | NodeRef propertiesNode =>
        match getNodeItemByStringKey propertiesNode "TemplateURL" with
        | None => ret (mkSubStack (outputs acc) referenceableParameters)
        | Some templateUrlNodePair =>
          match value_of templateUrlNodePair with
          | NodeRef (Scalar _ _ _ templateUrl range0 _) =>
            let position := getRowColumnPosition host fullText range0 in
            let diagnostic :=
              createDiagnostic position (strlen templateUrl) Error
                               (loadFailureMessage filePath error) in
            _ <- addDiagnostic diagnostic ;;
            ret (mkSubStack (outputs acc) referenceableParameters)
          | _ => throw TypeError
          end
        end
      | _ => throw TypeError
      end
    | Ok document =>
      match contents document with
      | None => throw TypeError
      | Some documentContents =>
        childOutputs <- lift (get documentContents "Outputs") ;;
        let outputKeys := getYamlNodeKeys childOutputs in
        let referenceableOutputs :=
          outputs acc
          ++ List.map (fun key => interpolate (stringKey_of nodePair)
                                  +:+ ".Outputs." +:+ interpolate key) outputKeys in
        childParameters <- lift (get documentContents "Parameters") ;;
        match childParameters with
        | NodeRef parametersNode =>
          match items_of parametersNode with
          | Some items =>
            referenceableParameters' <-
              foldM items (collectParameter templateUrl) referenceableParameters ;;
            ret (mkSubStack referenceableOutputs referenceableParameters')
          | None => ret (mkSubStack referenceableOutputs referenceableParameters)
          end
        | _ => ret (mkSubStack referenceableOutputs referenceableParameters)
        end
      end
    end
  | _ => ret acc
  end.

(** [getSubStackReferenceables(fullText, documentUri, subStackNodePairs, parentPath)],
    started from given contents of its two local variables. *)
Definition getSubStackReferenceablesFrom (host : Host) (fullText : string)
    (subStackNodePairs : list Node) (parentPath : string)
    (acc : SubStackReferenceables) : M SubStackReferenceables :=
  foldM subStackNodePairs (subStackReferenceablesOf host fullText parentPath) acc.

Definition getSubStackReferenceables (host : Host) (fullText : string)
    (subStackNodePairs : list Node) (parentPath : string) : M SubStackReferenceables :=
  getSubStackReferenceablesFrom host fullText subStackNodePairs parentPath (mkSubStack [] ∅).

Definition emptyReferenceables : Referenceables :=
  mkReferenceables (mkSubStack [] ∅) [] [] [] [].

(** [getReferenceables(documentUri, editor)], the editor giving the text and
    the file name of the document. *)
Definition getReferenceables (host : Host) (fullText rootFilePath : string) : M Referenceables :=
  document <- lift (parseDocument host fullText) ;;
  match contents document with
  | Some documentContents =>
    parameters <- lift (get documentContents "Parameters") ;;
    resources <- lift (get documentContents "Resources") ;;
    conditions <- lift (get documentContents "Conditions") ;;
    mappings <- lift (get documentContents "Mappings") ;;
    subStackNodePairs <- lift (findSubStackNodePairs document) ;;
    let parentPath := substring rootFilePath 0 (lastIndexOf rootFilePath "/") in
    subStackReferenceables <-
      getSubStackReferenceables host fullText subStackNodePairs parentPath ;;
    ret (mkReferenceables subStackReferenceables
           (getYamlNodeKeys parameters) (getYamlNodeKeys resources)
           (getYamlNodeKeys mappings) (getYamlNodeKeys conditions))
  | None => ret emptyReferenceables
  end.

(** *** Unresolved references *)

Definition optionStringEqb (a b : option string) : bool :=
  match a, b with
  | Some x, Some y => String.eqb x y
  | None, None => true
  | _, _ => false
  end.

Definition isGetAtt (t : ReferenceType) : bool :=
  match t with
  | GET_ATT => true
  | _ => false
  end.

Definition localReferenceablesOf (referenceables : Referenceables) : list (option string) :=
  refConditions referenceables ++ refMappings referenceables
  ++ refParameters referenceables ++ refResources referenceables.

(** The body of the inner loop of [buildInvalidReferenceDiagnostics]. *)
Definition checkReference (host : Host) (fullText : string)
    (referenceables : Referenceables) (localReferenceables : list (option string))
    (reference : Reference) : M unit :=
  let position := getRowColumnPosition host fullText (absoluteKeyPosition reference) in
  let message :=
    referenceTypeToDiagnosticMessage host (refType reference) (referencedKey reference) in
  let diagnostic :=
    createDiagnostic position (strlen (referencedKey reference)) Error message in
  if isGetAtt (refType reference) then
    if Z.ltb (indexOf String.eqb (outputs (subStackReferenceables referenceables))
                      (referencedKey reference)) 0
    then addDiagnostic diagnostic
    else ret tt
  else
    if Z.ltb (indexOf optionStringEqb localReferenceables (Some (referencedKey reference))) 0
    then addDiagnostic diagnostic
    else ret tt.

(** [buildInvalidReferenceDiagnostics(fullText, documentUri, referenceables, nodesWhichReference)] *)
Definition buildInvalidReferenceDiagnostics (host : Host) (fullText : string)
    (referenceables : Referenceables) (nodesWhichReference : list Node) : M unit :=
  let localReferenceables := localReferenceablesOf referenceables in
  forEach nodesWhichReference (fun node =>
    match references_of node with
    | Some references =>
      forEach references (checkReference host fullText referenceables localReferenceables)
    | None => throw TypeError
    end).

(** *** Parameters handed to a sub stack *)

(** [getNodeValueIfPair] of an item that was looked up; the properties of
    an absent result cannot be read. *)
Definition valueOfItem (item : option Node) : Outcome Node :=
  match item with
  | Some node =>
    match getNodeValueIfPair node with
    | Some nodeValue => Ok nodeValue
    | None => Throw TypeError
    end
  | None => Throw TypeError
  end.

(** [l.splice(l.indexOf(l.find(p)), 1)]: the list without the first
    parameter of that name, when there is one. *)
Fixpoint removeMatching (stringKey : option string) (l : list ParameterReferenceable)
    : option (list ParameterReferenceable) :=
  match l with
  | [] => None
  | p :: r =>
    if optionStringEqb stringKey (Some (parameterName p)) then Some r
    else option_map (cons p) (removeMatching stringKey r)
  end.

Definition unknownParameterMessage (stringKey : string) : string :=
  "Referenced file does not have parameter, '" +:+ stringKey +:+ "'".

Definition missingParameterMessage (p : ParameterReferenceable) : string :=
  if hasDefault p
  then "Properties missing value for parameter with default value, '"
       +:+ parameterName p +:+ "'"
  else "Properties missing value for required parameter, '" +:+ parameterName p +:+ "'".

Definition missingParameterSeverity (p : ParameterReferenceable) : DiagnosticSeverity :=
  if hasDefault p then Warning else Error.

(** The loop over the parameters that the parent hands to the sub stack;
    the state is the list of declared parameters not matched so far. *)
Definition checkSuppliedParameter (host : Host) (fullText : string)
    (referenceableParameters : list ParameterReferenceable) (parameterPair : Node)
    : M (list ParameterReferenceable) :=
  match removeMatching (stringKey_of parameterPair) referenceableParameters with
  | Some remaining => ret remaining
  | None =>
    match parameterPair with
    | Pair _ keyNode stringKey _ =>
      let position := getRowColumnPosition host fullText (keyRange0 keyNode) in
      let diagnostic :=
        createDiagnostic position (strlen stringKey) Error
                         (unknownParameterMessage stringKey) in
      _ <- addDiagnostic diagnostic ;;
      ret referenceableParameters
    | _ => throw TypeError
    end
  end.

(** The loop over the declared parameters that were not handed over. *)
Definition reportMissingParameter (propertiesPosition : Position)
    (referenceableParameter : ParameterReferenceable) : M unit :=
  addDiagnostic
    (createDiagnostic propertiesPosition (strlen "Properties")
       (missingParameterSeverity referenceableParameter)
       (missingParameterMessage referenceableParameter)).

(** The body of the loop of [buildInvalidSubStackParameterDiagnostics]. *)
Definition checkSubStack (host : Host) (fullText : string)
    (subStackReferenceables : SubStackReferenceables) (subStackNodePair : Node) : M unit :=
  match value_of subStackNodePair with
  | NodeRef subStackNodeValue =>
    properties <- lift (valueOfItem (getNodeItemByStringKey subStackNodeValue "Properties")) ;;
    templateUrl <- lift (get properties "TemplateURL") ;;
    match templateUrl with
    | Str templateUrl =>
      parameters' <- lift (valueOfItem (getNodeItemByStringKey properties "Parameters")) ;;
      match items_of parameters', parameters subStackReferenceables !! templateUrl with
      | Some items, Some referenceableParameters =>
        remaining <- foldM items (checkSuppliedParameter host fullText) referenceableParameters ;;
        match remaining with
        | [] => ret tt
        | _ :: _ =>
          match getNodeItemByStringKey properties "Parameters" with
          | None => ret tt
          | Some propertiesPair =>
            match key_of propertiesPair with
            | Some keyNode =>
              let propertiesPosition :=
                getRowColumnPosition host fullText (keyRange0 keyNode) in
              forEach remaining (reportMissingParameter propertiesPosition)
            | None => throw TypeError
            end
          end
        end
      | _, _ => throw TypeError
      end
    | _ => ret tt
    end
  | _ => ret tt
  end.

(** [buildInvalidSubStackParameterDiagnostics(fullText, documentUri, subStackReferenceables, subStackNodePairs)] *)
Definition buildInvalidSubStackParameterDiagnostics (host : Host) (fullText : string)
    (subStackReferenceables : SubStackReferenceables) (subStackNodePairs : list Node) : M unit :=
  forEach subStackNodePairs (checkSubStack host fullText subStackReferenceables).

(** *** The pass *)

(** The body of the [try] block of [checkYaml], for an active editor that
    shows the text [fullText] of the file [fileName]. *)
Definition analyse (host : Host) (fullText fileName : string) : M unit :=
  document <- lift (parseDocument host fullText) ;;
  referenceables <- getReferenceables host fullText fileName ;;
  nodesWhichReference <- lift (getNodesWhichReference document) ;;
  _ <- buildInvalidReferenceDiagnostics host fullText referenceables nodesWhichReference ;;
  subStackNodePairs <- lift (findSubStackNodePairs document) ;;
  buildInvalidSubStackParameterDiagnostics host fullText
    (subStackReferenceables referenceables) subStackNodePairs.

(** [checkYaml()]: the diagnostics of the document are deleted, the analysis
    runs, and an exception is caught and logged. The result is what the
    collection then holds for the document. *)
Definition checkYaml (host : Host) (fullText fileName : string) : list Diagnostic :=
  snd (analyse host fullText fileName []).

(** *** The vocabulary of the statements about the pass *)

(** The diagnostic of a reference that does not resolve. *)
Definition referenceDiagnostic (host : Host) (fullText : string) (reference : Reference)
    : Diagnostic :=
  createDiagnostic
    (getRowColumnPosition host fullText (absoluteKeyPosition reference))
    (strlen (referencedKey reference)) Error
    (referenceTypeToDiagnosticMessage host (refType reference) (referencedKey reference)).

(** Resolution as the specification words it: a GetAtt reference resolves
    against the outputs of the sub stacks only, any other reference against
    the union of the local parameters, resources, conditions and mappings. *)
Definition resolves (referenceables : Referenceables) (reference : Reference) : Prop :=
  match refType reference with
  | GET_ATT =>
    In (referencedKey reference) (outputs (subStackReferenceables referenceables))
  | _ =>
    In (Some (referencedKey reference))
       (refParameters referenceables ++ refResources referenceables
        ++ refConditions referenceables ++ refMappings referenceables)
  end.

Definition resolvesb (referenceables : Referenceables) (reference : Reference) : bool :=
  match refType reference with
  | GET_ATT =>
    List.existsb (String.eqb (referencedKey reference))
                 (outputs (subStackReferenceables referenceables))
  | _ =>
    List.existsb (optionStringEqb (Some (referencedKey reference)))
                 (refParameters referenceables ++ refResources referenceables
                  ++ refConditions referenceables ++ refMappings referenceables)
  end.

(** A parameter that the parent hands to a sub stack: an entry of the
    [Parameters] block. *)
Record SuppliedParameter : Type := mkSupplied {
  suppliedTag : option string;
  suppliedKey : KeyNode;
  suppliedName : string;
  suppliedValue : option Node }.

Definition suppliedPair (p : SuppliedParameter) : Node :=
  Pair (suppliedTag p) (suppliedKey p) (suppliedName p) (suppliedValue p).

(** The diagnostic of a handed-over parameter that the child does not
    declare, at the key of that parameter. *)
Definition unknownParameterDiagnostic (host : Host) (fullText : string)
    (p : SuppliedParameter) : Diagnostic :=
  createDiagnostic
    (getRowColumnPosition host fullText (keyRange0 (suppliedKey p)))
    (strlen (suppliedName p)) Error
    (unknownParameterMessage (suppliedName p)).

(** The diagnostic of a declared parameter that was not handed over, at the
    key of the [Parameters] block. *)
Definition missingParameterDiagnostic (host : Host) (fullText : string)
    (blockKey : KeyNode) (p : ParameterReferenceable) : Diagnostic :=
  createDiagnostic
    (getRowColumnPosition host fullText (keyRange0 blockKey))
    (strlen "Properties")
    (missingParameterSeverity p) (missingParameterMessage p).

(** The tags and names that the extractor takes for a reference. *)
Definition intrinsicName (s : string) : bool :=
  String.eqb s "!Ref" || String.eqb s "!Sub" || String.eqb s "!GetAtt"
  || String.eqb s "!If" || String.eqb s "!FindInMap" || String.eqb s "DependsOn".

Definition intrinsicTag (t : option string) : bool :=
  match t with
  | Some s => intrinsicName s
  | None => false
  end.

(** A tree without intrinsic usage: no node carries one of the tags that
    the extractor takes for a reference, whatever other tag it carries, and
    no key is one of the names that mark a direct reference. *)
Fixpoint withoutIntrinsic (n : Node) : bool :=
  match n with
  | Scalar _ tag stringKey _ _ _ =>
    negb (intrinsicTag tag)
    && match nodeTagToReferenceType stringKey with Some _ => false | None => true end
  | Pair tag _ stringKey value =>
    negb (intrinsicTag tag)
    && match nodeTagToReferenceType (Some stringKey) with Some _ => false | None => true end
    && match value with Some m => withoutIntrinsic m | None => true end
  | Collection _ tag items _ =>
    negb (intrinsicTag tag) && List.forallb withoutIntrinsic items
  end.

Definition noIntrinsicUsage (document : Document) : bool :=
  match contents document with
  | Some n => withoutIntrinsic n
  | None => true
  end.

(** The document declares a resource that the analysis takes for a sub
    stack. *)
Definition declaresSubStack (document : Document) : Prop :=
  exists pair pairs, findSubStackNodePairs document = Ok (pair :: pairs).

(** The bookkeeping of the matcher: the handed-over parameters without a
    declared parameter left to match, and the declared parameters left
    over. *)
Fixpoint matchSupplied (supplied : list SuppliedParameter)
    (declared : list ParameterReferenceable)
    : list SuppliedParameter * list ParameterReferenceable :=
  match supplied with
  | [] => ([], declared)
  | p :: rest =>
    match removeMatching (Some (suppliedName p)) declared with
    | Some remaining => matchSupplied rest remaining
    | None =>
      let (unknown, remaining) := matchSupplied rest declared in
      (p :: unknown, remaining)
    end
  end.

(** The node holds the list of its references. *)
Definition holdsReferences (n : Node) : Prop := exists refs, references_of n = Some refs.

(** The computation leaves what the collection holds and adds to it. *)
Definition extends {A : Type} (m : M A) : Prop :=
  forall ds, exists extra, snd (m ds) = ds ++ extra.

End CloudformationYaml.

(** * Scenarios *)

Module Scenarios.
Import Js Yaml CloudformationYaml.

(** A position mapper that answers on the first line as well. *)
Definition positionOf (text : string) (absolutePosition : Z) : Position :=
  Legacy.resolve text absolutePosition.

Definition unresolvedMessage (kind : ReferenceType) (referencedKey : string) : string :=
  "Unable to find referenced variable, '" +:+ referencedKey +:+ "'".

Definition plain (value : string) (range0 : Z) : Node :=
  Scalar PLAIN None None value range0 None.

Definition tagged (type : NodeType) (tag value : string) (range0 : Z) : Node :=
  Scalar type (Some tag) None value range0 None.

Definition entry (stringKey : string) (keyStart : Z) (value : Node) : Node :=
  Pair None (mkKey keyStart) stringKey (Some value).

Definition block (items : list Node) (range0 : Z) : Node :=
  Collection MAP None items range0.

(** A host that parses [text] into [document] and whose file system holds
    the given files. *)
Definition hostOf (text : string) (document : Document)
    (files : list (string * (string * Document))) : Host :=
  mkHost
    (fun path => match List.find (fun f => String.eqb (fst f) path) files with
                 | Some f => Ok (fst (snd f))
                 | None => Throw "ENOENT"
                 end)
    (fun t => if String.eqb t text then Ok document
              else match List.find (fun f => String.eqb (fst (snd f)) t) files with
                   | Some f => Ok (snd (snd f))
                   | None => Throw "YAMLSyntaxError"
                   end)
    positionOf unresolvedMessage.

(** A parent template with one sub stack and no intrinsic usage. *)
Definition parentText : string :=
"Resources:
  Child:
    Type: AWS::CloudFormation::Stack
    Properties:
      TemplateURL: child.yaml
".

Definition childProperties : Node :=
  block [entry "TemplateURL" 79 (plain "child.yaml" 92)] 79.

Definition childResource : Node :=
  entry "Child" 13 (block
    [entry "Type" 24 (plain "AWS::CloudFormation::Stack" 30);
     entry "Properties" 61 childProperties] 24).

Definition parentDocument : Document :=
  mkDocument (Some (block [entry "Resources" 0 (block [childResource] 13)] 0)).

(** A parent that hands [Foo] to its sub stack. *)
Definition handingText : string :=
"Resources:
  Child:
    Type: AWS::CloudFormation::Stack
    Properties:
      TemplateURL: child.yaml
      Parameters:
        Foo: bar
".

Definition fooParameter : SuppliedParameter :=
  mkSupplied None (mkKey 129) "Foo" (Some (plain "bar" 134)).

Definition handingProperties : Node :=
  block [entry "TemplateURL" 79 (plain "child.yaml" 92);
         entry "Parameters" 109 (block [suppliedPair fooParameter] 129)] 79.

Definition handingResource : Node :=
  entry "Child" 13 (block
    [entry "Type" 24 (plain "AWS::CloudFormation::Stack" 30);
     entry "Properties" 61 handingProperties] 24).

Definition handingDocument : Document :=
  mkDocument (Some (block [entry "Resources" 0 (block [handingResource] 13)] 0)).

(** A parent that hands nothing to its sub stack. *)
Definition emptyHandedText : string :=
"Resources:
  Child:
    Type: AWS::CloudFormation::Stack
    Properties:
      TemplateURL: child.yaml
      Parameters: {}
".

Definition emptyHandedProperties : Node :=
  block [entry "TemplateURL" 79 (plain "child.yaml" 92);
         entry "Parameters" 109 (Collection FLOW_MAP None [] 121)] 79.

Definition emptyHandedResource : Node :=
  entry "Child" 13 (block
    [entry "Type" 24 (plain "AWS::CloudFormation::Stack" 30);
     entry "Properties" 61 emptyHandedProperties] 24).

(** The child template declares [Baz]. *)
Definition requiredBaz : SubStackReferenceables :=
  mkSubStack ["Child.Outputs.Bucket"] {[ "child.yaml" := [mkParameter "Baz" false] ]}.

Definition optionalBaz : SubStackReferenceables :=
  mkSubStack ["Child.Outputs.Bucket"] {[ "child.yaml" := [mkParameter "Baz" true] ]}.

(** A template whose bucket name is built from a pseudo parameter, the
    scalar being plain or single-quoted. *)
Definition regionText : string :=
"Resources:
  Bucket:
    Type: AWS::S3::Bucket
    Properties:
      BucketName: !Sub ${AWS::Region}-logs
".

Definition quotedRegionText : string :=
"Resources:
  Bucket:
    Type: AWS::S3::Bucket
    Properties:
      BucketName: !Sub '${AWS::Region}-logs'
".

Definition regionDocumentOf (type : NodeType) : Document :=
  mkDocument (Some (block
    [entry "Resources" 0 (block
       [entry "Bucket" 13 (block
          [entry "Type" 25 (plain "AWS::S3::Bucket" 31);
           entry "Properties" 51 (block
             [entry "BucketName" 69 (tagged type "!Sub" "${AWS::Region}-logs" 81)] 69)]
          25)] 13)] 0)).

(** A template without intrinsic usage and without sub stack. *)
Definition bucketText : string :=
"Resources:
  Bucket:
    Type: AWS::S3::Bucket
".

Definition bucketDocument : Document :=
  mkDocument (Some (block
    [entry "Resources" 0 (block
       [entry "Bucket" 13 (block [entry "Type" 25 (plain "AWS::S3::Bucket" 31)] 25)] 13)] 0)).

(** The items of [!If [IsProd, !Ref Bucket, !Ref Topic]]. *)
Definition conditionalItems : list Node :=
  [plain "IsProd" 25; tagged PLAIN "!Ref" "Bucket" 33; tagged PLAIN "!Ref" "Topic" 46].

Definition localNames : Referenceables :=
  mkReferenceables (mkSubStack ["Child.Outputs.Bucket"] ∅)
                   [Some "Env"] [Some "Bucket"; Some "Child"] [] [Some "IsProd"].

(** Scalars tagged [!GetAtt]: an output of the sub stack, and a local name. *)
Definition outputAttribute : Node :=
  Scalar PLAIN (Some "!GetAtt") None "Child.Outputs.Bucket" 60
         (Some [mkReference GET_ATT "Child.Outputs.Bucket" 68]).

Definition localAttribute : Node :=
  Scalar PLAIN (Some "!GetAtt") None "Bucket" 90 (Some [mkReference GET_ATT "Bucket" 98]).

Definition conditionalNodes : list Node :=
  [Scalar PLAIN (Some "!If") None "IsProd" 25 (Some [mkReference IF "IsProd" 25]);
   Scalar PLAIN (Some "!Ref") None "Bucket" 33 (Some [mkReference REF "Bucket" 38]);
   Scalar PLAIN (Some "!Ref") None "Topic" 46 (Some [mkReference REF "Topic" 51])].

(** A child template that declares a required and an optional parameter and
    one output. *)
Definition childText : string :=
"Parameters:
  Foo:
    Type: String
  Bar:
    Type: String
    Default: x
Outputs:
  Bucket:
    Value: b
".

Definition childDocument : Document :=
  mkDocument (Some (block
    [entry "Parameters" 0 (block
       [entry "Foo" 14 (block [entry "Type" 23 (plain "String" 29)] 23);
        entry "Bar" 38 (block [entry "Type" 47 (plain "String" 53);
                               entry "Default" 64 (plain "x" 73)] 47)] 14);
     entry "Outputs" 75 (block
       [entry "Bucket" 86 (block [entry "Value" 98 (plain "b" 105)] 98)] 86)] 0)).

(** The file system that holds the child template beside the parent. *)
Definition childFiles : list (string * (string * Document)) :=
  [("/templates/child.yaml", (childText, childDocument))].

(** A parent whose sub stack has no properties, beside a topic with a
    reference that does not resolve. *)
Definition bareText : string :=
"Resources:
  Child:
    Type: AWS::CloudFormation::Stack
  Topic:
    Type: AWS::SNS::Topic
    Properties:
      TopicName: !Ref Missing
".

Definition bareResource : Node :=
  entry "Child" 13 (block [entry "Type" 24 (plain "AWS::CloudFormation::Stack" 30)] 24).

Definition bareDocument : Document :=
  mkDocument (Some (block
    [entry "Resources" 0 (block
       [bareResource;
        entry "Topic" 59 (block
          [entry "Type" 70 (plain "AWS::SNS::Topic" 76);
           entry "Properties" 96 (block
             [entry "TopicName" 114 (tagged PLAIN "!Ref" "Missing" 125)] 114)] 70)] 13)] 0)).

(** A template whose maps carry the default tag of the parser and whose
    bucket name is joined: tags, but no intrinsic usage. *)
Definition joinedText : string :=
"Resources:
  Bucket:
    Type: AWS::S3::Bucket
    Properties:
      BucketName: !Join ['-', [logs, eu]]
".

Definition defaultMap (items : list Node) (range0 : Z) : Node :=
  Collection MAP (Some "tag:yaml.org,2002:map") items range0.

Definition joinedDocument : Document :=
  mkDocument (Some (defaultMap
    [entry "Resources" 0 (defaultMap
       [entry "Bucket" 13 (defaultMap
          [entry "Type" 25 (plain "AWS::S3::Bucket" 31);
           entry "Properties" 51 (defaultMap
             [entry "BucketName" 69
                (Collection FLOW_SEQ (Some "!Join")
                   [Scalar QUOTE_SINGLE None None "-" 88 None;
                    Collection FLOW_SEQ None [plain "logs" 94; plain "eu" 100] 93]
                   81)] 69)]
          25)] 13)] 0)).

(** A template without any tag in which an entry is named as a tag. *)
Definition keyedText : string :=
"Resources:
  Topic:
    '!If': Missing
".

Definition keyedDocument : Document :=
  mkDocument (Some (block
    [entry "Resources" 0 (block
       [entry "Topic" 13 (block [entry "!If" 24 (plain "Missing" 31)] 24)] 13)] 0)).

End Scenarios.

(** * Further parts of the sources *)

(** ** The namespace [SubStack]: merging the definitions of sub stacks *)

Module SubStack.
Import Js Yaml CloudformationYaml.

(** The names that the object literal [{}] inherits from [Object.prototype].
    A lookup of one of them in an object that does not hold it gives a
    function, or the prototype itself: a value that is truthy and cannot be
    spread into an array. *)
Definition objectPrototypeNames : list string :=
  ["constructor"; "hasOwnProperty"; "isPrototypeOf"; "propertyIsEnumerable";
   "toLocaleString"; "toString"; "valueOf"; "__proto__";
   "__defineGetter__"; "__defineSetter__"; "__lookupGetter__"; "__lookupSetter__"].

Definition inherited (name : string) : bool :=
  List.existsb (String.eqb name) objectPrototypeNames.

(** A [forEach] loop that updates a local variable and that an exception
    ends. *)
Fixpoint foldO {A S : Type} (l : list A) (f : S -> A -> Outcome S) (s : S) : Outcome S :=
  match l with
  | [] => Ok s
  | x :: r => bindO (f s x) (foldO r f)
  end.

(** The body of the loop over [Object.keys(map)]: the list of the map is
    appended to the list that the result holds for the template URL, or
    stored when the result holds none; spreading what the result inherits
    under the name raises a [TypeError]. *)
Definition mergeEntry (referenceablesMap : gmap string (list ParameterReferenceable))
    (entry : string * list ParameterReferenceable)
    : Outcome (gmap string (list ParameterReferenceable)) :=
  match referenceablesMap !! entry.1 with
  | Some existingReferenceables =>
    Ok (<[entry.1 := existingReferenceables ++ entry.2]> referenceablesMap)
  | None =>
    if inherited entry.1 then Throw TypeError
    else Ok (<[entry.1 := entry.2]> referenceablesMap)
  end.

(** The body of the loop over the maps. *)
Definition mergeMap (referenceablesMap map : gmap string (list ParameterReferenceable))
    : Outcome (gmap string (list ParameterReferenceable)) :=
  foldO (map_to_list map) mergeEntry referenceablesMap.

(** [flattenParameterReferenceablesMapsMaps(allParameterReferenceablesMaps)] *)
Definition flattenParameterReferenceablesMapsMaps
    (allParameterReferenceablesMaps : list (gmap string (list ParameterReferenceable)))
    : Outcome (gmap string (list ParameterReferenceable)) :=
  foldO allParameterReferenceablesMaps mergeMap ∅.

(** [flattenDefinitions(allReferenceables)] *)
Definition flattenDefinitions (allReferenceables : list SubStackReferenceables)
    : Outcome SubStackReferenceables :=
  foldO allReferenceables
    (fun resultantReferenceables referenceable =>
       bindO (flattenParameterReferenceablesMapsMaps
                [parameters resultantReferenceables; parameters referenceable])
         (fun flattened =>
            Ok (mkSubStack (outputs resultantReferenceables ++ outputs referenceable)
                           flattened)))
    (mkSubStack [] ∅).

(** The lists that the maps hold for a template URL, in the order of the
    maps. *)
Definition listsFor (templateUrl : string)
    (maps : list (gmap string (list ParameterReferenceable)))
    : list (list ParameterReferenceable) :=
  List.flat_map (fun map => match map !! templateUrl with
                            | Some l => [l]
                            | None => []
                            end) maps.

(** The map that holds, for each template URL, the list of the first map
    followed by the list of the second. *)
Definition joined (a b : gmap string (list ParameterReferenceable))
    : gmap string (list ParameterReferenceable) :=
  union_with (fun x y : list ParameterReferenceable => Some (x ++ y)) a b.

(** No template URL of the map is a name of [Object.prototype]. *)
Definition ownNames (map : gmap string (list ParameterReferenceable)) : bool :=
  List.forallb (fun entry : string * list ParameterReferenceable => negb (inherited entry.1))
               (map_to_list map).

End SubStack.

(** ** The first revision of the class: unresolved references *)

Module LegacyPass.
Import Js Yaml CloudformationYaml.

Record Reference : Type := mkReference {
  referencedKey : string;
  keyPositionInValue : Z }.

(** A node that references: the start offset [range[0]] and the references
    stored on it. *)
Record ReferencingNode : Type := mkNode {
  range0 : Z;
  references : list Reference }.

Definition unresolvedMessage (referencedKey : string) : string :=
  "Unable to find referenced variable, '" +:+ referencedKey +:+ "'".

(** [new vscode.Range(startLine, startCharacter, endLine, endCharacter)]:
    the editor refuses a line or a character that is negative. The end is
    never before the start here, so the range is not turned round. *)
Definition newRange (startLine startCharacter endLine endCharacter : Z) : option Range :=
  if Z.ltb startLine 0 || Z.ltb startCharacter 0 || Z.ltb endLine 0 || Z.ltb endCharacter 0
  then None
  else Some (mkRange startLine startCharacter endLine endCharacter).

(** The body of the inner loop of [buildInvalidReferenceDiagnostics]:
    [None] stands for an exception, of the position mapper or of the
    editor. *)
Definition checkReference (fullText : string) (referenceableKeys : list (option string))
    (node : ReferencingNode) (invalidReferences : list Diagnostic) (reference : Reference)
    : option (list Diagnostic) :=
  if Z.ltb (indexOf optionStringEqb referenceableKeys (Some (referencedKey reference))) 0
  then
    match Legacy.getRowColumnPosition fullText (range0 node) with
    | Some position =>
      match newRange (Legacy.line position)
                     (Legacy.column position + keyPositionInValue reference)
                     (Legacy.line position)
                     (Legacy.column position + keyPositionInValue reference
                      + strlen (referencedKey reference)) with
      | Some range =>
        let diagnostic :=
          mkDiagnostic range Error (unresolvedMessage (referencedKey reference)) in
        Some (invalidReferences ++ [diagnostic])
      | None => None
      end
    | None => None
    end
  else Some invalidReferences.

(** A [forEach] loop over a local array that an exception ends. *)
Fixpoint forEachO {A S : Type} (l : list A) (f : S -> A -> option S) (s : S) : option S :=
  match l with
  | [] => Some s
  | x :: r =>
    match f s x with
    | Some s' => forEachO r f s'
    | None => None
    end
  end.

(** [buildInvalidReferenceDiagnostics(fullText, referenceableKeys, referencingNodes)] *)
Definition buildInvalidReferenceDiagnostics (fullText : string)
    (referenceableKeys : list (option string)) (referencingNodes : list ReferencingNode)
    : option (list Diagnostic) :=
  forEachO referencingNodes
    (fun invalidReferences node =>
       forEachO (references node) (checkReference fullText referenceableKeys node)
                invalidReferences)
    [].

(** The diagnostic of a reference, given the position of its node. *)
Definition diagnosticAt (position : Legacy.Position) (reference : Reference) : Diagnostic :=
  mkDiagnostic
    (mkRange (Legacy.line position)
             (Legacy.column position + keyPositionInValue reference)
             (Legacy.line position)
             (Legacy.column position + keyPositionInValue reference
              + strlen (referencedKey reference)))
    Error (unresolvedMessage (referencedKey reference)).

(** The unresolved references, each with the start offset of its node. *)
Definition unresolvedOf (referenceableKeys : list (option string))
    (referencingNodes : list ReferencingNode) : list (Z * Reference) :=
  List.flat_map
    (fun node =>
       List.map (fun reference => (range0 node, reference))
         (List.filter
            (fun reference =>
               negb (List.existsb (optionStringEqb (Some (referencedKey reference)))
                                  referenceableKeys))
            (references node)))
    referencingNodes.

(** The diagnostic of a reference whose node starts at the offset; nothing
    when the position mapper or the editor throws. *)
Definition diagnosticOf (fullText : string) (entry : Z * Reference) : option Diagnostic :=
  match Legacy.getRowColumnPosition fullText entry.1 with
  | Some position =>
    option_map (fun range => mkDiagnostic range Error (unresolvedMessage (referencedKey entry.2)))
      (newRange (Legacy.line position)
                (Legacy.column position + keyPositionInValue entry.2)
                (Legacy.line position)
                (Legacy.column position + keyPositionInValue entry.2
                 + strlen (referencedKey entry.2)))
  | None => None
  end.

(** One diagnostic for each reference of the list; nothing when there is
    none for one of them. *)
Fixpoint diagnosticsOf (fullText : string) (entries : list (Z * Reference))
    : option (list Diagnostic) :=
  match entries with
  | [] => Some []
  | entry :: rest =>
    match diagnosticOf fullText entry with
    | Some diagnostic => option_map (cons diagnostic) (diagnosticsOf fullText rest)
    | None => None
    end
  end.

End LegacyPass.

(** ** The search for sub stacks among items that may be empty

    An item of a sequence may be empty, [null] in the tree of the parser;
    the items of a document are given here with the empty ones among
    them. *)

Module Items.
Import Js Yaml CloudformationYaml.

(** [documentItems.find((item) => item.stringKey === 'Resources')]: the key
    of an empty item cannot be read, and the search stops at the first item
    of that key. *)
Fixpoint findResources (documentItems : list (option Node)) : Outcome (option Node) :=
  match documentItems with
  | [] => Ok None
  | None :: _ => Throw TypeError
  | Some item :: rest =>
    if tagIs (stringKey_of item) "Resources" then Ok (Some item) else findResources rest
  end.

(** [findSubStackNodePairs(document)] for a document whose contents hold
    these items. *)
Definition findSubStackNodePairsAmong (documentItems : list (option Node))
    : Outcome (list Node) :=
  bindO (findResources documentItems) getSubStackNodePairs.

End Items.

(** ** Trees as the parser may leave them *)

Module Parsed.
Import Js Yaml CloudformationYaml.

(** What a scalar holds once the parser has resolved it: a string, or, for
    a plain scalar that the schema reads as such, a number, given by its
    printed form, a boolean or null. *)
Inductive ScalarValue : Type :=
| StringValue (s : string)
| NumberValue (printed : string)
| BooleanValue (b : bool)
| NullValue.

(** [String(value)], to which [RegExp.prototype.exec] converts its
    argument. *)
Definition toString (value : ScalarValue) : string :=
  match value with
  | StringValue s => s
  | NumberValue printed => printed
  | BooleanValue true => "true"
  | BooleanValue false => "false"
  | NullValue => "null"
  end.

(** [(value as string).startsWith(p)]: the assertion of the type does
    nothing when the program runs, and a value that is no string has no
    such method. *)
Definition startsWithOf (value : ScalarValue) (p : string) : Outcome bool :=
  match value with
  | StringValue s => Ok (startsWith s p)
  | _ => Throw TypeError
  end.

(** A reference whose [referencedKey] is the value of the scalar as it
    is. *)
Record ParsedReference : Type := mkParsedReference {
  parsedRefType : ReferenceType;
  parsedReferencedKey : ScalarValue;
  parsedAbsoluteKeyPosition : Z }.

(** A node of the tree: as [Yaml.Node], but a scalar holds any value and an
    item of a collection may be empty, the parser leaving null in its
    place. *)
Inductive ParsedNode : Type :=
| PScalar (type : NodeType) (tag : option string) (stringKey : option string)
    (value : ScalarValue) (range0 : Z) (references : option (list ParsedReference))
| PPair (tag : option string) (key : KeyNode) (stringKey : string) (value : option ParsedNode)
| PCollection (type : NodeType) (tag : option string) (items : list (option ParsedNode))
    (range0 : Z).

Definition type_of (n : ParsedNode) : NodeType :=
  match n with
  | PScalar t _ _ _ _ _ => t
  | PPair _ _ _ _ => PAIR
  | PCollection t _ _ _ => t
  end.

Definition tag_of (n : ParsedNode) : option string :=
  match n with
  | PScalar _ t _ _ _ _ => t
  | PPair t _ _ _ => t
  | PCollection _ t _ _ => t
  end.

Definition items_of (n : ParsedNode) : option (list (option ParsedNode)) :=
  match n with
  | PCollection _ _ its _ => Some its
  | _ => None
  end.

(** [node.tag = t] *)
Definition setTag (n : ParsedNode) (t : option string) : ParsedNode :=
  match n with
  | PScalar ty _ k v r refs => PScalar ty t k v r refs
  | PPair _ k sk v => PPair t k sk v
  | PCollection ty _ its r => PCollection ty t its r
  end.

(** [node.references = refs], on the scalars that hold references. *)
Definition setReferences (n : ParsedNode) (refs : list ParsedReference) : ParsedNode :=
  match n with
  | PScalar ty t k v r _ => PScalar ty t k v r (Some refs)
  | _ => n
  end.

(** The nesting depth of a node. *)
Fixpoint height (n : ParsedNode) : nat :=
  match n with
  | PScalar _ _ _ _ _ _ => O
  | PPair _ _ _ v =>
    match v with
    | Some m => S (height m)
    | None => O
    end
  | PCollection _ _ its _ =>
    S (List.fold_right
         (fun item acc =>
            Nat.max (match item with Some m => height m | None => O end) acc)
         O its)
  end.

(** Modelled from the spec: [getNodeValueIfPair] of [common/Yaml], as
    [Yaml.getNodeValueIfPair] has it, on these trees. *)
Definition getNodeValueIfPair (node : ParsedNode) : option ParsedNode :=
  match node with
  | PPair t _ sk v =>
    match v with
    | Some (PScalar ty t' _ val r refs) =>
      Some (PScalar ty (if truthy t' then t' else t) (Some sk) val r refs)
    | Some (PCollection ty t' its r) =>
      Some (PCollection ty (if truthy t' then t' else t) its r)
    | Some (PPair t' k' sk' v') => Some (PPair (if truthy t' then t' else t) k' sk' v')
    | None => None
    end
  | _ => Some node
  end.

(** The references of a [!Sub] scalar, one for each match of the regular
    expression in the printed form of its value. *)
Definition subReferences (type : NodeType) (value : ScalarValue) (range0 : Z)
    : list ParsedReference :=
  List.map (fun m : RegExpMatch =>
              let referencedKey := placeholderName m in
              let quotesOffset := nodeTypeToSubOffset type in
              mkParsedReference SUB (StringValue referencedKey)
                (range0 + 5 + quotesOffset + 2 + index m))
           (execAllPlaceholder (toString value)).

(** The last part of [getSubNodesWhichReference], as
    [CloudformationYaml.inspectNode] has it, with the call of [startsWith]
    on a value that need not be a string. *)
Definition inspectNode (nodeValue : ParsedNode) : Outcome (list ParsedNode) :=
  match nodeValue with
  | PScalar type tag stringKey value range0 _ =>
    if NodeType_eqb type PLAIN || NodeType_eqb type QUOTE_DOUBLE then
      let nodeTag := orElse tag stringKey in
      match nodeTagToReferenceType nodeTag with
      | Some kind => Ok [setReferences nodeValue [mkParsedReference kind value range0]]
      | None =>
        if tagIs tag "!GetAtt" then
          Ok [setReferences nodeValue [mkParsedReference GET_ATT value (range0 + 8)]]
        else
          bindO (if tagIs tag "!Ref"
                 then bindO (startsWithOf value "AWS::") (fun aws => Ok (negb aws))
                 else Ok false)
            (fun reference =>
          if reference then
            Ok [setReferences nodeValue [mkParsedReference REF value (range0 + 5)]]
          else if tagIs tag "!Sub" then
            Ok [setReferences nodeValue (subReferences type value range0)]
          else Ok [])
      end
    else Ok []
  | _ => Ok []
  end.

(** [if (!item.tag) item.tag = tag] *)
Definition inheritTag (item : ParsedNode) (tag : option string) : ParsedNode :=
  if truthy (tag_of item) then item else setTag item tag.

(** [getSubNodesWhichReference(node)] for a node that is present, the fuel
    standing for the call stack. An empty item is passed over when it is
    the first or a later item of a flow sequence; of an empty item of a map
    the tag cannot be read. *)
Fixpoint getSubNodesWhichReferenceFuel (fuel : nat) (node : ParsedNode)
    : Outcome (list ParsedNode) :=
  match fuel with
  | O => Throw RangeError
  | S fuel' =>
    match getNodeValueIfPair node with
    | None => Throw TypeError
    | Some nodeValue =>
      match (if NodeType_eqb (type_of nodeValue) FLOW_SEQ then items_of nodeValue else None) with
      | Some (Some firstSubNode :: items) =>
        bindO (getSubNodesWhichReferenceFuel fuel' (inheritTag firstSubNode (tag_of nodeValue)))
          (fun firstSubNodes =>
        bindO (mapO (fun item : option ParsedNode =>
                       match item with
                       | Some item => getSubNodesWhichReferenceFuel fuel' item
                       | None => Ok []
                       end)
                    items)
          (fun restOfSubNodes =>
        Ok (firstSubNodes ++ flattenArray restOfSubNodes)))
      | _ =>
        match (if NodeType_eqb (type_of nodeValue) MAP then items_of nodeValue else None) with
        | Some items =>
          bindO (mapO (fun item : option ParsedNode =>
                         match item with
                         | Some item =>
                           getSubNodesWhichReferenceFuel fuel'
                             (inheritTag item (tag_of nodeValue))
                         | None => Throw TypeError
                         end)
                      items)
            (fun subNodes => Ok (flattenArray subNodes))
        | None => inspectNode nodeValue
        end
      end
    end
  end.

(** [getSubNodesWhichReference(node)] *)
Definition getSubNodesWhichReference (node : option ParsedNode) : Outcome (list ParsedNode) :=
  match node with
  | Some n => getSubNodesWhichReferenceFuel (S (height n)) n
  | None => Ok []
  end.

Definition embedReference (r : Reference) : ParsedReference :=
  mkParsedReference (refType r) (StringValue (referencedKey r)) (absoluteKeyPosition r).

(** A tree of [Yaml.Node] among these trees: every scalar holds its string
    and every item is there. *)
Fixpoint embed (n : Node) : ParsedNode :=
  match n with
  | Scalar ty t k v r refs =>
    PScalar ty t k (StringValue v) r (option_map (List.map embedReference) refs)
  | Pair t k sk v =>
    PPair t k sk (match v with Some m => Some (embed m) | None => None end)
  | Collection ty t its r =>
    PCollection ty t (List.map (fun m => Some (embed m)) its) r
  end.

(** Every scalar of the tree holds a string, every entry has a value, and
    no item of a map is empty; an empty item of another collection
    stands. *)
Fixpoint fit (n : ParsedNode) : bool :=
  match n with
  | PScalar _ _ _ value _ _ =>
    match value with
    | StringValue _ => true
    | _ => false
    end
  | PPair _ _ _ value =>
    match value with
    | Some m => fit m
    | None => false
    end
  | PCollection type _ items _ =>
    List.forallb (fun item : option ParsedNode =>
                    match item with
                    | Some m => fit m
                    | None => negb (NodeType_eqb type MAP)
                    end)
                 items
  end.

End Parsed.

(** ** Measures of texts and results *)

Module Measures.
Import Js Yaml CloudformationYaml.

(** The offsets behind the line feed characters of a text that starts at
    offset [idx]. *)
Fixpoint lineFeedEnds (idx : Z) (s : string) : list Z :=
  match s with
  | EmptyString => []
  | String c r =>
    if Ascii.eqb c LF then (idx + 1) :: lineFeedEnds (idx + 1) r
    else lineFeedEnds (idx + 1) r
  end.

(** The offset behind a match. *)
Definition matchEnd (m : RegExpMatch) : Z := index m + strlen (matched m).

(** What the extractor promises of a reference stored on a plain or
    double-quoted scalar, given the type, the tag, the key name, the value
    and the start offset of the scalar. *)
Definition referenceFits (type : NodeType) (tag stringKey : option string)
    (value : string) (range0 : Z) (reference : Yaml.Reference) : Prop :=
  match refType reference with
  | REF =>
    tag = Some "!Ref"
    /\ reference = Yaml.mkReference REF value (range0 + 5)
    /\ startsWith value "AWS::" = false
  | GET_ATT =>
    tag = Some "!GetAtt" /\ reference = Yaml.mkReference GET_ATT value (range0 + 8)
  | SUB =>
    tag = Some "!Sub"
    /\ exists m,
         In m (execAllPlaceholder value)
         /\ reference
            = Yaml.mkReference SUB (placeholderName m)
                (range0 + 5 + nodeTypeToSubOffset type + 2 + index m)
  | kind =>
    nodeTagToReferenceType (orElse tag stringKey) = Some kind
    /\ reference = Yaml.mkReference kind value range0
  end.

(** What the extractor promises of a node it returns: a plain or
    double-quoted scalar that holds its references, one reference or the
    references of a [!Sub] scalar. *)
Definition extracted (n : Node) : Prop :=
  exists type tag stringKey value range0 references,
    n = Scalar type tag stringKey value range0 (Some references)
    /\ (type = PLAIN \/ type = QUOTE_DOUBLE)
    /\ Forall (referenceFits type tag stringKey value range0) references
    /\ ((exists reference, references = [reference])
        \/ Forall (fun reference => refType reference = SUB) references).

(** Every entry of the tree has a value. *)
Fixpoint complete (n : Node) : bool :=
  match n with
  | Scalar _ _ _ _ _ _ => true
  | Pair _ _ _ (Some m) => complete m
  | Pair _ _ _ None => false
  | Collection _ _ items _ => List.forallb complete items
  end.

(** The node is an entry that the analysis takes for a sub stack. *)
Definition isSubStack (node : Node) : Prop :=
  exists nodeValue,
    getNodeValueIfPair node = Some nodeValue
    /\ type_of nodeValue = MAP
    /\ get nodeValue "Type" = Ok (Str "AWS::CloudFormation::Stack").

(** The parameters that a loaded child template declares: one for each
    entry with a value, with a default when the value holds a non-empty
    [Default]. *)
Definition declaredParameter (item : Node) : list ParameterReferenceable :=
  match item with
  | Pair _ _ stringKey (Some value) =>
    match get value "Default" with
    | Ok defaultValue => [mkParameter stringKey (toBoolean defaultValue)]
    | Throw _ => []
    end
  | _ => []
  end.

(** The items of what a child template holds under [Parameters]. *)
Definition declaredItems (childParameters : JsValue) : list Node :=
  match childParameters with
  | NodeRef parametersNode => default [] (items_of parametersNode)
  | _ => []
  end.

(** The output names that a sub stack of the given name makes
    referenceable. *)
Definition outputNames (stackName : option string) (childOutputs : JsValue) : list string :=
  List.map (fun key => interpolate stackName +:+ ".Outputs." +:+ interpolate key)
           (getYamlNodeKeys childOutputs).

(** The referenceables of a document that declares no sub stack. *)
Definition localReferenceables (document : Document) : Referenceables :=
  mkReferenceables (mkSubStack [] ∅)
    (getYamlNodeKeys (documentGet document "Parameters"))
    (getYamlNodeKeys (documentGet document "Resources"))
    (getYamlNodeKeys (documentGet document "Mappings"))
    (getYamlNodeKeys (documentGet document "Conditions")).

(** The references that the nodes hold, in the order of the nodes. *)
Definition referencesOf (nodes : list Node) : list Yaml.Reference :=
  List.flat_map (fun node => default [] (references_of node)) nodes.

(** The child declares no parameter of the name handed over. *)
Definition notDeclared (declared : list ParameterReferenceable) (p : SuppliedParameter)
    : bool :=
  negb (List.existsb (String.eqb (suppliedName p)) (List.map parameterName declared)).

(** The parent hands over no parameter of the declared name. *)
Definition notSupplied (supplied : list SuppliedParameter) (d : ParameterReferenceable)
    : bool :=
  negb (List.existsb (String.eqb (parameterName d)) (List.map suppliedName supplied)).

(** The tree without its tags. *)
Fixpoint untag (n : Node) : Node :=
  match n with
  | Scalar type _ stringKey value range0 references =>
    Scalar type None stringKey value range0 references
  | Pair _ key stringKey value =>
    Pair None key stringKey
         match value with
         | Some m => Some (untag m)
         | None => None
         end
  | Collection type _ items range0 => Collection type None (List.map untag items) range0
  end.

Definition untagDocument (document : Document) : Document :=
  mkDocument match contents document with
             | Some n => Some (untag n)
             | None => None
             end.

(** The checks of the sub stacks of a document: the search and the
    matcher, as [checkYaml] runs them one after the other. *)
Definition checkSubStacksOf (host : Host) (fullText : string)
    (subStackReferenceables : SubStackReferenceables) (document : Document) : M unit :=
  subStackNodePairs <- lift (findSubStackNodePairs document) ;;
  buildInvalidSubStackParameterDiagnostics host fullText subStackReferenceables
    subStackNodePairs.

(** No reference of the nodes has a negative key position: the ranges of
    the diagnostics are built from positions that are not negative, which
    [vscode.Range] requires. *)
Definition keysWithinValues (referencingNodes : list LegacyPass.ReferencingNode) : Prop :=
  Forall (fun node =>
            Forall (fun reference => 0 <= LegacyPass.keyPositionInValue reference)
                   (LegacyPass.references node))
         referencingNodes.

(** A text without slash. *)
Fixpoint noSlash (s : string) : bool :=
  match s with
  | EmptyString => true
  | String c r => negb (Ascii.eqb "/" c) && noSlash r
  end.

(** The entry declares its parameter by a collection, whose [Default] can be
    read. *)
Definition readable (item : Node) : Prop :=
  match item with
  | Pair _ _ _ (Some (Scalar _ _ _ _ _ _)) => False
  | Pair _ _ _ (Some (Pair _ _ _ _)) => False
  | _ => True
  end.

(** The computation adds diagnostics of one sort only. *)
Definition addsOnly {A : Type} (P : Diagnostic -> Prop) (m : M A) : Prop :=
  forall ds, exists extra, snd (m ds) = ds ++ extra /\ Forall P extra.

(** The diagnostic reports a template that could not be loaded. *)
Definition isLoadFailure (d : Diagnostic) : Prop :=
  severity d = Error /\ exists filePath error, message d = loadFailureMessage filePath error.

(** What the computation adds does not depend on what the collection
    holds. *)
Definition appends {A : Type} (m : M A) : Prop :=
  forall ds, m ds = (fst (m []), ds ++ snd (m [])).

End Measures.

(** * Properties of the string primitives *)

Module JsFacts.
Import Js.

Lemma indexOfFrom_lower {A : Type} (eqb : A -> A -> bool) (l : list A) (x : A) (idx : Z) :
  0 <= idx -> indexOfFrom eqb idx l x = -1 \/ idx <= indexOfFrom eqb idx l x.
Proof.
  revert idx. induction l as [|y r IH]; intros idx Hidx; simpl.
  - left. reflexivity.
  - destruct (eqb y x).
    + right. lia.
    + destruct (IH (idx + 1)) as [H|H]; [lia | left; exact H | right; lia].
Qed.

Lemma indexOfFrom_absent {A : Type} (eqb : A -> A -> bool) (l : list A) (x : A) (idx : Z) :
  (forall a b, eqb a b = true <-> a = b) ->
  0 <= idx ->
  (indexOfFrom eqb idx l x <? 0)%Z = true <-> ~ In x l.
Proof.
  intros Heq. revert idx. induction l as [|y r IH]; intros idx Hidx; simpl.
  - split; [intros _ H; exact H | reflexivity].
  - destruct (eqb y x) eqn:E.
    + apply Heq in E. subst y. split.
      * intros H. apply Z.ltb_lt in H. lia.
      * intros H. exfalso. apply H. left. reflexivity.
    + rewrite (IH (idx + 1)) by lia. split.
      * intros H [H1|H1]; [|exact (H H1)].
        subst y. assert (eqb x x = true) by (apply Heq; reflexivity). congruence.
      * intros H H1. apply H. right. exact H1.
Qed.

(** [l.indexOf(x) < 0] holds exactly when [x] is no element of [l]. *)
Lemma indexOf_absent {A : Type} (eqb : A -> A -> bool) (l : list A) (x : A) :
  (forall a b, eqb a b = true <-> a = b) ->
  (indexOf eqb l x <? 0)%Z = true <-> ~ In x l.
Proof. intros Heq. apply indexOfFrom_absent; [exact Heq | lia]. Qed.

Lemma substring_0_app (a b : string) :
  String.substring 0 (String.length a) (a +:+ b) = a.
Proof.
  induction a as [|c a IH]; simpl.
  - destruct b; reflexivity.
  - rewrite IH. reflexivity.
Qed.

Lemma length_app (a b : string) :
  String.length (a +:+ b) = (String.length a + String.length b)%nat.
Proof. induction a as [|c a IH]; simpl; [reflexivity | rewrite IH; reflexivity]. Qed.

Lemma untilClosingBrace_shape (s m : string) :
  untilClosingBrace s = Some m ->
  exists body rest,
    m = body +:+ "}" /\ noClosingBrace body = true /\ s = m +:+ rest.
Proof.
  revert m. induction s as [|c r IH]; intros m H; simpl in H; [discriminate|].
  destruct (Ascii.eqb c "}") eqn:E.
  - apply Ascii.eqb_eq in E. subst c. injection H as <-.
    exists EmptyString, r. repeat split.
  - destruct (untilClosingBrace r) as [m'|] eqn:Hr; simpl in H; [|discriminate].
    injection H as <-.
    destruct (IH m' eq_refl) as (body & rest & -> & Hb & ->).
    exists (String c body), rest. simpl. rewrite E, Hb. repeat split.
Qed.

(** What the regular expression matches at the start of a text: a dollar
    sign, an opening brace, a text without closing brace, a closing brace. *)
Lemma placeholderAt_shape (s m : string) :
  placeholderAt s = Some m ->
  exists body rest,
    m = "${" +:+ body +:+ "}" /\ noClosingBrace body = true /\ s = m +:+ rest.
Proof.
  intros H. destruct s as [|c1 [|c2 r]]; simpl in H; try discriminate.
  destruct (Ascii.eqb c1 "$") eqn:E1; simpl in H; [|discriminate].
  destruct (Ascii.eqb c2 "{") eqn:E2; simpl in H; [|discriminate].
  apply Ascii.eqb_eq in E1. apply Ascii.eqb_eq in E2. subst c1 c2.
  destruct (untilClosingBrace r) as [m'|] eqn:Hr; simpl in H; [|discriminate].
  injection H as <-.
  destruct (untilClosingBrace_shape _ _ Hr) as (body & rest & -> & Hb & ->).
  exists body, rest. repeat split. exact Hb.
Qed.

Lemma execAllPlaceholderFrom_occurrences (s : string) :
  forall (skip : nat) (idx : Z),
    Forall (fun m => exists k : nat,
                index m = idx + Z.of_nat k /\
                String.substring k (String.length (matched m)) s = matched m /\
                exists body, matched m = "${" +:+ body +:+ "}" /\ noClosingBrace body = true)
           (execAllPlaceholderFrom skip idx s).
Proof.
  induction s as [|c r IH]; intros skip idx; [constructor|].
  assert (Hshift : forall sk,
    Forall (fun m => exists k : nat,
                index m = idx + Z.of_nat k /\
                String.substring k (String.length (matched m)) (String c r) = matched m /\
                exists body, matched m = "${" +:+ body +:+ "}" /\ noClosingBrace body = true)
           (execAllPlaceholderFrom sk (idx + 1) r)).
  { intros sk. eapply List.Forall_impl; [|apply (IH sk (idx + 1))].
    intros m (k & Hi & Hs & Hb). exists (S k). split; [lia|]. split; [|exact Hb].
    simpl. exact Hs. }
  cbn [execAllPlaceholderFrom]. destruct skip as [|k].
  - destruct (placeholderAt (String c r)) as [m|] eqn:Hm.
    + constructor; [|apply Hshift].
      destruct (placeholderAt_shape _ _ Hm) as (body & rest & Hbody & Hb & Hs).
      exists 0%nat. cbn [index matched]. split; [lia|]. split.
      * rewrite Hs. apply substring_0_app.
      * exists body. split; assumption.
    + apply Hshift.
  - apply Hshift.
Qed.

(** Every match of the exec loop is an occurrence of a placeholder. *)
Lemma execAllPlaceholder_occurrences (s : string) :
  Forall (placeholderOccurrence s) (execAllPlaceholder s).
Proof.
  eapply List.Forall_impl; [|apply (execAllPlaceholderFrom_occurrences s 0 0)].
  intros m (k & Hi & Hs & Hb). unfold placeholderOccurrence.
  rewrite Hi. split; [lia|]. split; [|exact Hb].
  replace (Z.to_nat (0 + Z.of_nat k)) with k by lia. exact Hs.
Qed.

(** The text between the braces of a placeholder. *)
Lemma substring_placeholder (body : string) :
  substring ("${" +:+ body +:+ "}") 2 (strlen ("${" +:+ body +:+ "}") - 1) = body.
Proof.
  assert (Hlen : String.length ("${" +:+ body +:+ "}") = S (S (S (String.length body)))).
  { rewrite !length_app. cbn [String.length]. lia. }
  unfold substring, clamp, strlen. rewrite Hlen.
  set (n := String.length body).
  replace (Z.max 0 (Z.min 2 (Z.of_nat (S (S (S n)))))) with 2 by lia.
  replace (Z.max 0 (Z.min (Z.of_nat (S (S (S n))) - 1) (Z.of_nat (S (S (S n))))))
    with (Z.of_nat n + 2) by lia.
  replace (Z.min 2 (Z.of_nat n + 2)) with 2 by lia.
  replace (Z.max 2 (Z.of_nat n + 2) - 2) with (Z.of_nat n) by lia.
  rewrite Nat2Z.id. change (Z.to_nat 2) with 2%nat.
  change ("${" +:+ body +:+ "}") with (String "$" (String "{" (body +:+ "}"))).
  cbn [String.substring]. apply substring_0_app.
Qed.

End JsFacts.

(** * Properties of the reference extractor *)

Module ExtractorFacts.
Import Js Yaml CloudformationYaml.

Lemma height_setTag (n : Node) (t : option string) : height (setTag n t) = height n.
Proof. destruct n; reflexivity. Qed.

Lemma height_inheritTag (n : Node) (t : option string) : height (inheritTag n t) = height n.
Proof. unfold inheritTag. destruct (truthy (tag_of n)); [reflexivity | apply height_setTag]. Qed.

Lemma getNodeValueIfPair_height (n nv : Node) :
  getNodeValueIfPair n = Some nv -> (height nv <= height n)%nat.
Proof.
  destruct n as [ty t k v r refs | t k sk [m|] | ty t its r]; simpl; intros H;
    try (injection H as <-; simpl; lia); try discriminate.
  destruct m; injection H as <-; simpl; lia.
Qed.

Lemma height_item (nv : Node) (its : list Node) :
  items_of nv = Some its -> forall m, In m its -> (height m < height nv)%nat.
Proof.
  destruct nv as [| |ty t l r]; simpl; intros H; try discriminate.
  injection H as ->. induction its as [|x its IH]; intros m Hm; [destruct Hm|].
  simpl in *. destruct Hm as [->|Hm]; [lia|]. specialize (IH m Hm). lia.
Qed.

Lemma mapO_ext_in {A B : Type} (f g : A -> Outcome B) (l : list A) :
  (forall x, In x l -> f x = g x) -> mapO f l = mapO g l.
Proof.
  induction l as [|x l IH]; intros H; [reflexivity|].
  simpl. rewrite (H x) by (left; reflexivity).
  rewrite IH; [reflexivity|]. intros y Hy. apply H. right. exact Hy.
Qed.

Lemma sequence_items (nv : Node) (its : list Node) (ty : NodeType) :
  (if NodeType_eqb (type_of nv) ty then items_of nv else None) = Some its ->
  items_of nv = Some its.
Proof. destruct (NodeType_eqb (type_of nv) ty); [trivial | discriminate]. Qed.

Lemma mapO_Forall2 {A B : Type} (f : A -> Outcome B) (l : list A) (ys : list B) :
  Forall2 (fun x y => f x = Ok y) l ys -> mapO f l = Ok ys.
Proof.
  induction 1 as [|x y l ys Hx _ IH]; [reflexivity|].
  simpl. rewrite Hx. simpl. rewrite IH. reflexivity.
Qed.

(** The result of the traversal does not depend on the fuel once there is
    more of it than the node is high. *)
Lemma getSubNodesWhichReferenceFuel_enough (f1 : nat) :
  forall (f2 : nat) (n : Node),
    (height n < f1)%nat -> (height n < f2)%nat ->
    getSubNodesWhichReferenceFuel f1 n = getSubNodesWhichReferenceFuel f2 n.
Proof.
  induction f1 as [|f1 IH]; intros f2 n H1 H2; [lia|].
  destruct f2 as [|f2]; [lia|].
  cbn [getSubNodesWhichReferenceFuel].
  destruct (getNodeValueIfPair n) as [nv|] eqn:Hnv; [|reflexivity].
  pose proof (getNodeValueIfPair_height _ _ Hnv) as Hh.
  destruct (if NodeType_eqb (type_of nv) FLOW_SEQ then items_of nv else None)
    as [[|firstSubNode items]|] eqn:Hseq.
  - destruct (if NodeType_eqb (type_of nv) MAP then items_of nv else None)
      as [its|] eqn:Hmap; [|reflexivity].
    pose proof (height_item _ _ (sequence_items _ _ _ Hmap)) as Hits.
    rewrite (mapO_ext_in _ (fun item =>
               getSubNodesWhichReferenceFuel f2 (inheritTag item (tag_of nv))) its);
      [reflexivity|].
    intros x Hx. apply IH; rewrite height_inheritTag; specialize (Hits x Hx); lia.
  - pose proof (height_item _ _ (sequence_items _ _ _ Hseq)) as Hits.
    rewrite (IH f2 (inheritTag firstSubNode (tag_of nv)));
      try (rewrite height_inheritTag; specialize (Hits firstSubNode (or_introl eq_refl)); lia).
    rewrite (mapO_ext_in _ (getSubNodesWhichReferenceFuel f2) items); [reflexivity|].
    intros x Hx. apply IH; specialize (Hits x (or_intror Hx)); lia.
  - destruct (if NodeType_eqb (type_of nv) MAP then items_of nv else None)
      as [its|] eqn:Hmap; [|reflexivity].
    pose proof (height_item _ _ (sequence_items _ _ _ Hmap)) as Hits.
    rewrite (mapO_ext_in _ (fun item =>
               getSubNodesWhichReferenceFuel f2 (inheritTag item (tag_of nv))) its);
      [reflexivity|].
    intros x Hx. apply IH; rewrite height_inheritTag; specialize (Hits x Hx); lia.
Qed.

(** The extractor on a node with any sufficient fuel. *)
Lemma getSubNodesWhichReference_fuel (fuel : nat) (n : Node) :
  (height n < fuel)%nat ->
  getSubNodesWhichReferenceFuel fuel n = getSubNodesWhichReference (NodeRef n).
Proof. intros H. apply getSubNodesWhichReferenceFuel_enough; [exact H | simpl; lia]. Qed.

(** An entry is traversed as the node that stands for it. *)
Lemma getSubNodesWhichReference_entry (node nodeValue : Node) :
  getNodeValueIfPair node = Some nodeValue ->
  type_of nodeValue <> PAIR ->
  getSubNodesWhichReference (NodeRef node) = getSubNodesWhichReference (NodeRef nodeValue).
Proof.
  intros Hnv Htype.
  pose proof (getNodeValueIfPair_height _ _ Hnv) as Hh.
  rewrite <- (getSubNodesWhichReference_fuel (S (height node)) nodeValue) by lia.
  cbn [getSubNodesWhichReference getSubNodesWhichReferenceFuel]. rewrite Hnv.
  destruct nodeValue; [reflexivity | exfalso; apply Htype; reflexivity | reflexivity].
Qed.

(** A scalar is inspected. *)
Lemma getSubNodesWhichReference_scalar (type : NodeType) (tag stringKey : option string)
    (value : string) (range0 : Z) (references : option (list Reference)) :
  getSubNodesWhichReference (NodeRef (Scalar type tag stringKey value range0 references))
  = Ok (inspectNode (Scalar type tag stringKey value range0 references)).
Proof.
  cbn [getSubNodesWhichReference height getSubNodesWhichReferenceFuel getNodeValueIfPair
       type_of items_of].
  destruct (NodeType_eqb type FLOW_SEQ), (NodeType_eqb type MAP); reflexivity.
Qed.

(** A flow sequence: the first item inherits the tag of the sequence, and
    every item is traversed. *)
Lemma getSubNodesWhichReference_flow_seq (tag : option string) (firstSubNode : Node)
    (items : list Node) (range0 : Z) :
  getSubNodesWhichReference (NodeRef (Collection FLOW_SEQ tag (firstSubNode :: items) range0))
  = bindO (getSubNodesWhichReference (NodeRef (inheritTag firstSubNode tag)))
      (fun firstSubNodes =>
       bindO (mapO (fun item => getSubNodesWhichReference (NodeRef item)) items)
         (fun restOfSubNodes => Ok (firstSubNodes ++ flattenArray restOfSubNodes))).
Proof.
  set (seq := Collection FLOW_SEQ tag (firstSubNode :: items) range0).
  pose proof (height_item seq _ eq_refl) as Hits.
  change (getSubNodesWhichReference (NodeRef seq))
    with (getSubNodesWhichReferenceFuel (S (height seq)) seq).
  cbn [getSubNodesWhichReferenceFuel getNodeValueIfPair seq type_of items_of NodeType_eqb tag_of].
  fold seq.
  rewrite getSubNodesWhichReference_fuel
    by (rewrite height_inheritTag; apply Hits; left; reflexivity).
  rewrite (mapO_ext_in _ (fun item => getSubNodesWhichReference (NodeRef item)) items);
    [reflexivity|].
  intros x Hx. apply getSubNodesWhichReference_fuel. apply Hits. right. exact Hx.
Qed.

End ExtractorFacts.

(** * The reference extractor on scalars and sequences *)

Module ExtractorClaims.
Import Js Yaml CloudformationYaml JsFacts ExtractorFacts.

(** C2, as amended: for every plain or double-quoted scalar tagged [!Sub],
    the extractor returns the scalar holding exactly one reference of kind
    Sub for each match of the placeholder expression in its value, in the
    order of the matches. Each match is an occurrence of a placeholder
    (dollar sign, opening brace, a text without closing brace, closing brace)
    at its index in the value; the referenced key is the text between the
    braces and the offset is the node start + 5 + 2 + the quote offset + the
    index, the quote offset being 0 for a plain and 1 for a double-quoted
    scalar. A value without placeholder gives no reference and no error. *)
Theorem sub_scalar_references (type : NodeType) (stringKey : option string)
    (value : string) (range0 : Z) (references : option (list Reference)) :
  type = PLAIN \/ type = QUOTE_DOUBLE ->
  let node := Scalar type (Some "!Sub") stringKey value range0 references in
  let quoteOffset := nodeTypeToSubOffset type in
  let found :=
    List.map (fun m => mkReference SUB (placeholderName m)
                                   (range0 + 5 + 2 + quoteOffset + index m))
             (execAllPlaceholder value) in
  getSubNodesWhichReference (NodeRef node) = Ok [setReferences node found]
  /\ List.length found = List.length (execAllPlaceholder value)
  /\ (type = PLAIN -> quoteOffset = 0)
  /\ (type = QUOTE_DOUBLE -> quoteOffset = 1)
  /\ Forall (fun m => placeholderOccurrence value m
                      /\ matched m = "${" +:+ placeholderName m +:+ "}")
            (execAllPlaceholder value)
  /\ (execAllPlaceholder value = [] ->
      getSubNodesWhichReference (NodeRef node) = Ok [setReferences node []]).
Proof.
  intros Htype node quoteOffset found.
  assert (Hrun : getSubNodesWhichReference (NodeRef node) = Ok [setReferences node found]).
  { assert (Hfound : subReferences type value range0 = found).
    { unfold subReferences, found, quoteOffset. apply List.map_ext.
      intros m. f_equal. lia. }
    unfold node. rewrite getSubNodesWhichReference_scalar, <- Hfound.
    destruct Htype as [-> | ->]; reflexivity. }
  split; [exact Hrun|]. split; [apply List.length_map|].
  split; [intros ->; reflexivity|]. split; [intros ->; reflexivity|]. split.
  - eapply List.Forall_impl; [|apply execAllPlaceholder_occurrences].
    intros m Hm. split; [exact Hm|].
    destruct Hm as (_ & _ & body & Hbody & _).
    unfold placeholderName. rewrite Hbody at 2 3. rewrite substring_placeholder. exact Hbody.
  - intros Hnone. rewrite Hrun. unfold found. rewrite Hnone. reflexivity.
Qed.

(** C3, as amended: a plain or double-quoted scalar tagged [!Ref] whose
    value does not start with [AWS::] yields exactly one reference of kind
    Ref at the node start + 5; a scalar tagged [!Ref] whose value starts
    with [AWS::] yields no reference, whatever its style. *)
Theorem ref_scalar_reference (type : NodeType) (stringKey : option string)
    (value : string) (range0 : Z) (references : option (list Reference)) :
  let node := Scalar type (Some "!Ref") stringKey value range0 references in
  (type = PLAIN \/ type = QUOTE_DOUBLE ->
   startsWith value "AWS::" = false ->
   getSubNodesWhichReference (NodeRef node)
   = Ok [setReferences node [mkReference REF value (range0 + 5)]])
  /\ (startsWith value "AWS::" = true ->
      getSubNodesWhichReference (NodeRef node) = Ok []).
Proof.
  intros node. unfold node. rewrite getSubNodesWhichReference_scalar. split.
  - intros [-> | ->] Hp; cbn; rewrite Hp; reflexivity.
  - intros Hp. unfold inspectNode.
    destruct (NodeType_eqb type PLAIN || NodeType_eqb type QUOTE_DOUBLE); [|reflexivity].
    cbn. rewrite Hp. reflexivity.
Qed.

(** C4, as amended: a plain or double-quoted scalar whose tag context (its
    tag or, without a tag, its key name) is [!If], [!FindInMap] or
    [DependsOn] yields exactly one reference of the corresponding kind at
    the node start; a plain or double-quoted scalar tagged [!GetAtt] yields
    exactly one reference of kind GetAtt at the node start + 8. *)
Theorem direct_name_and_getatt_references (type : NodeType) (tag stringKey : option string)
    (value : string) (range0 : Z) (references : option (list Reference)) :
  type = PLAIN \/ type = QUOTE_DOUBLE ->
  let node := Scalar type tag stringKey value range0 references in
  let one := fun kind offset => Ok [setReferences node [mkReference kind value offset]] in
  (orElse tag stringKey = Some "!If" ->
   getSubNodesWhichReference (NodeRef node) = one IF range0)
  /\ (orElse tag stringKey = Some "!FindInMap" ->
      getSubNodesWhichReference (NodeRef node) = one FIND_IN_MAP range0)
  /\ (orElse tag stringKey = Some "DependsOn" ->
      getSubNodesWhichReference (NodeRef node) = one DEPENDS_ON range0)
  /\ (tag = Some "!GetAtt" ->
      getSubNodesWhichReference (NodeRef node) = one GET_ATT (range0 + 8)).
Proof.
  intros Htype node one. unfold node, one. rewrite getSubNodesWhichReference_scalar.
  unfold inspectNode.
  replace (NodeType_eqb type PLAIN || NodeType_eqb type QUOTE_DOUBLE) with true
    by (destruct Htype as [-> | ->]; reflexivity).
  repeat split; intros H; try (rewrite H; reflexivity).
  subst tag. reflexivity.
Qed.

(** C5, as amended: for every flow sequence with at least one item, the
    first item takes the tag of the sequence when it has none of its own and
    is left as it is otherwise; the extractor then traverses every item and
    concatenates the results, first item first. An exception raised in an
    item ends the traversal. A flow sequence without items yields nothing.
    A map entry whose value stands for a flow sequence is traversed as that
    sequence. *)
Theorem flow_sequence_traversal (tag : option string) (firstSubNode : Node)
    (items : list Node) (range0 : Z) :
  let first := inheritTag firstSubNode tag in
  (truthy (tag_of firstSubNode) = false -> first = setTag firstSubNode tag)
  /\ (truthy (tag_of firstSubNode) = true -> first = firstSubNode)
  /\ getSubNodesWhichReference (NodeRef (Collection FLOW_SEQ tag (firstSubNode :: items) range0))
     = bindO (getSubNodesWhichReference (NodeRef first))
         (fun firstSubNodes =>
          bindO (mapO (fun item => getSubNodesWhichReference (NodeRef item)) items)
            (fun restOfSubNodes => Ok (firstSubNodes ++ flattenArray restOfSubNodes)))
  /\ (forall firstSubNodes restOfSubNodes,
        getSubNodesWhichReference (NodeRef first) = Ok firstSubNodes ->
        Forall2 (fun item found => getSubNodesWhichReference (NodeRef item) = Ok found)
                items restOfSubNodes ->
        getSubNodesWhichReference
          (NodeRef (Collection FLOW_SEQ tag (firstSubNode :: items) range0))
        = Ok (firstSubNodes ++ List.concat restOfSubNodes))
  /\ getSubNodesWhichReference (NodeRef (Collection FLOW_SEQ tag [] range0)) = Ok []
  /\ (forall entry,
        getNodeValueIfPair entry
        = Some (Collection FLOW_SEQ tag (firstSubNode :: items) range0) ->
        getSubNodesWhichReference (NodeRef entry)
        = getSubNodesWhichReference
            (NodeRef (Collection FLOW_SEQ tag (firstSubNode :: items) range0))).
Proof.
  intros first. unfold first, inheritTag.
  split; [intros ->; reflexivity|]. split; [intros ->; reflexivity|].
  split; [apply getSubNodesWhichReference_flow_seq|].
  split; [|split; [reflexivity|]];
    [|intros entry Hentry; apply (getSubNodesWhichReference_entry _ _ Hentry); discriminate].
  intros firstSubNodes restOfSubNodes Hfirst Hrest.
  rewrite getSubNodesWhichReference_flow_seq. unfold inheritTag. rewrite Hfirst.
  cbn [bindO]. rewrite (mapO_Forall2 _ _ _ Hrest). reflexivity.
Qed.

End ExtractorClaims.

(** * Properties of the passes over the diagnostic collection *)

Module PassFacts.
Import Js Yaml CloudformationYaml JsFacts.

Lemma forEach_appends {A : Type} (l : list A) (f : A -> M unit) (g : A -> list Diagnostic) :
  (forall x ds, In x l -> f x ds = (Ok tt, ds ++ g x)) ->
  forall ds, forEach l f ds = (Ok tt, ds ++ List.concat (List.map g l)).
Proof.
  induction l as [|x l IH]; intros H ds.
  - simpl. unfold ret. rewrite List.app_nil_r. reflexivity.
  - cbn [forEach List.map List.concat]. unfold bindM.
    rewrite (H x ds) by (left; reflexivity).
    rewrite IH by (intros y ds' Hy; apply H; right; exact Hy).
    rewrite <- List.app_assoc. reflexivity.
Qed.

Lemma concat_map_filter {A B : Type} (p : A -> bool) (d : A -> B) (l : list A) :
  List.concat (List.map (fun x => if p x then [d x] else []) l)
  = List.map d (List.filter p l).
Proof.
  induction l as [|x l IH]; [reflexivity|].
  simpl. destruct (p x); simpl; rewrite IH; reflexivity.
Qed.

Lemma optionStringEqb_eq (a b : option string) : optionStringEqb a b = true <-> a = b.
Proof.
  destruct a as [x|], b as [y|]; simpl; split; intros H;
    try discriminate; try reflexivity.
  - apply String.eqb_eq in H. congruence.
  - injection H as ->. apply String.eqb_refl.
Qed.

Lemma resolvesb_spec (referenceables : Referenceables) (reference : Reference) :
  resolvesb referenceables reference = true <-> resolves referenceables reference.
Proof.
  unfold resolvesb, resolves.
  destruct (refType reference); rewrite List.existsb_exists; split;
    try (intros (x & Hx & He); apply optionStringEqb_eq in He; subst x; exact Hx);
    try (intros H; eexists; split; [exact H | apply optionStringEqb_eq; reflexivity]).
  - intros (x & Hx & He). apply String.eqb_eq in He. subst x. exact Hx.
  - intros H. eexists. split; [exact H | apply String.eqb_refl].
Qed.

(** The check of one reference adds its diagnostic exactly when the
    reference does not resolve. *)
Lemma checkReference_run (host : Host) (fullText : string)
    (referenceables : Referenceables) (reference : Reference) (ds : list Diagnostic) :
  checkReference host fullText referenceables (localReferenceablesOf referenceables)
                 reference ds
  = (Ok tt, ds ++ (if negb (resolvesb referenceables reference)
                   then [referenceDiagnostic host fullText reference] else [])).
Proof.
  unfold checkReference, resolvesb, referenceDiagnostic, localReferenceablesOf.
  destruct (refType reference); cbn [isGetAtt].
  all: match goal with
       | |- context [Z.ltb (indexOf ?e ?l ?x) 0] =>
         destruct (Z.ltb (indexOf e l x) 0) eqn:Hidx
       end.
  all: match goal with
       | |- context [List.existsb ?p ?l] => destruct (List.existsb p l) eqn:Hex
       end.
  all: cbn [negb]; unfold addDiagnostic, ret; rewrite ?List.app_nil_r; try reflexivity.
  all: exfalso.
  all: try (apply (indexOf_absent _ _ _ optionStringEqb_eq) in Hidx; apply Hidx;
            apply List.existsb_exists in Hex; destruct Hex as (x & Hx & He);
            apply optionStringEqb_eq in He; subst x;
            rewrite !List.in_app_iff in *; tauto).
  all: try (assert (Hn : (Z.ltb (indexOf optionStringEqb
                            (refConditions referenceables ++ refMappings referenceables
                             ++ refParameters referenceables ++ refResources referenceables)
                            (Some (referencedKey reference))) 0) <> true) by congruence;
            apply Hn; apply (indexOf_absent _ _ _ optionStringEqb_eq); intros Hin;
            assert (Hex' : List.existsb (optionStringEqb (Some (referencedKey reference)))
                      (refParameters referenceables ++ refResources referenceables
                       ++ refConditions referenceables ++ refMappings referenceables) = true)
              by (apply List.existsb_exists; eexists; split;
                  [|apply optionStringEqb_eq; reflexivity];
                  rewrite !List.in_app_iff in *; tauto);
            congruence).
  - apply (indexOf_absent _ _ _ String.eqb_eq) in Hidx. apply Hidx.
    apply List.existsb_exists in Hex. destruct Hex as (x & Hx & He).
    apply String.eqb_eq in He. subst x. exact Hx.
  - assert (Hn : (Z.ltb (indexOf String.eqb (outputs (subStackReferenceables referenceables))
                                 (referencedKey reference)) 0) <> true) by congruence.
    apply Hn. apply (indexOf_absent _ _ _ String.eqb_eq). intros Hin.
    assert (Hex' : List.existsb (String.eqb (referencedKey reference))
                     (outputs (subStackReferenceables referenceables)) = true)
      by (apply List.existsb_exists; eexists; split; [exact Hin | apply String.eqb_refl]).
    congruence.
Qed.

Lemma buildInvalidReferenceDiagnostics_run (host : Host) (fullText : string)
    (referenceables : Referenceables) (nodes : list Node)
    (referencesOfNodes : list (list Reference)) (ds : list Diagnostic) :
  List.map references_of nodes = List.map Some referencesOfNodes ->
  buildInvalidReferenceDiagnostics host fullText referenceables nodes ds
  = (Ok tt,
     ds ++ List.map (referenceDiagnostic host fullText)
             (List.filter (fun r => negb (resolvesb referenceables r))
                          (List.concat referencesOfNodes))).
Proof.
  unfold buildInvalidReferenceDiagnostics.
  revert referencesOfNodes ds.
  induction nodes as [|n nodes IH]; intros [|refs rss] ds Hmap; try discriminate.
  - simpl. unfold ret. rewrite List.app_nil_r. reflexivity.
  - simpl in Hmap. injection Hmap as Hn Hrest.
    cbn [forEach]. unfold bindM at 1. rewrite Hn.
    rewrite (forEach_appends refs _
               (fun r => if negb (resolvesb referenceables r)
                         then [referenceDiagnostic host fullText r] else []))
      by (intros r ds' _; apply checkReference_run).
    rewrite (IH rss _ Hrest). rewrite concat_map_filter.
    cbn [List.concat]. rewrite List.filter_app, List.map_app, List.app_assoc.
    reflexivity.
Qed.

Lemma removeMatching_subset (k : option string) (l r : list ParameterReferenceable) :
  removeMatching k l = Some r -> forall d, In d r -> In d l.
Proof.
  revert r. induction l as [|p l IH]; intros r H d Hd; simpl in H; [discriminate|].
  destruct (optionStringEqb k (Some (parameterName p))).
  - injection H as ->. right. exact Hd.
  - destruct (removeMatching k l) as [r'|]; simpl in H; [|discriminate].
    injection H as <-. destruct Hd as [->|Hd]; [left; reflexivity|].
    right. apply (IH r' eq_refl). exact Hd.
Qed.

Lemma removeMatching_absent (k : string) (l : list ParameterReferenceable) :
  ~ In k (List.map parameterName l) -> removeMatching (Some k) l = None.
Proof.
  induction l as [|p l IH]; intros H; [reflexivity|].
  simpl. destruct (String.eqb k (parameterName p)) eqn:E.
  - apply String.eqb_eq in E. exfalso. apply H. left. symmetry. exact E.
  - rewrite IH; [reflexivity|]. intros Hin. apply H. right. exact Hin.
Qed.

Lemma removeMatching_keeps (k : string) (l r : list ParameterReferenceable)
    (d : ParameterReferenceable) :
  removeMatching (Some k) l = Some r -> In d l -> parameterName d <> k -> In d r.
Proof.
  revert r. induction l as [|p l IH]; intros r H Hd Hne; [destruct Hd|].
  simpl in H. destruct (String.eqb k (parameterName p)) eqn:E.
  - injection H as <-. destruct Hd as [->|Hd]; [|exact Hd].
    apply String.eqb_eq in E. congruence.
  - destruct (removeMatching (Some k) l) as [r'|]; simpl in H; [|discriminate].
    injection H as <-. destruct Hd as [->|Hd]; [left; reflexivity|].
    right. apply (IH r' eq_refl Hd Hne).
Qed.

Lemma matchSupplied_unknown (supplied : list SuppliedParameter) :
  forall declared p,
    In p supplied ->
    ~ In (suppliedName p) (List.map parameterName declared) ->
    In p (fst (matchSupplied supplied declared)).
Proof.
  induction supplied as [|q rest IH]; intros declared p Hp Hn; [destruct Hp|].
  cbn [matchSupplied].
  destruct (removeMatching (Some (suppliedName q)) declared) as [remaining|] eqn:Hq.
  - destruct Hp as [->|Hp].
    + rewrite (removeMatching_absent _ _ Hn) in Hq. discriminate.
    + apply IH; [exact Hp|]. intros Hin. apply Hn.
      apply List.in_map_iff in Hin. destruct Hin as (d & Hd & Hin).
      apply List.in_map_iff. exists d. split; [exact Hd|].
      apply (removeMatching_subset _ _ _ Hq). exact Hin.
  - destruct (matchSupplied rest declared) as [unknown remaining] eqn:Hm.
    cbn [fst]. destruct Hp as [->|Hp]; [left; reflexivity|].
    right. specialize (IH declared p Hp Hn). rewrite Hm in IH. exact IH.
Qed.

Lemma matchSupplied_missing (supplied : list SuppliedParameter) :
  forall declared d,
    In d declared ->
    ~ In (parameterName d) (List.map suppliedName supplied) ->
    In d (snd (matchSupplied supplied declared)).
Proof.
  induction supplied as [|q rest IH]; intros declared d Hd Hn; [exact Hd|].
  cbn [matchSupplied].
  assert (Hne : parameterName d <> suppliedName q)
    by (intros E; apply Hn; left; symmetry; exact E).
  assert (Hrest : ~ In (parameterName d) (List.map suppliedName rest))
    by (intros Hin; apply Hn; right; exact Hin).
  destruct (removeMatching (Some (suppliedName q)) declared) as [remaining|] eqn:Hq.
  - apply IH; [|exact Hrest]. apply (removeMatching_keeps _ _ _ _ Hq Hd Hne).
  - destruct (matchSupplied rest declared) as [unknown remaining] eqn:Hm.
    cbn [snd]. specialize (IH declared d Hd Hrest). rewrite Hm in IH. exact IH.
Qed.

Lemma matchSupplied_sound (supplied : list SuppliedParameter) :
  forall declared,
    (forall p, In p (fst (matchSupplied supplied declared)) -> In p supplied)
    /\ (forall d, In d (snd (matchSupplied supplied declared)) -> In d declared).
Proof.
  induction supplied as [|q rest IH]; intros declared; cbn [matchSupplied].
  - split; [intros p []|intros d Hd; exact Hd].
  - destruct (removeMatching (Some (suppliedName q)) declared) as [remaining|] eqn:Hq.
    + destruct (IH remaining) as [H1 H2]. split.
      * intros p Hp. right. apply H1. exact Hp.
      * intros d Hd. apply (removeMatching_subset _ _ _ Hq). apply H2. exact Hd.
    + destruct (IH declared) as [H1 H2].
      destruct (matchSupplied rest declared) as [unknown remaining]. cbn [fst snd] in *.
      split; [|exact H2]. intros p [->|Hp]; [left; reflexivity|right; apply H1; exact Hp].
Qed.

Lemma checkSuppliedParameters_run (host : Host) (fullText : string)
    (supplied : list SuppliedParameter) :
  forall declared ds,
    foldM (List.map suppliedPair supplied) (checkSuppliedParameter host fullText) declared ds
    = (Ok (snd (matchSupplied supplied declared)),
       ds ++ List.map (unknownParameterDiagnostic host fullText)
               (fst (matchSupplied supplied declared))).
Proof.
  induction supplied as [|q rest IH]; intros declared ds.
  - simpl. unfold ret. rewrite List.app_nil_r. reflexivity.
  - cbn [List.map foldM matchSupplied]. unfold bindM at 1.
    unfold checkSuppliedParameter at 1. cbn [suppliedPair stringKey_of].
    destruct (removeMatching (Some (suppliedName q)) declared) as [remaining|] eqn:Hq.
    + unfold ret. apply IH.
    + unfold bindM, addDiagnostic, ret. rewrite IH.
      destruct (matchSupplied rest declared) as [unknown remaining].
      cbn [fst snd List.map]. rewrite <- List.app_assoc. reflexivity.
Qed.

Lemma concat_map_singleton {A B : Type} (f : A -> B) (l : list A) :
  List.concat (List.map (fun x => [f x]) l) = List.map f l.
Proof. induction l as [|x l IH]; [reflexivity | simpl; rewrite IH; reflexivity]. Qed.

(** A literal read by [get(key)] is the value of the scalar stored in the
    entry under that key. *)
Lemma get_literal (n : Node) (k u : string) :
  get n k = Ok (Str u) ->
  exists t key sk ty tg skey range0 refs,
    getNodeItemByStringKey n k
    = Some (Pair t key sk (Some (Scalar ty tg skey u range0 refs))).
Proof.
  unfold get. destruct n as [| |ty t its r]; try discriminate.
  destruct (NodeType_eqb ty MAP || NodeType_eqb ty FLOW_MAP); [|discriminate].
  destruct (getNodeItemByStringKey (Collection ty t its r) k) as [[| t' key sk [v|] |]|];
    try discriminate.
  destruct v; try discriminate.
  intros H. injection H as ->. repeat eexists.
Qed.

Lemma string_app_assoc (a b c : string) : (a +:+ b) +:+ c = a +:+ (b +:+ c).
Proof.
  induction a as [|x a IH]; [reflexivity|].
  change (String x ((a +:+ b) +:+ c) = String x (a +:+ (b +:+ c))). rewrite IH. reflexivity.
Qed.

End PassFacts.

(** * Resolution, sub-stack parameters and child templates *)

Module PassClaims.
Import Js Yaml CloudformationYaml JsFacts PassFacts.

(** C6: the diagnostics that [buildInvalidReferenceDiagnostics] adds are,
    in the order of extraction, the diagnostics of exactly the references
    that do not resolve, each of severity Error and with the message of the
    table for its kind; a GetAtt reference resolves exactly when its key is
    among the outputs of the sub stacks, and a reference of any other kind
    exactly when its key is among the local parameters, resources,
    conditions or mappings. *)
Theorem resolution_dichotomy (host : Host) (fullText : string)
    (referenceables : Referenceables) (nodes : list Node)
    (referencesOfNodes : list (list Reference)) (ds : list Diagnostic) :
  List.map references_of nodes = List.map Some referencesOfNodes ->
  buildInvalidReferenceDiagnostics host fullText referenceables nodes ds
  = (Ok tt,
     ds ++ List.map (referenceDiagnostic host fullText)
             (List.filter (fun r => negb (resolvesb referenceables r))
                          (List.concat referencesOfNodes)))
  /\ (forall r, resolvesb referenceables r = true <-> resolves referenceables r)
  /\ (forall r, refType r = GET_ATT ->
        (resolves referenceables r
         <-> In (referencedKey r) (outputs (subStackReferenceables referenceables))))
  /\ (forall r, refType r <> GET_ATT ->
        (resolves referenceables r
         <-> In (Some (referencedKey r))
                (refParameters referenceables ++ refResources referenceables
                 ++ refConditions referenceables ++ refMappings referenceables)))
  /\ (forall r, severity (referenceDiagnostic host fullText r) = Error
                /\ message (referenceDiagnostic host fullText r)
                   = referenceTypeToDiagnosticMessage host (refType r) (referencedKey r)).
Proof.
  intros Hrefs. split; [apply buildInvalidReferenceDiagnostics_run; exact Hrefs|].
  split; [intros r; apply resolvesb_spec|].
  split; [intros r Hr; unfold resolves; rewrite Hr; reflexivity|].
  split; [|intros r; split; reflexivity].
  intros r Hr. unfold resolves. destruct (refType r); try reflexivity. congruence.
Qed.

(** C7, as amended: for a sub-stack resource with a literal [TemplateURL]
    whose properties carry a [Parameters] block, the matcher first adds, for
    handed-over parameters, Error diagnostics at the key of the parameter,
    among them one for every parameter whose name the child does not
    declare; it then adds, at the key of the [Parameters] block, one
    diagnostic for each declared parameter left unmatched, among them every
    declared parameter that is not handed over: a Warning with the
    default-value message when the parameter has a default and an Error with
    the required-parameter message when it has none. A parent whose
    [Parameters] block is empty, for a child declaring one parameter with a
    default, gets exactly one Warning and no Error. *)
Theorem sub_stack_parameter_matching (host : Host) (fullText : string)
    (subStackReferenceables : SubStackReferenceables)
    (subStackNodePair subStackNodeValue propertiesPair properties : Node)
    (templateUrl : string)
    (blockTag : option string) (blockKey : KeyNode) (blockName : string)
    (blockType : NodeType) (blockValueTag : option string) (blockRange : Z)
    (supplied : list SuppliedParameter) (declared : list ParameterReferenceable)
    (ds : list Diagnostic) :
  value_of subStackNodePair = NodeRef subStackNodeValue ->
  getNodeItemByStringKey subStackNodeValue "Properties" = Some propertiesPair ->
  getNodeValueIfPair propertiesPair = Some properties ->
  get properties "TemplateURL" = Ok (Str templateUrl) ->
  getNodeItemByStringKey properties "Parameters"
  = Some (Pair blockTag blockKey blockName
            (Some (Collection blockType blockValueTag
                     (List.map suppliedPair supplied) blockRange))) ->
  parameters subStackReferenceables !! templateUrl = Some declared ->
  exists unknown missing,
    checkSubStack host fullText subStackReferenceables subStackNodePair ds
    = (Ok tt,
       ds ++ List.map (unknownParameterDiagnostic host fullText) unknown
          ++ List.map (missingParameterDiagnostic host fullText blockKey) missing)
    /\ (forall p, In p supplied ->
          ~ In (suppliedName p) (List.map parameterName declared) -> In p unknown)
    /\ (forall p, In p unknown -> In p supplied)
    /\ (forall d, In d declared ->
          ~ In (parameterName d) (List.map suppliedName supplied) -> In d missing)
    /\ (forall d, In d missing -> In d declared)
    /\ (forall p, severity (unknownParameterDiagnostic host fullText p) = Error)
    /\ (forall d, hasDefault d = true ->
          severity (missingParameterDiagnostic host fullText blockKey d) = Warning
          /\ message (missingParameterDiagnostic host fullText blockKey d)
             = "Properties missing value for parameter with default value, '"
               +:+ parameterName d +:+ "'")
    /\ (forall d, hasDefault d = false ->
          severity (missingParameterDiagnostic host fullText blockKey d) = Error
          /\ message (missingParameterDiagnostic host fullText blockKey d)
             = "Properties missing value for required parameter, '"
               +:+ parameterName d +:+ "'")
    /\ (forall d, supplied = [] -> declared = [d] -> hasDefault d = true ->
          checkSubStack host fullText subStackReferenceables subStackNodePair ds
          = (Ok tt, ds ++ [missingParameterDiagnostic host fullText blockKey d])
          /\ severity (missingParameterDiagnostic host fullText blockKey d) = Warning).
Proof.
  intros Hvalue Hprops Hproperties Hurl Hblock Hdeclared.
  assert (Hrun :
    checkSubStack host fullText subStackReferenceables subStackNodePair ds
    = (Ok tt,
       ds ++ List.map (unknownParameterDiagnostic host fullText)
               (fst (matchSupplied supplied declared))
          ++ List.map (missingParameterDiagnostic host fullText blockKey)
               (snd (matchSupplied supplied declared)))).
  { unfold checkSubStack. rewrite Hvalue, Hprops.
    unfold bindM at 1, lift at 1, valueOfItem at 1. rewrite Hproperties.
    unfold bindM at 1, lift at 1. rewrite Hurl.
    unfold bindM at 1, lift at 1, valueOfItem at 1. rewrite Hblock.
    cbn [getNodeValueIfPair items_of]. rewrite Hdeclared.
    unfold bindM at 1. rewrite checkSuppliedParameters_run.
    destruct (snd (matchSupplied supplied declared)) as [|d remaining] eqn:Hrem.
    - unfold ret. cbn [List.map]. rewrite List.app_nil_r. reflexivity.
    - cbn [key_of].
      rewrite (forEach_appends _ _
                 (fun p => [missingParameterDiagnostic host fullText blockKey p]))
        by (intros; reflexivity).
      rewrite concat_map_singleton, <- List.app_assoc. reflexivity. }
  exists (fst (matchSupplied supplied declared)), (snd (matchSupplied supplied declared)).
  split; [exact Hrun|].
  split; [intros p; apply matchSupplied_unknown|].
  split; [apply matchSupplied_sound|].
  split; [intros d; apply matchSupplied_missing|].
  split; [apply matchSupplied_sound|].
  split; [reflexivity|].
  split; [intros d Hd; unfold missingParameterDiagnostic, missingParameterSeverity,
            missingParameterMessage; rewrite Hd; split; reflexivity|].
  split; [intros d Hd; unfold missingParameterDiagnostic, missingParameterSeverity,
            missingParameterMessage; rewrite Hd; split; reflexivity|].
  intros d -> -> Hd. split; [exact Hrun|].
  unfold missingParameterDiagnostic, missingParameterSeverity. rewrite Hd. reflexivity.
Qed.

(** C8: when the file named by the literal [TemplateURL] of a sub-stack
    resource cannot be read or parsed, the collector adds exactly one Error
    diagnostic, at the start of the [TemplateURL] value and as long as the
    URL, whose message ends with the text of the failure; the outputs
    collected so far stay as they are, the parameters recorded for the URL
    are none, and the loop goes on with the remaining sub-stack resources. *)
Theorem child_template_load_failure (host : Host) (fullText parentPath : string)
    (acc : SubStackReferenceables) (nodePair : Node) (rest : list Node)
    (propertiesNode : Node) (templateUrl error : string) (ds : list Diagnostic) :
  getOf (value_of nodePair) "Properties" = Ok (NodeRef propertiesNode) ->
  get propertiesNode "TemplateURL" = Ok (Str templateUrl) ->
  bindO (readFileSync host (parentPath +:+ "/" +:+ templateUrl)) (parseDocument host)
  = Throw error ->
  exists t key sk ty tg skey range0 refs diagnostic,
    getNodeItemByStringKey propertiesNode "TemplateURL"
    = Some (Pair t key sk (Some (Scalar ty tg skey templateUrl range0 refs)))
    /\ diagnostic
       = createDiagnostic (getRowColumnPosition host fullText range0)
           (strlen templateUrl) Error
           (loadFailureMessage (parentPath +:+ "/" +:+ templateUrl) error)
    /\ severity diagnostic = Error
    /\ (exists text, message diagnostic = text +:+ error)
    /\ subStackReferenceablesOf host fullText parentPath acc nodePair ds
       = (Ok (mkSubStack (outputs acc) (<[templateUrl := []]> (parameters acc))),
          ds ++ [diagnostic])
    /\ (<[templateUrl := []]> (parameters acc)) !! templateUrl = Some []
    /\ getSubStackReferenceablesFrom host fullText (nodePair :: rest) parentPath acc ds
       = getSubStackReferenceablesFrom host fullText rest parentPath
           (mkSubStack (outputs acc) (<[templateUrl := []]> (parameters acc)))
           (ds ++ [diagnostic]).
Proof.
  intros Hprops Hurl Hload.
  destruct (get_literal _ _ _ Hurl) as (t & key & sk & ty & tg & skey & range0 & refs & Hitem).
  exists t, key, sk, ty, tg, skey, range0, refs.
  eexists. split; [exact Hitem|]. split; [reflexivity|]. split; [reflexivity|].
  split.
  { exists ("Unable to load or parse template file, '"
             +:+ (parentPath +:+ "/" +:+ templateUrl) +:+ "'. Error encountered: ").
    cbn [message createDiagnostic]. unfold loadFailureMessage.
    rewrite (string_app_assoc "Unable to load or parse template file, '"),
            (string_app_assoc (parentPath +:+ "/" +:+ templateUrl)).
    reflexivity. }
  assert (Hstep :
    subStackReferenceablesOf host fullText parentPath acc nodePair ds
    = (Ok (mkSubStack (outputs acc) (<[templateUrl := []]> (parameters acc))),
       ds ++ [createDiagnostic (getRowColumnPosition host fullText range0)
                (strlen templateUrl) Error
                (loadFailureMessage (parentPath +:+ "/" +:+ templateUrl) error)])).
  { unfold subStackReferenceablesOf. unfold bindM at 1, lift at 1. rewrite Hprops.
    unfold bindM at 1, lift at 1. cbn [getOf]. rewrite Hurl, Hload, Hitem.
    reflexivity. }
  split; [exact Hstep|]. split; [apply lookup_insert_eq|].
  unfold getSubStackReferenceablesFrom. cbn [foldM]. unfold bindM at 1.
  rewrite Hstep. reflexivity.
Qed.

End PassClaims.

(** * Properties of the whole pass *)

Module AnalysisFacts.
Import Js Yaml CloudformationYaml JsFacts ExtractorFacts PassFacts.

Lemma bindM_lift {A B : Type} (o : Outcome A) (f : A -> M B) (ds : list Diagnostic) :
  bindM (lift o) f ds = match o with
                        | Ok a => f a ds
                        | Throw e => (Throw e, ds)
                        end.
Proof. unfold bindM, lift. destruct o; reflexivity. Qed.

(** ** Trees without intrinsic usage *)

(** A tag that is none of the intrinsic ones starts no rule of the
    inspection. *)
Lemma intrinsicTag_rules (t : option string) :
  intrinsicTag t = false ->
  nodeTagToReferenceType t = None
  /\ tagIs t "!GetAtt" = false /\ tagIs t "!Ref" = false /\ tagIs t "!Sub" = false.
Proof.
  destruct t as [s|]; [|repeat split; reflexivity].
  cbn [intrinsicTag nodeTagToReferenceType tagIs]. unfold intrinsicName. intros H.
  repeat (apply orb_false_iff in H; destruct H as [H ?]).
  repeat match goal with E : String.eqb _ _ = false |- _ => rewrite E; clear E end.
  repeat split; reflexivity.
Qed.

Lemma withoutIntrinsic_tag (n : Node) :
  withoutIntrinsic n = true -> intrinsicTag (tag_of n) = false.
Proof.
  destruct n; simpl; intros H; repeat (apply andb_prop in H; destruct H as [H ?]);
    apply negb_true_iff in H; exact H.
Qed.

Lemma withoutIntrinsic_setTag (n : Node) (t : option string) :
  withoutIntrinsic n = true -> intrinsicTag t = false -> withoutIntrinsic (setTag n t) = true.
Proof.
  intros H Ht. destruct n; simpl in *; rewrite Ht;
    repeat (apply andb_prop in H; destruct H as [H ?]);
    repeat (apply andb_true_intro; split); try reflexivity; assumption.
Qed.

Lemma withoutIntrinsic_inheritTag (n : Node) (t : option string) :
  withoutIntrinsic n = true -> intrinsicTag t = false ->
  withoutIntrinsic (inheritTag n t) = true.
Proof.
  intros H Ht. unfold inheritTag.
  destruct (truthy (tag_of n)); [exact H | apply withoutIntrinsic_setTag; assumption].
Qed.

Lemma withoutIntrinsic_getNodeValueIfPair (n nv : Node) :
  withoutIntrinsic n = true -> getNodeValueIfPair n = Some nv -> withoutIntrinsic nv = true.
Proof.
  intros H Hnv.
  destruct n as [ty t k v r refs | t k sk [m|] | ty t its r]; simpl in Hnv;
    try (injection Hnv as <-; exact H); try discriminate.
  simpl in H. apply andb_prop in H. destruct H as [H Hm].
  apply andb_prop in H. destruct H as [Ht Hk]. apply negb_true_iff in Ht.
  pose proof (withoutIntrinsic_tag _ Hm) as Hmt.
  assert (Hinherited : forall t', intrinsicTag t' = false ->
            intrinsicTag (if truthy t' then t' else t) = false)
    by (intros t' Ht'; destruct (truthy t'); assumption).
  destruct m as [ty t' k' val r refs | t' k' sk' v' | ty t' its r]; injection Hnv as <-;
    cbn [withoutIntrinsic tag_of] in *; rewrite (Hinherited t' Hmt); cbn [negb andb].
  - exact Hk.
  - apply andb_prop in Hm. destruct Hm as [Hm1 Hm2].
    apply andb_prop in Hm1. destruct Hm1 as [_ Hm1]. rewrite Hm1, Hm2. reflexivity.
  - apply andb_prop in Hm. destruct Hm as [_ Hm]. exact Hm.
Qed.

Lemma withoutIntrinsic_items (nv : Node) (its : list Node) :
  withoutIntrinsic nv = true -> items_of nv = Some its ->
  forall m, In m its -> withoutIntrinsic m = true.
Proof.
  destruct nv as [| |ty t l r]; simpl; intros H Hi; try discriminate.
  injection Hi as ->. apply andb_prop in H. destruct H as [_ H].
  intros m Hm. rewrite List.forallb_forall in H. apply H. exact Hm.
Qed.

Lemma withoutIntrinsic_inspectNode (nv : Node) :
  withoutIntrinsic nv = true -> inspectNode nv = [].
Proof.
  destruct nv as [ty t k v r refs| |]; try reflexivity.
  cbn [withoutIntrinsic inspectNode]. intros H. apply andb_prop in H. destruct H as [Ht Hk].
  apply negb_true_iff in Ht.
  destruct (intrinsicTag_rules t Ht) as (Hkind & Hget & Href & Hsub).
  destruct (NodeType_eqb ty PLAIN || NodeType_eqb ty QUOTE_DOUBLE); [|reflexivity].
  assert (Hcontext : nodeTagToReferenceType (orElse t k) = None).
  { unfold orElse. destruct (truthy t); [exact Hkind|].
    destruct (nodeTagToReferenceType k); [discriminate | reflexivity]. }
  rewrite Hcontext, Hget, Href, Hsub. reflexivity.
Qed.

Lemma mapO_all_nil {A B : Type} (f : A -> Outcome (list B)) (l : list A) :
  (forall x, In x l -> f x = Ok [] \/ exists e, f x = Throw e) ->
  (exists ys, mapO f l = Ok ys /\ flattenArray ys = []) \/ exists e, mapO f l = Throw e.
Proof.
  induction l as [|x l IH]; intros H.
  - left. exists []. split; reflexivity.
  - cbn [mapO]. destruct (H x (or_introl eq_refl)) as [Hx|[e Hx]]; rewrite Hx; cbn [bindO].
    + destruct IH as [(ys & Hys & Hflat)|[e He]].
      * intros y Hy. apply H. right. exact Hy.
      * left. exists ([] :: ys). rewrite Hys. split; [reflexivity | exact Hflat].
      * right. exists e. rewrite He. reflexivity.
    + right. exists e. reflexivity.
Qed.

(** The extractor finds nothing in a tree without intrinsic usage. *)
Lemma withoutIntrinsic_no_references (fuel : nat) :
  forall n, withoutIntrinsic n = true ->
    getSubNodesWhichReferenceFuel fuel n = Ok []
    \/ exists e, getSubNodesWhichReferenceFuel fuel n = Throw e.
Proof.
  induction fuel as [|fuel IH]; intros n Hn; [right; eexists; reflexivity|].
  cbn [getSubNodesWhichReferenceFuel].
  destruct (getNodeValueIfPair n) as [nv|] eqn:Hnv; [|right; eexists; reflexivity].
  pose proof (withoutIntrinsic_getNodeValueIfPair _ _ Hn Hnv) as Hu.
  pose proof (withoutIntrinsic_tag _ Hu) as Ht.
  assert (Hmap : forall its,
    (if NodeType_eqb (type_of nv) MAP then items_of nv else None) = Some its ->
    bindO (mapO (fun item =>
                   getSubNodesWhichReferenceFuel fuel (inheritTag item (tag_of nv))) its)
          (fun subNodes => Ok (flattenArray subNodes)) = Ok []
    \/ exists e,
      bindO (mapO (fun item =>
                     getSubNodesWhichReferenceFuel fuel (inheritTag item (tag_of nv))) its)
            (fun subNodes => Ok (flattenArray subNodes)) = Throw e).
  { intros its Hits. apply sequence_items in Hits.
    destruct (mapO_all_nil
                (fun item => getSubNodesWhichReferenceFuel fuel (inheritTag item (tag_of nv)))
                its) as [(ys & Hys & Hflat)|[e He]].
    - intros x Hx. apply IH. apply withoutIntrinsic_inheritTag; [|exact Ht].
      apply (withoutIntrinsic_items _ _ Hu Hits). exact Hx.
    - left. rewrite Hys. cbn [bindO]. rewrite Hflat. reflexivity.
    - right. exists e. rewrite He. reflexivity. }
  destruct (if NodeType_eqb (type_of nv) FLOW_SEQ then items_of nv else None)
    as [[|firstSubNode items]|] eqn:Hseq.
  - destruct (if NodeType_eqb (type_of nv) MAP then items_of nv else None) as [its|];
      [apply Hmap; reflexivity|].
    left. rewrite (withoutIntrinsic_inspectNode _ Hu). reflexivity.
  - apply sequence_items in Hseq.
    pose proof (withoutIntrinsic_items _ _ Hu Hseq) as Hall.
    destruct (IH (inheritTag firstSubNode (tag_of nv))) as [Hf|[e Hf]].
    + apply withoutIntrinsic_inheritTag; [|exact Ht]. apply Hall. left. reflexivity.
    + rewrite Hf. cbn [bindO].
      destruct (mapO_all_nil (getSubNodesWhichReferenceFuel fuel) items)
        as [(ys & Hys & Hflat)|[e He]].
      * intros x Hx. apply IH. apply Hall. right. exact Hx.
      * left. rewrite Hys. cbn [bindO]. rewrite Hflat. reflexivity.
      * right. exists e. rewrite He. reflexivity.
    + right. exists e. rewrite Hf. reflexivity.
  - destruct (if NodeType_eqb (type_of nv) MAP then items_of nv else None) as [its|];
      [apply Hmap; reflexivity|].
    left. rewrite (withoutIntrinsic_inspectNode _ Hu). reflexivity.
Qed.

Lemma withoutIntrinsic_get (n v : Node) (k : string) :
  withoutIntrinsic n = true -> get n k = Ok (NodeRef v) -> withoutIntrinsic v = true.
Proof.
  intros Hn. unfold get. destruct n as [| |ty t its r]; try discriminate.
  destruct (NodeType_eqb ty MAP || NodeType_eqb ty FLOW_MAP); [|discriminate].
  destruct (getNodeItemByStringKey (Collection ty t its r) k) as [item|] eqn:Hitem;
    [|discriminate].
  unfold getNodeItemByStringKey in Hitem. cbn [items_of] in Hitem.
  apply List.find_some in Hitem. destruct Hitem as [Hin _].
  pose proof (withoutIntrinsic_items _ _ Hn eq_refl _ Hin) as Hitem.
  destruct item as [|t' key sk [m|]|]; try discriminate.
  simpl in Hitem. apply andb_prop in Hitem. destruct Hitem as [_ Hm].
  destruct m; try discriminate; intros H; injection H as <-; exact Hm.
Qed.

Lemma withoutIntrinsic_documentGet (d : Document) (k : string) (v : Node) :
  noIntrinsicUsage d = true -> documentGet d k = NodeRef v -> withoutIntrinsic v = true.
Proof.
  unfold noIntrinsicUsage, documentGet.
  destruct (contents d) as [[| |ty t its r]|]; try discriminate.
  intros Hn. destruct (get (Collection ty t its r) k) as [w|] eqn:Hg; [|discriminate].
  intros ->. apply (withoutIntrinsic_get _ _ _ Hn Hg).
Qed.

Lemma withoutIntrinsic_getSubNodesWhichReference (d : Document) (k : string) :
  noIntrinsicUsage d = true ->
  getSubNodesWhichReference (documentGet d k) = Ok []
  \/ exists e, getSubNodesWhichReference (documentGet d k) = Throw e.
Proof.
  intros Hn. destruct (documentGet d k) as [|s|v] eqn:Hv; try (left; reflexivity).
  apply withoutIntrinsic_no_references. apply (withoutIntrinsic_documentGet _ _ _ Hn Hv).
Qed.

Lemma withoutIntrinsic_getNodesWhichReference (d : Document) :
  noIntrinsicUsage d = true ->
  getNodesWhichReference d = Ok [] \/ exists e, getNodesWhichReference d = Throw e.
Proof.
  intros Hn. unfold getNodesWhichReference.
  destruct (withoutIntrinsic_getSubNodesWhichReference d "Resources" Hn) as [H1|[e H1]];
    rewrite H1; cbn [bindO]; [|right; eexists; reflexivity].
  destruct (withoutIntrinsic_getSubNodesWhichReference d "Outputs" Hn) as [H2|[e H2]];
    rewrite H2; cbn [bindO]; [left; reflexivity | right; eexists; reflexivity].
Qed.

(** Without sub stacks the collection of the referenceables adds no
    diagnostic. *)
Lemma getReferenceables_no_sub_stack (host : Host) (fullText fileName : string)
    (document : Document) (ds : list Diagnostic) :
  parseDocument host fullText = Ok document ->
  ~ declaresSubStack document ->
  snd (getReferenceables host fullText fileName ds) = ds.
Proof.
  intros Hparse Hnone. unfold getReferenceables.
  rewrite bindM_lift, Hparse.
  destruct (contents document) as [c|] eqn:Hc; [|reflexivity].
  repeat (rewrite bindM_lift;
          match goal with
          | |- context [match ?o with Ok _ => _ | Throw _ => _ end] =>
            destruct o eqn:?; [|reflexivity]
          end).
  match goal with
  | H : findSubStackNodePairs document = Ok ?l |- _ =>
    destruct l as [|p ps]; [|exfalso; apply Hnone; exists p, ps; exact H]
  end.
  reflexivity.
Qed.

End AnalysisFacts.

Module ResolutionFacts.
Import Js Yaml CloudformationYaml JsFacts ExtractorFacts PassFacts AnalysisFacts.

(** ** Every node that the extractor returns holds references *)

Lemma inspectNode_holds (nv : Node) : Forall holdsReferences (inspectNode nv).
Proof.
  destruct nv as [ty t k v r refs| |]; try constructor.
  unfold inspectNode.
  destruct (NodeType_eqb ty PLAIN || NodeType_eqb ty QUOTE_DOUBLE); [|constructor].
  destruct (nodeTagToReferenceType (orElse t k));
    [repeat constructor; eexists; reflexivity|].
  destruct (tagIs t "!GetAtt"); [repeat constructor; eexists; reflexivity|].
  destruct (tagIs t "!Ref" && negb (startsWith v "AWS::"));
    [repeat constructor; eexists; reflexivity|].
  destruct (tagIs t "!Sub"); [repeat constructor; eexists; reflexivity|constructor].
Qed.

Lemma Forall_concat {A : Type} (P : A -> Prop) (ls : list (list A)) :
  Forall (Forall P) ls -> Forall P (List.concat ls).
Proof.
  induction 1 as [|l ls Hl _ IH]; [constructor|].
  simpl. apply List.Forall_app. split; assumption.
Qed.

Lemma mapO_Forall {A B : Type} (P : B -> Prop) (f : A -> Outcome B) (l : list A) :
  (forall x y, In x l -> f x = Ok y -> P y) ->
  forall ys, mapO f l = Ok ys -> Forall P ys.
Proof.
  induction l as [|x l IH]; intros H ys Hys; simpl in Hys.
  - injection Hys as <-. constructor.
  - destruct (f x) as [y|] eqn:Hx; [|discriminate]. cbn [bindO] in Hys.
    destruct (mapO f l) as [ys'|] eqn:Hl; [|discriminate]. cbn [bindO] in Hys.
    injection Hys as <-. constructor.
    + apply (H x y); [left; reflexivity | exact Hx].
    + apply IH; [|reflexivity]. intros x' y' Hin. apply H. right. exact Hin.
Qed.

Lemma getSubNodesWhichReferenceFuel_holds (fuel : nat) :
  forall n nodes,
    getSubNodesWhichReferenceFuel fuel n = Ok nodes -> Forall holdsReferences nodes.
Proof.
  induction fuel as [|fuel IH]; intros n nodes H; [discriminate|].
  cbn [getSubNodesWhichReferenceFuel] in H.
  destruct (getNodeValueIfPair n) as [nv|]; [|discriminate].
  assert (Hmap : forall its,
    bindO (mapO (fun item =>
                   getSubNodesWhichReferenceFuel fuel (inheritTag item (tag_of nv))) its)
          (fun subNodes => Ok (flattenArray subNodes)) = Ok nodes ->
    Forall holdsReferences nodes).
  { intros its Hits.
    destruct (mapO (fun item =>
                      getSubNodesWhichReferenceFuel fuel (inheritTag item (tag_of nv))) its)
      as [ys|] eqn:Hys; [|discriminate].
    cbn [bindO] in Hits. injection Hits as <-. apply Forall_concat.
    apply (mapO_Forall _ _ _ (fun x y _ Hy => IH _ _ Hy) _ Hys). }
  destruct (if NodeType_eqb (type_of nv) FLOW_SEQ then items_of nv else None)
    as [[|firstSubNode items]|].
  - destruct (if NodeType_eqb (type_of nv) MAP then items_of nv else None) as [its|];
      [apply (Hmap its H)|].
    injection H as <-. apply inspectNode_holds.
  - destruct (getSubNodesWhichReferenceFuel fuel (inheritTag firstSubNode (tag_of nv)))
      as [firstSubNodes|] eqn:Hf; [|discriminate].
    cbn [bindO] in H.
    destruct (mapO (getSubNodesWhichReferenceFuel fuel) items) as [ys|] eqn:Hys;
      [|discriminate].
    cbn [bindO] in H. injection H as <-. apply List.Forall_app. split.
    + apply (IH _ _ Hf).
    + apply Forall_concat. apply (mapO_Forall _ _ _ (fun x y _ Hy => IH _ _ Hy) _ Hys).
  - destruct (if NodeType_eqb (type_of nv) MAP then items_of nv else None) as [its|];
      [apply (Hmap its H)|].
    injection H as <-. apply inspectNode_holds.
Qed.

Lemma getNodesWhichReference_holds (document : Document) (nodes : list Node) :
  getNodesWhichReference document = Ok nodes -> Forall holdsReferences nodes.
Proof.
  unfold getNodesWhichReference.
  assert (Hsub : forall v l, getSubNodesWhichReference v = Ok l -> Forall holdsReferences l).
  { intros [|s|n] l H; cbn [getSubNodesWhichReference] in H;
      try (injection H as <-; constructor).
    apply (getSubNodesWhichReferenceFuel_holds _ _ _ H). }
  destruct (getSubNodesWhichReference (documentGet document "Resources")) as [a|] eqn:Ha;
    [|discriminate].
  destruct (getSubNodesWhichReference (documentGet document "Outputs")) as [b|] eqn:Hb;
    [|discriminate].
  cbn [bindO]. intros H. injection H as <-. apply List.Forall_app.
  split; [apply (Hsub _ _ Ha) | apply (Hsub _ _ Hb)].
Qed.

Lemma holdsReferences_lists (nodes : list Node) :
  Forall holdsReferences nodes ->
  exists referencesOfNodes,
    List.map references_of nodes = List.map Some referencesOfNodes.
Proof.
  induction 1 as [|n nodes [refs Hn] _ [rss IH]].
  - exists []. reflexivity.
  - exists (refs :: rss). simpl. rewrite Hn, IH. reflexivity.
Qed.

Lemma references_in_concat (nodes : list Node) (referencesOfNodes : list (list Reference))
    (node : Node) (references : list Reference) (reference : Reference) :
  List.map references_of nodes = List.map Some referencesOfNodes ->
  In node nodes -> references_of node = Some references -> In reference references ->
  In reference (List.concat referencesOfNodes).
Proof.
  revert referencesOfNodes.
  induction nodes as [|n nodes IH]; intros [|refs rss] Hmap Hnode Href Hin;
    try discriminate; [destruct Hnode|].
  simpl in Hmap. injection Hmap as Hn Hrest. simpl. apply List.in_or_app.
  destruct Hnode as [->|Hnode].
  - left. rewrite Href in Hn. injection Hn as <-. exact Hin.
  - right. apply (IH rss Hrest Hnode Href Hin).
Qed.

(** ** A pass only adds to the collection *)

Lemma extends_ret {A : Type} (a : A) : extends (ret a).
Proof. intros ds. exists []. simpl. rewrite List.app_nil_r. reflexivity. Qed.

Lemma extends_throw {A : Type} (e : string) : extends (@throw A e).
Proof. intros ds. exists []. simpl. rewrite List.app_nil_r. reflexivity. Qed.

Lemma extends_lift {A : Type} (o : Outcome A) : extends (lift o).
Proof. intros ds. exists []. simpl. rewrite List.app_nil_r. reflexivity. Qed.

Lemma extends_addDiagnostic (d : Diagnostic) : extends (addDiagnostic d).
Proof. intros ds. exists [d]. reflexivity. Qed.

Lemma extends_bindM {A B : Type} (m : M A) (f : A -> M B) :
  extends m -> (forall a, extends (f a)) -> extends (bindM m f).
Proof.
  intros Hm Hf ds. unfold bindM. destruct (Hm ds) as [e1 H1].
  destruct (m ds) as [[a|e] ds1]; cbn [snd] in H1; subst ds1.
  - destruct (Hf a (ds ++ e1)) as [e2 H2]. exists (e1 ++ e2).
    rewrite H2, List.app_assoc. reflexivity.
  - exists e1. reflexivity.
Qed.

Lemma extends_forEach {A : Type} (l : list A) (f : A -> M unit) :
  (forall x, extends (f x)) -> extends (forEach l f).
Proof.
  intros Hf. induction l as [|x l IH]; [apply extends_ret|].
  cbn [forEach]. apply extends_bindM; [apply Hf | intros _; exact IH].
Qed.

Lemma extends_foldM {A S : Type} (l : list A) (f : S -> A -> M S) :
  (forall s x, extends (f s x)) -> forall s, extends (foldM l f s).
Proof.
  intros Hf. induction l as [|x l IH]; intros s; [apply extends_ret|].
  cbn [foldM]. apply extends_bindM; [apply Hf | intros s'; apply IH].
Qed.

Ltac extends_step :=
  first
    [ apply extends_ret
    | apply extends_throw
    | apply extends_lift
    | apply extends_addDiagnostic
    | apply extends_bindM; [|intros ?]
    | apply extends_forEach; intros ?
    | apply extends_foldM; intros ? ?
    | match goal with
      | |- extends (match ?x with _ => _ end) => destruct x
      end ].

Lemma extends_checkSubStack (host : Host) (fullText : string)
    (subStackReferenceables : SubStackReferenceables) (subStackNodePair : Node) :
  extends (checkSubStack host fullText subStackReferenceables subStackNodePair).
Proof.
  unfold checkSubStack, checkSuppliedParameter, reportMissingParameter.
  repeat extends_step.
Qed.

Lemma extends_buildInvalidSubStackParameterDiagnostics (host : Host) (fullText : string)
    (subStackReferenceables : SubStackReferenceables) (subStackNodePairs : list Node) :
  extends (buildInvalidSubStackParameterDiagnostics host fullText subStackReferenceables
             subStackNodePairs).
Proof.
  unfold buildInvalidSubStackParameterDiagnostics.
  apply extends_forEach. intros x. apply extends_checkSubStack.
Qed.

End ResolutionFacts.

Module AnalysisClaims.
Import Js Yaml CloudformationYaml JsFacts ExtractorFacts PassFacts AnalysisFacts.

(** C9, as amended: for every document without intrinsic usage (no node
    carries one of the tags [!Ref], [!Sub], [!GetAtt], [!If], [!FindInMap]
    or [DependsOn], whatever other tags it carries, such as [!Join] or the
    default tags of the parser; no key is [!If], [!FindInMap] or
    [DependsOn]) that declares no sub-stack resource, one pass yields no
    diagnostic. *)
Theorem no_intrinsic_usage_no_diagnostics (host : Host) (fullText fileName : string)
    (document : Document) :
  parseDocument host fullText = Ok document ->
  noIntrinsicUsage document = true ->
  ~ declaresSubStack document ->
  checkYaml host fullText fileName = [].
Proof.
  intros Hparse Hplain Hnone. unfold checkYaml, analyse.
  rewrite bindM_lift, Hparse. unfold bindM at 1.
  pose proof (getReferenceables_no_sub_stack host fullText fileName document [] Hparse Hnone)
    as Hrefs.
  destruct (getReferenceables host fullText fileName []) as [[referenceables|e] ds0];
    cbn [snd] in Hrefs; subst ds0; [|reflexivity].
  rewrite bindM_lift.
  destruct (withoutIntrinsic_getNodesWhichReference document Hplain) as [Hn|[e Hn]]; rewrite Hn;
    [|reflexivity].
  unfold bindM at 1. cbn [buildInvalidReferenceDiagnostics forEach]. unfold ret at 1.
  rewrite bindM_lift.
  destruct (findSubStackNodePairs document) as [[|p ps]|e] eqn:Hpairs; try reflexivity.
  exfalso. apply Hnone. exists p, ps. exact Hpairs.
Qed.

End AnalysisClaims.

Module ResolutionClaims.
Import Js Yaml CloudformationYaml JsFacts ExtractorFacts PassFacts AnalysisFacts ResolutionFacts.

(** C10, as amended: the exclusion of the names that start with [AWS::]
    applies to [!Ref] scalars only. Every placeholder of a plain or
    double-quoted [!Sub] scalar, whatever its inner text and so also when it
    starts with [AWS::], is extracted as a reference of kind Sub; and in
    every pass in which the referenceables are collected and the extractor
    returns that scalar, the Error diagnostic of the reference is among the
    diagnostics of the document unless a local parameter, resource,
    condition or mapping has that name. *)
Theorem sub_pseudo_parameter_is_checked (type : NodeType) (stringKey : option string)
    (value : string) (range0 : Z) (references : option (list Reference)) (m : RegExpMatch) :
  type = PLAIN \/ type = QUOTE_DOUBLE ->
  In m (execAllPlaceholder value) ->
  let scalar := Scalar type (Some "!Sub") stringKey value range0 references in
  let found := setReferences scalar (subReferences type value range0) in
  let reference :=
    mkReference SUB (placeholderName m)
                (range0 + 5 + nodeTypeToSubOffset type + 2 + index m) in
  getSubNodesWhichReference (NodeRef scalar) = Ok [found]
  /\ In reference (subReferences type value range0)
  /\ (forall (host : Host) (fullText fileName : string) (document : Document)
             (referenceables : Referenceables) (ds0 : list Diagnostic) (nodes : list Node),
        parseDocument host fullText = Ok document ->
        getReferenceables host fullText fileName [] = (Ok referenceables, ds0) ->
        getNodesWhichReference document = Ok nodes ->
        In found nodes ->
        ~ In (Some (placeholderName m))
             (refParameters referenceables ++ refResources referenceables
              ++ refConditions referenceables ++ refMappings referenceables) ->
        In (referenceDiagnostic host fullText reference) (checkYaml host fullText fileName)
        /\ severity (referenceDiagnostic host fullText reference) = Error).
Proof.
  intros Htype Hm scalar found reference.
  assert (Hin : In reference (subReferences type value range0)).
  { unfold subReferences. apply List.in_map_iff. exists m. split; [reflexivity | exact Hm]. }
  split.
  { unfold scalar, found. rewrite getSubNodesWhichReference_scalar.
    destruct Htype as [-> | ->]; reflexivity. }
  split; [exact Hin|].
  intros host fullText fileName document referenceables ds0 nodes
         Hparse Hrefs Hnodes Hfound Hlocal.
  split; [|reflexivity].
  destruct (holdsReferences_lists _ (getNodesWhichReference_holds _ _ Hnodes))
    as [referencesOfNodes Hlists].
  assert (Hunresolved :
    In reference (List.filter (fun r => negb (resolvesb referenceables r))
                              (List.concat referencesOfNodes))).
  { apply List.filter_In. split.
    - apply (references_in_concat _ _ found _ _ Hlists Hfound eq_refl Hin).
    - apply negb_true_iff. destruct (resolvesb referenceables reference) eqn:Hres;
        [|reflexivity].
      apply resolvesb_spec in Hres. exfalso. apply Hlocal. exact Hres. }
  unfold checkYaml, analyse. rewrite bindM_lift, Hparse. unfold bindM at 1. rewrite Hrefs.
  rewrite bindM_lift, Hnodes. unfold bindM at 1.
  rewrite (buildInvalidReferenceDiagnostics_run _ _ _ _ _ _ Hlists).
  rewrite bindM_lift.
  assert (Hadded :
    In (referenceDiagnostic host fullText reference)
       (ds0 ++ List.map (referenceDiagnostic host fullText)
                 (List.filter (fun r => negb (resolvesb referenceables r))
                              (List.concat referencesOfNodes)))).
  { apply List.in_or_app. right. apply List.in_map. exact Hunresolved. }
  destruct (findSubStackNodePairs document) as [pairs|e]; [|exact Hadded].
  destruct (extends_buildInvalidSubStackParameterDiagnostics host fullText
              (subStackReferenceables referenceables) pairs
              (ds0 ++ List.map (referenceDiagnostic host fullText)
                        (List.filter (fun r => negb (resolvesb referenceables r))
                                     (List.concat referencesOfNodes))))
    as [extra Hextra].
  rewrite Hextra. apply List.in_or_app. left. exact Hadded.
Qed.

End ResolutionClaims.

(** * The claims on the scenarios *)

Module LegacyFacts.
Import Js.

(** Behind a line terminator the position mapper counts the terminators
    before the offset and measures the column from the last of them. *)
Lemma getRowColumnPosition_later_line (text : string) (absolutePosition : Z)
    (before : list RegExpMatch) (lastLineReturn : RegExpMatch) :
  execAllLineReturn 0 (substring text 0 absolutePosition) = before ++ [lastLineReturn] ->
  Legacy.getRowColumnPosition text absolutePosition
  = Some (Legacy.mkPosition
            (absolutePosition - (index lastLineReturn + strlen (matched lastLineReturn)))
            (Z.of_nat (List.length before) + 1)).
Proof.
  intros H. unfold Legacy.getRowColumnPosition. rewrite H.
  rewrite List.map_app. cbn [List.map]. rewrite List.last_last, List.length_app.
  cbn [List.length].
  repeat f_equal. lia.
Qed.

(** Whenever the position mapper returns, it returns the position of the
    specification. *)
Lemma getRowColumnPosition_resolve (text : string) (absolutePosition : Z)
    (position : Legacy.Position) :
  Legacy.getRowColumnPosition text absolutePosition = Some position ->
  position = Legacy.resolve text absolutePosition.
Proof.
  unfold Legacy.getRowColumnPosition, Legacy.resolve.
  destruct (List.last (List.map Some (execAllLineReturn 0 (substring text 0 absolutePosition)))
                      None); [|discriminate].
  intros H. injection H as <-. reflexivity.
Qed.

(** On the first line there is no terminator before the offset, and the
    position mapper throws. *)
Lemma getRowColumnPosition_first_line (text : string) (absolutePosition : Z) :
  execAllLineReturn 0 (substring text 0 absolutePosition) = [] ->
  Legacy.getRowColumnPosition text absolutePosition = None.
Proof. intros H. unfold Legacy.getRowColumnPosition. rewrite H. reflexivity. Qed.

Example getRowColumnPosition_second_line :
  Legacy.getRowColumnPosition (String "a" (String LF (String "b" (String "c" EmptyString)))) 3
  = Some (Legacy.mkPosition 1 1).
Proof. reflexivity. Qed.

Example getRowColumnPosition_crlf :
  Legacy.getRowColumnPosition (String "a" (String CR (String LF (String "b" (String "c" EmptyString))))) 4
  = Some (Legacy.mkPosition 1 1).
Proof. reflexivity. Qed.

End LegacyFacts.

Module Evidence.
Import Js Yaml CloudformationYaml Scenarios.
Import ExtractorClaims PassClaims AnalysisClaims ResolutionClaims.

(** C1: for the text [Foo: !Ref Bar] and the offset 5 of the tagged value on
    its first line, the position mapper of the first revision does not
    return line 0 and column 5, the position of the specification: it
    throws, since no line terminator precedes the offset and the last match
    it reads is undefined. *)
Theorem first_line_offset_throws :
  execAllLineReturn 0 (substring "Foo: !Ref Bar" 0 5) = []
  /\ Legacy.resolve "Foo: !Ref Bar" 5 = Legacy.mkPosition 5 0
  /\ Legacy.getRowColumnPosition "Foo: !Ref Bar" 5 = None.
Proof. repeat split; reflexivity. Qed.

(** C2, counterexample: a single-quoted scalar tagged [!Sub] whose value
    holds one placeholder yields no reference. *)
Lemma single_quoted_sub_is_skipped :
  execAllPlaceholder "${Bucket}-logs" = [mkMatch 0 "${Bucket}"]
  /\ getSubNodesWhichReference (NodeRef (tagged QUOTE_SINGLE "!Sub" "${Bucket}-logs" 40))
     = Ok [].
Proof. split; reflexivity. Qed.

(** A double-quoted [!Sub] scalar with two placeholders. *)
Lemma sub_scalar_references_witness :
  getSubNodesWhichReference
    (NodeRef (tagged QUOTE_DOUBLE "!Sub" "arn:${AWS::Region}:${Bucket}" 40))
  = Ok [Scalar QUOTE_DOUBLE (Some "!Sub") None "arn:${AWS::Region}:${Bucket}" 40
          (Some [mkReference SUB "AWS::Region" 52; mkReference SUB "Bucket" 67])].
Proof.
  pose proof (sub_scalar_references QUOTE_DOUBLE None "arn:${AWS::Region}:${Bucket}" 40 None
                (or_intror eq_refl)) as H.
  cbv zeta in H. destruct H as [H _]. exact H.
Defined.

(** C3, counterexample: a single-quoted scalar tagged [!Ref] whose value
    does not start with [AWS::] yields no reference. *)
Lemma single_quoted_ref_is_skipped :
  startsWith "Bucket" "AWS::" = false
  /\ getSubNodesWhichReference (NodeRef (tagged QUOTE_SINGLE "!Ref" "Bucket" 30)) = Ok [].
Proof. split; reflexivity. Qed.

(** A plain [!Ref] scalar naming a resource, and one naming a pseudo
    parameter. *)
Lemma ref_scalar_reference_witness :
  getSubNodesWhichReference (NodeRef (tagged PLAIN "!Ref" "Bucket" 30))
  = Ok [Scalar PLAIN (Some "!Ref") None "Bucket" 30 (Some [mkReference REF "Bucket" 35])]
  /\ getSubNodesWhichReference (NodeRef (tagged PLAIN "!Ref" "AWS::Region" 30)) = Ok [].
Proof.
  split.
  - exact (proj1 (ref_scalar_reference PLAIN None "Bucket" 30 None)
                 (or_introl eq_refl) eq_refl).
  - exact (proj2 (ref_scalar_reference PLAIN None "AWS::Region" 30 None) eq_refl).
Defined.

(** C4, counterexample: a single-quoted scalar yields no reference, neither
    under the key [DependsOn] nor tagged [!GetAtt]. *)
Lemma single_quoted_names_are_skipped :
  getSubNodesWhichReference
    (NodeRef (entry "DependsOn" 20 (Scalar QUOTE_SINGLE None None "Bucket" 31 None)))
  = Ok []
  /\ getSubNodesWhichReference
       (NodeRef (tagged QUOTE_SINGLE "!GetAtt" "Child.Outputs.Bucket" 60))
     = Ok [].
Proof. split; reflexivity. Qed.

(** A plain scalar under the key [DependsOn], and one tagged [!GetAtt]. *)
Lemma direct_name_and_getatt_references_witness :
  getSubNodesWhichReference (NodeRef (Scalar PLAIN None (Some "DependsOn") "Bucket" 31 None))
  = Ok [Scalar PLAIN None (Some "DependsOn") "Bucket" 31
          (Some [mkReference DEPENDS_ON "Bucket" 31])]
  /\ getSubNodesWhichReference (NodeRef (tagged PLAIN "!GetAtt" "Child.Outputs.Bucket" 60))
     = Ok [Scalar PLAIN (Some "!GetAtt") None "Child.Outputs.Bucket" 60
             (Some [mkReference GET_ATT "Child.Outputs.Bucket" 68])].
Proof.
  split.
  - pose proof (direct_name_and_getatt_references PLAIN None (Some "DependsOn") "Bucket" 31
                  None (or_introl eq_refl)) as H.
    cbv zeta in H. destruct H as (_ & _ & H & _). exact (H eq_refl).
  - pose proof (direct_name_and_getatt_references PLAIN (Some "!GetAtt") None
                  "Child.Outputs.Bucket" 60 None (or_introl eq_refl)) as H.
    cbv zeta in H. destruct H as (_ & _ & _ & H). exact (H eq_refl).
Defined.

(** C5, counterexample: a block sequence tagged [!If] is not traversed: its
    first item does not take the tag and none of its items yields a
    reference, while the items of the flow sequence do. *)
Lemma block_sequence_is_skipped :
  getSubNodesWhichReference (NodeRef (Collection SEQ (Some "!If") conditionalItems 24)) = Ok []
  /\ getSubNodesWhichReference (NodeRef (Collection FLOW_SEQ (Some "!If") conditionalItems 24))
     = Ok conditionalNodes.
Proof. split; reflexivity. Qed.

(** The flow sequence [!If [IsProd, !Ref Bucket, !Ref Topic]]. *)
Lemma flow_sequence_traversal_witness :
  getSubNodesWhichReference (NodeRef (Collection FLOW_SEQ (Some "!If") conditionalItems 24))
  = Ok conditionalNodes.
Proof.
  pose proof (flow_sequence_traversal (Some "!If") (plain "IsProd" 25)
                [tagged PLAIN "!Ref" "Bucket" 33; tagged PLAIN "!Ref" "Topic" 46] 24) as H.
  cbv zeta in H. destruct H as (_ & _ & _ & H & _ & _).
  apply (H [Scalar PLAIN (Some "!If") None "IsProd" 25 (Some [mkReference IF "IsProd" 25])]
           [[Scalar PLAIN (Some "!Ref") None "Bucket" 33 (Some [mkReference REF "Bucket" 38])];
            [Scalar PLAIN (Some "!Ref") None "Topic" 46 (Some [mkReference REF "Topic" 51])]]).
  - reflexivity.
  - repeat constructor.
Defined.

(** Of five references, the [!Ref] of an undeclared topic and the [!GetAtt]
    of a name that is local but no output of a sub stack do not resolve. *)
Lemma resolution_dichotomy_witness :
  buildInvalidReferenceDiagnostics (hostOf parentText parentDocument []) parentText
    localNames (conditionalNodes ++ [outputAttribute; localAttribute]) []
  = (Ok tt,
     [referenceDiagnostic (hostOf parentText parentDocument []) parentText
        (mkReference REF "Topic" 51);
      referenceDiagnostic (hostOf parentText parentDocument []) parentText
        (mkReference GET_ATT "Bucket" 98)]).
Proof.
  exact (proj1 (resolution_dichotomy (hostOf parentText parentDocument []) parentText
                  localNames (conditionalNodes ++ [outputAttribute; localAttribute])
                  [[mkReference IF "IsProd" 25]; [mkReference REF "Bucket" 38];
                   [mkReference REF "Topic" 51];
                   [mkReference GET_ATT "Child.Outputs.Bucket" 68];
                   [mkReference GET_ATT "Bucket" 98]]
                  [] eq_refl)).
Defined.

(** C7, counterexample: for a sub-stack resource without [Parameters] block
    whose child declares one parameter with a default, the matcher adds no
    Warning: it throws on reading the items of the absent block. *)
Lemma absent_parameters_block_gives_no_warning :
  get childProperties "TemplateURL" = Ok (Str "child.yaml")
  /\ parameters optionalBaz !! "child.yaml" = Some [mkParameter "Baz" true]
  /\ getNodeItemByStringKey childProperties "Parameters" = None
  /\ checkSubStack (hostOf parentText parentDocument []) parentText optionalBaz
                   childResource []
     = (Throw TypeError, []).
Proof. repeat split; vm_compute; reflexivity. Qed.

(** The scenarios of the specification: [Foo] handed to a child that
    declares a required [Baz], and nothing handed to a child that declares
    [Baz] with a default. *)
Lemma sub_stack_parameter_matching_witness :
  (exists unknown missing,
     checkSubStack (hostOf handingText handingDocument []) handingText requiredBaz
                   handingResource []
     = (Ok tt,
        [] ++ List.map (unknownParameterDiagnostic (hostOf handingText handingDocument [])
                          handingText) unknown
           ++ List.map (missingParameterDiagnostic (hostOf handingText handingDocument [])
                          handingText (mkKey 109)) missing)
     /\ In fooParameter unknown
     /\ In (mkParameter "Baz" false) missing)
  /\ checkSubStack (hostOf emptyHandedText parentDocument []) emptyHandedText optionalBaz
                   emptyHandedResource []
     = (Ok tt,
        [missingParameterDiagnostic (hostOf emptyHandedText parentDocument [])
           emptyHandedText (mkKey 109) (mkParameter "Baz" true)])
  /\ missingParameterDiagnostic (hostOf emptyHandedText parentDocument [])
       emptyHandedText (mkKey 109) (mkParameter "Baz" true)
     = mkDiagnostic (mkRange 5 6 5 16) Warning
         "Properties missing value for parameter with default value, 'Baz'".
Proof.
  split; [|split; [|reflexivity]].
  - destruct (sub_stack_parameter_matching (hostOf handingText handingDocument [])
                handingText requiredBaz handingResource
                (block [entry "Type" 24 (plain "AWS::CloudFormation::Stack" 30);
                        entry "Properties" 61 handingProperties] 24)
                (entry "Properties" 61 handingProperties) handingProperties
                "child.yaml" None (mkKey 109) "Parameters" MAP None 129
                [fooParameter] [mkParameter "Baz" false] []
                eq_refl eq_refl eq_refl eq_refl eq_refl eq_refl)
      as (unknown & missing & Hrun & Hunknown & _ & Hmissing & _).
    exists unknown, missing. split; [exact Hrun|]. split.
    + apply Hunknown; [left; reflexivity|]. intros [H|[]]. discriminate H.
    + apply Hmissing; [left; reflexivity|]. intros [H|[]]. discriminate H.
  - destruct (sub_stack_parameter_matching (hostOf emptyHandedText parentDocument [])
                emptyHandedText optionalBaz emptyHandedResource
                (block [entry "Type" 24 (plain "AWS::CloudFormation::Stack" 30);
                        entry "Properties" 61 emptyHandedProperties] 24)
                (entry "Properties" 61 emptyHandedProperties) emptyHandedProperties
                "child.yaml" None (mkKey 109) "Parameters" FLOW_MAP None 121
                [] [mkParameter "Baz" true] []
                eq_refl eq_refl eq_refl eq_refl eq_refl eq_refl)
      as (unknown & missing & _ & _ & _ & _ & _ & _ & _ & _ & H).
    exact (proj1 (H (mkParameter "Baz" true) eq_refl eq_refl eq_refl)).
Defined.

(** The child template of the parent cannot be read. *)
Lemma child_template_load_failure_witness :
  getSubStackReferenceablesFrom (hostOf parentText parentDocument []) parentText
    [childResource] "/stacks" (mkSubStack [] ∅) []
  = (Ok (mkSubStack [] (<["child.yaml" := []]> ∅)),
     [mkDiagnostic (mkRange 4 19 4 29) Error
        "Unable to load or parse template file, '/stacks/child.yaml'. Error encountered: ENOENT"]).
Proof.
  destruct (child_template_load_failure (hostOf parentText parentDocument []) parentText
              "/stacks" (mkSubStack [] ∅) childResource [] childProperties
              "child.yaml" "ENOENT" [] eq_refl eq_refl eq_refl)
    as (t & key & sk & ty & tg & skey & range0 & refs & diagnostic
        & Hitem & Hdiagnostic & _ & _ & _ & _ & Hloop).
  rewrite Hloop, Hdiagnostic. injection Hitem as _ _ _ _ _ _ <- _. reflexivity.
Defined.

(** C9, counterexample: a document without intrinsic usage whose sub stack
    names a template that cannot be read gets a diagnostic. *)
Lemma sub_stack_without_intrinsic_usage_is_reported :
  parseDocument (hostOf parentText parentDocument []) parentText = Ok parentDocument
  /\ noIntrinsicUsage parentDocument = true
  /\ checkYaml (hostOf parentText parentDocument []) parentText "/stacks/parent.yaml"
     = [mkDiagnostic (mkRange 4 19 4 29) Error
          "Unable to load or parse template file, '/stacks/child.yaml'. Error encountered: ENOENT"].
Proof. repeat split; vm_compute; reflexivity. Qed.

(** A template of one bucket whose name is joined. *)
Lemma no_intrinsic_usage_no_diagnostics_witness :
  checkYaml (hostOf joinedText joinedDocument []) joinedText "/stacks/bucket.yaml" = [].
Proof.
  apply (no_intrinsic_usage_no_diagnostics (hostOf joinedText joinedDocument []) joinedText
           "/stacks/bucket.yaml" joinedDocument eq_refl eq_refl).
  intros (pair & pairs & H). discriminate H.
Defined.

(** An entry named [!If] counts as intrinsic usage: in a document without
    any tag, the extractor takes the name of the entry for the tag of its
    value, and the name that does not resolve gets a diagnostic. *)
Lemma entry_named_as_a_tag_is_reported :
  parseDocument (hostOf keyedText keyedDocument []) keyedText = Ok keyedDocument
  /\ noIntrinsicUsage keyedDocument = false
  /\ checkYaml (hostOf keyedText keyedDocument []) keyedText "/stacks/topic.yaml"
     = [mkDiagnostic (mkRange 2 11 2 18) Error
          "Unable to find referenced variable, 'Missing'"].
Proof. repeat split; vm_compute; reflexivity. Qed.

(** C10, counterexample: a placeholder that starts with [AWS::] inside a
    single-quoted [!Sub] scalar gets no diagnostic, although no local name
    equals it. *)
Lemma single_quoted_pseudo_parameter_is_not_checked :
  parseDocument (hostOf quotedRegionText (regionDocumentOf QUOTE_SINGLE) []) quotedRegionText
  = Ok (regionDocumentOf QUOTE_SINGLE)
  /\ execAllPlaceholder "${AWS::Region}-logs" = [mkMatch 0 "${AWS::Region}"]
  /\ fst (getReferenceables (hostOf quotedRegionText (regionDocumentOf QUOTE_SINGLE) [])
                            quotedRegionText "/stacks/region.yaml" [])
     = Ok (mkReferenceables (mkSubStack [] ∅) [] [Some "Bucket"] [] [])
  /\ checkYaml (hostOf quotedRegionText (regionDocumentOf QUOTE_SINGLE) [])
               quotedRegionText "/stacks/region.yaml" = [].
Proof. repeat split; vm_compute; reflexivity. Qed.

(** The same placeholder inside a plain [!Sub] scalar is reported. *)
Lemma sub_pseudo_parameter_is_checked_witness :
  In (mkDiagnostic (mkRange 4 25 4 36) Error
        "Unable to find referenced variable, 'AWS::Region'")
     (checkYaml (hostOf regionText (regionDocumentOf PLAIN) []) regionText
                "/stacks/region.yaml").
Proof.
  pose proof (sub_pseudo_parameter_is_checked PLAIN (Some "BucketName") "${AWS::Region}-logs"
                81 None (mkMatch 0 "${AWS::Region}") (or_introl eq_refl)
                (or_introl eq_refl)) as H.
  cbv zeta in H. destruct H as (_ & _ & H).
  refine (proj1 (H (hostOf regionText (regionDocumentOf PLAIN) []) regionText
                   "/stacks/region.yaml" (regionDocumentOf PLAIN)
                   (mkReferenceables (mkSubStack [] ∅) [] [Some "Bucket"] [] []) []
                   [Scalar PLAIN (Some "!Sub") (Some "BucketName") "${AWS::Region}-logs" 81
                      (Some [mkReference SUB "AWS::Region" 88])]
                   eq_refl eq_refl eq_refl (or_introl eq_refl) _)).
  intros [H1|[]]. discriminate H1.
Defined.

End Evidence.


(** * The position mapper, character by character *)

Module PositionFacts.
Import Js Measures.

(** The terminators end behind the line feed characters: a carriage return
    before a line feed moves the start of the terminator, not its end. *)
Lemma execAllLineReturn_ends (s : string) :
  forall idx, List.map matchEnd (execAllLineReturn idx s) = lineFeedEnds idx s.
Proof.
  induction s as [|c r IH]; intros idx; [reflexivity|].
  cbn [execAllLineReturn lineFeedEnds].
  destruct (Ascii.eqb c LF) eqn:Hc.
  - cbn [List.map]. rewrite IH. f_equal.
  - destruct r as [|c2 r2]; [reflexivity|].
    destruct (Ascii.eqb c CR && Ascii.eqb c2 LF) eqn:Hcr.
    + apply andb_prop in Hcr. destruct Hcr as [_ Hc2].
      specialize (IH (idx + 1)). cbn [execAllLineReturn lineFeedEnds] in IH.
      rewrite Hc2 in IH. cbn [List.map] in IH. apply (f_equal (@List.tl Z)) in IH. cbn [List.tl] in IH.
      cbn [List.map lineFeedEnds]. rewrite Hc2.
      replace (idx + 2) with (idx + 1 + 1) by lia.
      rewrite IH. f_equal. unfold matchEnd, strlen. cbn. lia.
    + apply IH.
Qed.

Lemma last_map_Some {A B : Type} (f : A -> B) (l : list A) :
  List.last (List.map Some (List.map f l)) None
  = option_map f (List.last (List.map Some l) None).
Proof.
  induction l as [|x l IH]; [reflexivity|].
  destruct l as [|y l]; [reflexivity|]. exact IH.
Qed.

Lemma lineFeedEnds_app (a b : string) :
  forall idx, lineFeedEnds idx (a +:+ b)
              = lineFeedEnds idx a ++ lineFeedEnds (idx + strlen a) b.
Proof.
  induction a as [|c a IH]; intros idx.
  - cbn. f_equal. unfold strlen. cbn. lia.
  - change (String c a +:+ b) with (String c (a +:+ b)). cbn [lineFeedEnds].
    replace (idx + strlen (String c a)) with (idx + 1 + strlen a)
      by (unfold strlen; cbn [String.length]; lia).
    destruct (Ascii.eqb c LF); rewrite IH; reflexivity.
Qed.

Lemma lineFeedEnds_bounds (s : string) :
  forall idx, Forall (fun e => idx + 1 <= e <= idx + strlen s) (lineFeedEnds idx s).
Proof.
  induction s as [|c r IH]; intros idx; [constructor|].
  assert (Hlen : strlen (String c r) = 1 + strlen r)
    by (unfold strlen; cbn [String.length]; lia).
  assert (Hrest : Forall (fun e => idx + 1 <= e <= idx + strlen (String c r))
                         (lineFeedEnds (idx + 1) r)).
  { eapply List.Forall_impl; [|apply (IH (idx + 1))]. cbn beta. intros e He. lia. }
  cbn [lineFeedEnds]. destruct (Ascii.eqb c LF); [|exact Hrest].
  constructor; [|exact Hrest]. unfold strlen in *. lia.
Qed.

Lemma lineFeedEnds_sorted (s : string) :
  forall idx e, In e (lineFeedEnds idx s) -> idx + 1 <= e <= idx + strlen s.
Proof.
  intros idx e He. pose proof (lineFeedEnds_bounds s idx) as H.
  rewrite List.Forall_forall in H. apply H. exact He.
Qed.

(** The length of what [substring(0, n)] gives. *)
Lemma substring_0_length (s : string) (n : Z) :
  strlen (substring s 0 n) = Z.max 0 (Z.min n (strlen s)).
Proof.
  unfold substring, clamp, strlen.
  replace (Z.max 0 (Z.min 0 (Z.of_nat (String.length s)))) with 0 by lia.
  set (k := Z.max 0 (Z.min n (Z.of_nat (String.length s)))).
  replace (Z.min 0 k) with 0 by lia. replace (Z.max 0 k - 0) with k by lia.
  change (Z.to_nat 0) with 0%nat.
  assert (Hk : (Z.to_nat k <= String.length s)%nat) by lia.
  replace k with (Z.of_nat (Z.to_nat k)) at 2 by lia. f_equal.
  generalize (Z.to_nat k) Hk. clear. intros m. revert s.
  induction m as [|m IH]; intros s Hm; destruct s as [|c s]; cbn in *; try lia;
    try reflexivity.
  rewrite IH by lia. reflexivity.
Qed.

(** A shorter prefix of a text is a prefix of a longer one. *)
Lemma substring_0_prefix (s : string) (a b : Z) :
  a <= b -> exists rest, substring s 0 b = substring s 0 a +:+ rest.
Proof.
  intros Hab. unfold substring, clamp.
  replace (Z.max 0 (Z.min 0 (strlen s))) with 0 by (unfold strlen; lia).
  set (ka := Z.max 0 (Z.min a (strlen s))). set (kb := Z.max 0 (Z.min b (strlen s))).
  replace (Z.min 0 ka) with 0 by lia. replace (Z.min 0 kb) with 0 by lia.
  replace (Z.max 0 ka - 0) with ka by lia. replace (Z.max 0 kb - 0) with kb by lia.
  change (Z.to_nat 0) with 0%nat.
  assert (Hk : (Z.to_nat ka <= Z.to_nat kb)%nat) by lia.
  generalize (Z.to_nat ka) (Z.to_nat kb) Hk. clear. intros n m. revert s m.
  induction n as [|n IH]; intros s m Hnm.
  - exists (String.substring 0 m s). destruct s; reflexivity.
  - destruct m as [|m]; [lia|]. destruct s as [|c s].
    + exists EmptyString. reflexivity.
    + destruct (IH s m) as [rest Hrest]; [lia|]. exists rest.
      cbn [String.substring]. rewrite Hrest. reflexivity.
Qed.

Lemma getRowColumnPosition_ends (text : string) (absolutePosition : Z) :
  Legacy.getRowColumnPosition text absolutePosition
  = match List.last (List.map Some (lineFeedEnds 0 (substring text 0 absolutePosition)))
                    None with
    | Some e =>
      Some (Legacy.mkPosition
              (absolutePosition - e)
              (Z.of_nat (List.length (lineFeedEnds 0 (substring text 0 absolutePosition)))))
    | None => None
    end.
Proof.
  unfold Legacy.getRowColumnPosition.
  rewrite <- execAllLineReturn_ends, last_map_Some, List.length_map.
  destruct (List.last (List.map Some (execAllLineReturn 0 (substring text 0 absolutePosition)))
                      None); reflexivity.
Qed.

Lemma last_Some_in {A : Type} (l : list A) (x : A) :
  List.last (List.map Some l) None = Some x -> In x l /\ exists l', l = l' ++ [x].
Proof.
  induction l as [|y l IH]; [discriminate|].
  destruct l as [|z l].
  - cbn. intros H. injection H as ->. split; [left; reflexivity | exists []; reflexivity].
  - intros H. destruct (IH H) as [Hin [l' Hl']]. split; [right; exact Hin|].
    exists (y :: l'). rewrite Hl'. reflexivity.
Qed.

Lemma lineFeedEnds_last (s : string) :
  forall idx before e,
    lineFeedEnds idx s = before ++ [e] -> idx + Z.of_nat (List.length before) + 1 <= e.
Proof.
  induction s as [|c r IH]; intros idx before e H.
  - destruct before; discriminate.
  - cbn [lineFeedEnds] in H. destruct (Ascii.eqb c LF).
    + destruct before as [|x before].
      * cbn in H. injection H as <- _. cbn. lia.
      * cbn in H. injection H as _ H. specialize (IH _ _ _ H). cbn [List.length]. lia.
    + specialize (IH _ _ _ H). lia.
Qed.

(** The bounds of a position. *)
Lemma getRowColumnPosition_bounds (text : string) (absolutePosition : Z) (position : Legacy.Position) :
  Legacy.getRowColumnPosition text absolutePosition = Some position ->
  1 <= Legacy.line position
  /\ 0 <= Legacy.column position
  /\ Legacy.line position + Legacy.column position <= absolutePosition.
Proof.
  rewrite getRowColumnPosition_ends.
  destruct (List.last (List.map Some (lineFeedEnds 0 (substring text 0 absolutePosition)))
                      None) as [e|] eqn:Hlast; [|discriminate].
  intros H. injection H as <-. cbn [Legacy.line Legacy.column].
  destruct (last_Some_in _ _ Hlast) as [Hin [l' Hl']].
  pose proof (lineFeedEnds_sorted _ _ _ Hin) as He.
  pose proof (lineFeedEnds_last _ _ _ _ Hl') as Hl.
  rewrite substring_0_length in He. rewrite Hl', List.length_app. cbn [List.length]. lia.
Qed.

End PositionFacts.

Module PositionProperties.
Import Js Measures PositionFacts.

(** X1: the position mapper counts line feed characters: with none before
    the offset it throws; otherwise the line is their number and the column
    the distance of the offset from the character behind the last of them,
    whether a carriage return stands before a line feed or not. *)
Theorem position_counts_line_feeds (text : string) (absolutePosition : Z) :
  Legacy.getRowColumnPosition text absolutePosition
  = match List.rev (lineFeedEnds 0 (substring text 0 absolutePosition)) with
    | [] => None
    | e :: before =>
      Some (Legacy.mkPosition (absolutePosition - e) (Z.of_nat (List.length before) + 1))
    end.
Proof.
  rewrite getRowColumnPosition_ends.
  destruct (lineFeedEnds 0 (substring text 0 absolutePosition)) as [|x l] eqn:Hl
    using List.rev_ind; [reflexivity|].
  rewrite List.rev_app_distr, List.map_app. cbn [List.rev List.app List.map].
  rewrite List.last_last, List.length_app, List.length_rev. cbn [List.length].
  repeat f_equal. lia.
Qed.

(** X2: whenever the position mapper returns, the line is at least 1, the
    column is not negative, and line and column together do not exceed the
    offset. *)
Theorem position_bounds (text : string) (absolutePosition : Z) (position : Legacy.Position) :
  Legacy.getRowColumnPosition text absolutePosition = Some position ->
  1 <= Legacy.line position
  /\ 0 <= Legacy.column position
  /\ Legacy.line position + Legacy.column position <= absolutePosition.
Proof. apply getRowColumnPosition_bounds. Qed.

(** X3: the position mapper keeps the order of offsets: when it returns at
    an offset it returns at every later one, also beyond the end of the
    text; the later offset is not on an earlier line, and when both are on
    the same line their columns differ as the offsets do. *)
Theorem position_keeps_order (text : string) (a b : Z) (pa : Legacy.Position) :
  a <= b ->
  Legacy.getRowColumnPosition text a = Some pa ->
  exists pb,
    Legacy.getRowColumnPosition text b = Some pb
    /\ Legacy.line pa <= Legacy.line pb
    /\ (Legacy.line pa = Legacy.line pb ->
        Legacy.column pb = Legacy.column pa + (b - a)).
Proof.
  intros Hab. rewrite !getRowColumnPosition_ends.
  destruct (substring_0_prefix text a b Hab) as [rest Hrest]. rewrite Hrest.
  rewrite lineFeedEnds_app.
  set (la := lineFeedEnds 0 (substring text 0 a)).
  set (lr := lineFeedEnds (0 + strlen (substring text 0 a)) rest).
  destruct (List.last (List.map Some la) None) as [ea|] eqn:Ha; [|discriminate].
  intros H1. injection H1 as <-. cbn [Legacy.line Legacy.column].
  destruct (List.last (List.map Some (la ++ lr)) None) as [eb|] eqn:Hb.
  - eexists. split; [reflexivity|]. cbn [Legacy.line Legacy.column].
    rewrite List.length_app. split; [lia|].
    intros Hlen. assert (Hnil : lr = []) by (destruct lr; [reflexivity | cbn in Hlen; lia]).
    rewrite Hnil, List.app_nil_r in Hb. rewrite Ha in Hb. injection Hb as <-. lia.
  - exfalso. destruct (last_Some_in _ _ Ha) as [_ [l' Hl']]. rewrite Hl' in Hb.
    destruct lr as [|x lr].
    + rewrite List.app_nil_r, List.map_app in Hb. cbn [List.map] in Hb.
      rewrite List.last_last in Hb. discriminate.
    + destruct (@List.exists_last _ (x :: lr)) as (lr' & y & Hy); [discriminate|].
      rewrite Hy, List.app_assoc, List.map_app in Hb. cbn [List.map] in Hb.
      rewrite List.last_last in Hb. discriminate.
Qed.

End PositionProperties.

Module PositionEvidence.
Import Js PositionProperties.

Lemma position_bounds_witness :
  Legacy.getRowColumnPosition (String "a" (String LF "bc")) 3 = Some (Legacy.mkPosition 1 1)
  /\ 1 <= 1 /\ 0 <= 1 /\ 1 + 1 <= 3.
Proof.
  split; [reflexivity|].
  exact (position_bounds (String "a" (String LF "bc")) 3 (Legacy.mkPosition 1 1) eq_refl).
Defined.

Lemma position_keeps_order_witness :
  exists pb,
    Legacy.getRowColumnPosition (String "a" (String LF "bc")) 9 = Some pb
    /\ 1 <= Legacy.line pb
    /\ (1 = Legacy.line pb -> Legacy.column pb = 1 + (9 - 3)).
Proof.
  refine (position_keeps_order (String "a" (String LF "bc")) 3 9 (Legacy.mkPosition 1 1) _ eq_refl).
  lia.
Defined.

End PositionEvidence.

(** * The merge of the definitions of several sub stacks *)

Module SubStackFacts.
Import Js Yaml CloudformationYaml SubStack.


Lemma foldO_mergeEntry (l : list (string * list ParameterReferenceable)) :
  NoDup l.*1 ->
  Forall (fun entry => inherited entry.1 = false) l ->
  forall acc : gmap string (list ParameterReferenceable),
    foldO l mergeEntry acc = Ok (joined acc (list_to_map l)).
Proof.
  induction l as [|[k v] l IH]; intros Hnd Hown acc.
  - cbn. f_equal. apply map_eq. intros i. unfold joined. rewrite lookup_union_with, lookup_empty.
    destruct (acc !! i); reflexivity.
  - cbn [fmap list_fmap fst] in Hnd. apply NoDup_cons in Hnd. destruct Hnd as [Hk Hnd].
    apply Forall_cons in Hown. destruct Hown as [Hkown Hown]. cbn [fst] in Hkown.
    cbn [foldO]. unfold mergeEntry at 1. cbn [fst snd]. rewrite Hkown.
    assert (Hnone : (list_to_map l : gmap string (list ParameterReferenceable)) !! k = None)
      by (apply not_elem_of_list_to_map_1; exact Hk).
    destruct (acc !! k) as [a|] eqn:Hak; cbn [bindO]; rewrite (IH Hnd Hown); f_equal;
      apply map_eq; intros i; unfold joined; rewrite !lookup_union_with; cbn [list_to_map foldr curry fst snd uncurry];
      destruct (decide (i = k)) as [->|Hne].
    + rewrite !lookup_insert_eq, Hnone, Hak. reflexivity.
    + rewrite !lookup_insert_ne by congruence. reflexivity.
    + rewrite !lookup_insert_eq, Hnone, Hak. reflexivity.
    + rewrite !lookup_insert_ne by congruence. reflexivity.
Qed.

Lemma ownNames_spec (map : gmap string (list ParameterReferenceable)) :
  ownNames map = true <-> forall k, is_Some (map !! k) -> inherited k = false.
Proof.
  unfold ownNames. rewrite List.forallb_forall. split.
  - intros H k [v Hv]. apply elem_of_map_to_list in Hv.
    apply list_elem_of_In in Hv. specialize (H _ Hv). change (negb (inherited k) = true) in H.
    destruct (inherited k); [discriminate H | reflexivity].
  - intros H [k v] Hin. apply list_elem_of_In, elem_of_map_to_list in Hin.
    change (negb (inherited k) = true). rewrite (H k); [reflexivity | eexists; exact Hin].
Qed.

(** Two maps without inherited names merge into one that holds, for each
    template URL, the list of the first followed by the list of the second. *)
Lemma mergeMap_own (acc map : gmap string (list ParameterReferenceable)) :
  ownNames map = true -> mergeMap acc map = Ok (joined acc map).
Proof.
  intros Hown. unfold mergeMap. rewrite foldO_mergeEntry.
  - rewrite list_to_map_to_list. reflexivity.
  - apply NoDup_fst_map_to_list.
  - apply List.Forall_forall. intros [k v] Hin. unfold ownNames in Hown.
    rewrite List.forallb_forall in Hown. specialize (Hown _ Hin).
    change (negb (inherited k) = true) in Hown. change (inherited k = false).
    destruct (inherited k); [discriminate Hown | reflexivity].
Qed.

Lemma foldO_mergeEntry_throws (l : list (string * list ParameterReferenceable)) :
  forall acc : gmap string (list ParameterReferenceable),
    ownNames acc = true ->
    Exists (fun entry => inherited entry.1 = true) l ->
    foldO l mergeEntry acc = Throw TypeError.
Proof.
  induction l as [|[k v] l IH]; intros acc Hacc Hex; [inversion Hex|].
  cbn [foldO]. unfold mergeEntry at 1. cbn [fst snd].
  destruct (inherited k) eqn:Hk.
  - destruct (acc !! k) as [a|] eqn:Hak; [|reflexivity].
    rewrite ownNames_spec in Hacc. rewrite (Hacc k) in Hk; [discriminate | eexists; exact Hak].
  - apply Exists_cons in Hex. destruct Hex as [Hex|Hex];
      [change (inherited k = true) in Hex; congruence|].
    assert (Hstep : forall w, ownNames (<[k := w]> acc) = true).
    { intros w. apply ownNames_spec. intros i [x Hx].
      destruct (decide (i = k)) as [->|Hne]; [exact Hk|].
      rewrite lookup_insert_ne in Hx by congruence.
      rewrite ownNames_spec in Hacc. apply Hacc. eexists; exact Hx. }
    destruct (acc !! k); cbn [bindO]; apply IH; auto.
Qed.

Lemma mergeMap_inherited (acc map : gmap string (list ParameterReferenceable)) :
  ownNames acc = true -> ownNames map = false -> mergeMap acc map = Throw TypeError.
Proof.
  intros Hacc Hmap. unfold mergeMap. apply foldO_mergeEntry_throws; [exact Hacc|].
  unfold ownNames in Hmap.
  apply List.Exists_exists.
  destruct (List.forallb_forall (fun entry : string * list ParameterReferenceable =>
                                   negb (inherited entry.1)) (map_to_list map)) as [_ H].
  destruct (List.existsb (fun entry : string * list ParameterReferenceable => inherited entry.1)
                         (map_to_list map)) eqn:Hex.
  - apply List.existsb_exists in Hex. exact Hex.
  - exfalso. rewrite H in Hmap; [discriminate|]. intros x Hx.
    destruct (inherited x.1) eqn:Hi; [|reflexivity].
    assert (List.existsb (fun entry : string * list ParameterReferenceable => inherited entry.1)
                         (map_to_list map) = true)
      by (apply List.existsb_exists; exists x; split; assumption).
    congruence.
Qed.

Lemma ownNames_joined (a b : gmap string (list ParameterReferenceable)) :
  ownNames a = true -> ownNames b = true -> ownNames (joined a b) = true.
Proof.
  rewrite !ownNames_spec. intros Ha Hb k [v Hv]. unfold joined in Hv. rewrite lookup_union_with in Hv.
  destruct (a !! k) eqn:Hak; [apply Ha; eexists; exact Hak|].
  destruct (b !! k) eqn:Hbk; [apply Hb; eexists; exact Hbk|]. discriminate.
Qed.

Lemma ownNames_empty : ownNames (∅ : gmap string (list ParameterReferenceable)) = true.
Proof. apply ownNames_spec. intros k [v Hv]. rewrite lookup_empty in Hv. discriminate. Qed.

Lemma joined_empty (m : gmap string (list ParameterReferenceable)) : joined ∅ m = m.
Proof.
  apply map_eq. intros i. unfold joined. rewrite lookup_union_with, lookup_empty.
  destruct (m !! i); reflexivity.
Qed.

(** The loop over the maps, from any result without inherited names. *)
Lemma foldO_mergeMap_own (maps : list (gmap string (list ParameterReferenceable))) :
  forall acc : gmap string (list ParameterReferenceable),
    ownNames acc = true ->
    Forall (fun map => ownNames map = true) maps ->
    foldO maps mergeMap acc = Ok (List.fold_left joined maps acc)
    /\ ownNames (List.fold_left joined maps acc) = true.
Proof.
  induction maps as [|m maps IH]; intros acc Hacc Hall; [split; [reflexivity | exact Hacc]|].
  apply Forall_cons in Hall. destruct Hall as [Hm Hall].
  cbn [foldO List.fold_left]. rewrite (mergeMap_own _ _ Hm). cbn [bindO].
  apply IH; [apply ownNames_joined; assumption | exact Hall].
Qed.

Lemma foldO_mergeMap_inherited (maps : list (gmap string (list ParameterReferenceable))) :
  forall acc : gmap string (list ParameterReferenceable),
    ownNames acc = true ->
    Exists (fun map => ownNames map = false) maps ->
    foldO maps mergeMap acc = Throw TypeError.
Proof.
  induction maps as [|m maps IH]; intros acc Hacc Hex; [inversion Hex|].
  cbn [foldO]. destruct (ownNames m) eqn:Hm.
  - rewrite (mergeMap_own _ _ Hm). cbn [bindO].
    apply Exists_cons in Hex. destruct Hex as [Hex|Hex]; [congruence|].
    apply IH; [apply ownNames_joined; assumption | exact Hex].
  - rewrite (mergeMap_inherited _ _ Hacc Hm). reflexivity.
Qed.

Lemma fold_left_joined_lookup (templateUrl : string) (maps : list (gmap string (list ParameterReferenceable))) :
  forall acc : gmap string (list ParameterReferenceable),
    List.fold_left joined maps acc !! templateUrl
    = match acc !! templateUrl, listsFor templateUrl maps with
      | None, [] => None
      | None, lists => Some (List.concat lists)
      | Some existing, lists => Some (existing ++ List.concat lists)
      end.
Proof.
  induction maps as [|m maps IH]; intros acc.
  - cbn. destruct (acc !! templateUrl); [rewrite List.app_nil_r|]; reflexivity.
  - cbn [List.fold_left]. rewrite IH. unfold joined at 1. rewrite lookup_union_with. unfold listsFor.
    cbn [List.flat_map]. fold (listsFor templateUrl maps).
    destruct (acc !! templateUrl) as [a|], (m !! templateUrl) as [b|]; cbn.
    + rewrite List.app_assoc. reflexivity.
    + reflexivity.
    + destruct (listsFor templateUrl maps); reflexivity.
    + reflexivity.
Qed.

(** The loop of [flattenDefinitions], from any result without inherited
    names. *)
Lemma foldO_definitions (allReferenceables : list SubStackReferenceables) :
  forall acc : SubStackReferenceables,
    ownNames (parameters acc) = true ->
    foldO allReferenceables
      (fun resultantReferenceables referenceable =>
         bindO (flattenParameterReferenceablesMapsMaps
                  [parameters resultantReferenceables; parameters referenceable])
           (fun flattened =>
              Ok (mkSubStack (outputs resultantReferenceables ++ outputs referenceable)
                             flattened)))
      acc
    = bindO (foldO (List.map parameters allReferenceables) mergeMap (parameters acc))
        (fun flattened =>
           Ok (mkSubStack (outputs acc ++ List.concat (List.map outputs allReferenceables))
                          flattened)).
Proof.
  induction allReferenceables as [|x l IH]; intros acc Hown.
  - cbn. rewrite List.app_nil_r. destruct acc; reflexivity.
  - cbn [foldO List.map List.concat]. unfold flattenParameterReferenceablesMapsMaps.
    cbn [foldO].
    rewrite (mergeMap_own _ _ Hown), joined_empty. cbn [bindO].
    destruct (ownNames (parameters x)) eqn:Hx.
    + rewrite (mergeMap_own _ _ Hx). cbn [bindO].
      rewrite IH.
      * cbn [outputs parameters]. rewrite List.app_assoc. reflexivity.
      * cbn [parameters]. apply ownNames_joined; assumption.
    + rewrite (mergeMap_inherited _ _ Hown Hx). reflexivity.
Qed.

End SubStackFacts.

Module SubStackProperties.
Import Js Yaml CloudformationYaml SubStack SubStackFacts.

(** X4: when no template URL is a name of [Object.prototype], the merge of
    the maps returns a map that holds, for each template URL, the lists
    that the maps hold for it, concatenated in the order of the maps, and
    nothing for a template URL that no map holds. *)
Theorem flatten_concatenates_per_template
    (allParameterReferenceablesMaps : list (gmap string (list ParameterReferenceable))) :
  Forall (fun map => ownNames map = true) allParameterReferenceablesMaps ->
  exists referenceablesMap,
    flattenParameterReferenceablesMapsMaps allParameterReferenceablesMaps
    = Ok referenceablesMap
    /\ forall templateUrl,
         referenceablesMap !! templateUrl
         = match listsFor templateUrl allParameterReferenceablesMaps with
           | [] => None
           | lists => Some (List.concat lists)
           end.
Proof.
  intros Hall. destruct (foldO_mergeMap_own _ _ ownNames_empty Hall) as [Hrun _].
  eexists. split; [exact Hrun|]. intros templateUrl.
  rewrite fold_left_joined_lookup, lookup_empty. reflexivity.
Qed.

(** X5: a template URL that is a name of [Object.prototype], such as
    [constructor], makes the merge of the maps throw a [TypeError]. *)
Theorem flatten_throws_on_inherited_name
    (allParameterReferenceablesMaps : list (gmap string (list ParameterReferenceable))) :
  Exists (fun map => ownNames map = false) allParameterReferenceablesMaps ->
  flattenParameterReferenceablesMapsMaps allParameterReferenceablesMaps = Throw TypeError.
Proof. apply foldO_mergeMap_inherited, ownNames_empty. Qed.

(** X6: the merge of the definitions of several sub stacks gives the outputs
    of all of them in their order and the merge of all their parameter
    maps at once, and throws when that merge throws. *)
Theorem flattenDefinitions_merges_all (allReferenceables : list SubStackReferenceables) :
  flattenDefinitions allReferenceables
  = bindO (flattenParameterReferenceablesMapsMaps (List.map parameters allReferenceables))
      (fun flattened =>
         Ok (mkSubStack (List.concat (List.map outputs allReferenceables)) flattened)).
Proof.
  unfold flattenDefinitions.
  rewrite (foldO_definitions allReferenceables (mkSubStack [] ∅) ownNames_empty).
  reflexivity.
Qed.

End SubStackProperties.

Module SubStackEvidence.
Import Js Yaml CloudformationYaml SubStack SubStackProperties.

Lemma flatten_concatenates_per_template_witness :
  exists referenceablesMap,
    flattenParameterReferenceablesMapsMaps
      [ {[ "child.yaml" := [mkParameter "Foo" false] ]};
        <[ "child.yaml" := [mkParameter "Bar" true] ]>
          {[ "other.yaml" := [mkParameter "Baz" false] ]} ]
    = Ok referenceablesMap
    /\ forall templateUrl,
         referenceablesMap !! templateUrl
         = match listsFor templateUrl
                   [ {[ "child.yaml" := [mkParameter "Foo" false] ]};
                     <[ "child.yaml" := [mkParameter "Bar" true] ]>
                       {[ "other.yaml" := [mkParameter "Baz" false] ]} ] with
           | [] => None
           | lists => Some (List.concat lists)
           end.
Proof.
  apply flatten_concatenates_per_template.
  repeat constructor.
Defined.

Lemma flatten_throws_on_inherited_name_witness :
  flattenParameterReferenceablesMapsMaps
    [ {[ "child.yaml" := [mkParameter "Foo" false] ]};
      {[ "constructor" := [mkParameter "Bar" true] ]} ]
  = Throw TypeError.
Proof.
  apply flatten_throws_on_inherited_name.
  apply Exists_cons_tl, Exists_cons_hd. reflexivity.
Defined.

End SubStackEvidence.

(** * The first revision of the pass *)

Module LegacyPassFacts.
Import Js Yaml CloudformationYaml LegacyPass Measures PositionFacts.

Lemma getRowColumnPosition_none (text : string) (absolutePosition : Z) :
  Legacy.getRowColumnPosition text absolutePosition = None
  <-> lineFeedEnds 0 (substring text 0 absolutePosition) = [].
Proof.
  rewrite getRowColumnPosition_ends.
  destruct (lineFeedEnds 0 (substring text 0 absolutePosition)) as [|x l] eqn:Hl
    using List.rev_ind; [split; reflexivity|].
  rewrite List.map_app. cbn [List.map]. rewrite List.last_last.
  split; [discriminate|]. intros H. destruct l; discriminate.
Qed.

Lemma unresolved_test (referenceableKeys : list (option string)) (referencedKey : string) :
  Z.ltb (indexOf optionStringEqb referenceableKeys (Some referencedKey)) 0
  = negb (List.existsb (optionStringEqb (Some referencedKey)) referenceableKeys).
Proof.
  destruct (List.existsb (optionStringEqb (Some referencedKey)) referenceableKeys) eqn:Hex.
  - apply List.existsb_exists in Hex. destruct Hex as [k [Hin Hk]].
    apply PassFacts.optionStringEqb_eq in Hk. subst k.
    destruct (Z.ltb (indexOf optionStringEqb referenceableKeys (Some referencedKey)) 0) eqn:Hlt;
      [|reflexivity].
    exfalso.
    apply (JsFacts.indexOf_absent optionStringEqb referenceableKeys (Some referencedKey)
             PassFacts.optionStringEqb_eq) in Hlt.
    exact (Hlt Hin).
  - apply (JsFacts.indexOf_absent optionStringEqb referenceableKeys (Some referencedKey)
             PassFacts.optionStringEqb_eq).
    intros Hin.
    assert (List.existsb (optionStringEqb (Some referencedKey)) referenceableKeys = true).
    { apply List.existsb_exists. exists (Some referencedKey). split; [exact Hin|].
      apply PassFacts.optionStringEqb_eq. reflexivity. }
    congruence.
Qed.

(** The editor accepts a range whose numbers are not negative. *)
Lemma newRange_accepts (startLine startCharacter endLine endCharacter : Z) :
  0 <= startLine -> 0 <= startCharacter -> 0 <= endLine -> 0 <= endCharacter ->
  newRange startLine startCharacter endLine endCharacter
  = Some (mkRange startLine startCharacter endLine endCharacter).
Proof.
  intros H1 H2 H3 H4. unfold newRange.
  replace (Z.ltb startLine 0) with false by (symmetry; apply Z.ltb_ge; exact H1).
  replace (Z.ltb startCharacter 0) with false by (symmetry; apply Z.ltb_ge; exact H2).
  replace (Z.ltb endLine 0) with false by (symmetry; apply Z.ltb_ge; exact H3).
  replace (Z.ltb endCharacter 0) with false by (symmetry; apply Z.ltb_ge; exact H4).
  reflexivity.
Qed.

Lemma newRange_range (startLine startCharacter endLine endCharacter : Z) (range : Range) :
  newRange startLine startCharacter endLine endCharacter = Some range ->
  range = mkRange startLine startCharacter endLine endCharacter.
Proof.
  unfold newRange. destruct (_ || _); [discriminate|]. intros H. injection H as <-.
  reflexivity.
Qed.

(** With a key position that is not negative, the diagnostic of a reference
    is there whenever the position of its node is. *)
Lemma diagnosticOf_placed (fullText : string) (entry : Z * Reference) :
  0 <= keyPositionInValue entry.2 ->
  diagnosticOf fullText entry
  = option_map (fun position => diagnosticAt position entry.2)
      (Legacy.getRowColumnPosition fullText entry.1).
Proof.
  intros Hkey. unfold diagnosticOf.
  destruct (Legacy.getRowColumnPosition fullText entry.1) as [position|] eqn:Hp;
    [|reflexivity].
  destruct (getRowColumnPosition_bounds _ _ _ Hp) as (Hline & Hcolumn & _).
  assert (Hlen : 0 <= strlen (referencedKey entry.2)) by (unfold strlen; lia).
  rewrite newRange_accepts by lia. reflexivity.
Qed.

Lemma diagnosticsOf_app (fullText : string) (a b : list (Z * Reference)) :
  diagnosticsOf fullText (a ++ b)
  = match diagnosticsOf fullText a, diagnosticsOf fullText b with
    | Some x, Some y => Some (x ++ y)
    | _, _ => None
    end.
Proof.
  induction a as [|entry a IH]; cbn [List.app diagnosticsOf].
  - destruct (diagnosticsOf fullText b); reflexivity.
  - destruct (diagnosticOf fullText entry); [|reflexivity].
    rewrite IH. destruct (diagnosticsOf fullText a), (diagnosticsOf fullText b); reflexivity.
Qed.

(** The loop over the references of one node. *)
Lemma forEachO_checkReference (fullText : string) (referenceableKeys : list (option string))
    (node : ReferencingNode) (references : list Reference) :
  forall invalidReferences,
    forEachO references (checkReference fullText referenceableKeys node) invalidReferences
    = option_map (app invalidReferences)
        (diagnosticsOf fullText
           (List.map (fun reference => (range0 node, reference))
              (List.filter
                 (fun reference =>
                    negb (List.existsb (optionStringEqb (Some (referencedKey reference)))
                                       referenceableKeys))
                 references))).
Proof.
  induction references as [|reference references IH]; intros invalidReferences.
  - cbn. rewrite List.app_nil_r. reflexivity.
  - cbn [forEachO List.filter]. unfold checkReference at 1. rewrite unresolved_test.
    destruct (negb (List.existsb (optionStringEqb (Some (referencedKey reference)))
                                 referenceableKeys)).
    + cbn [List.map diagnosticsOf]. unfold diagnosticOf. cbn [fst snd].
      destruct (Legacy.getRowColumnPosition fullText (range0 node)) as [position|];
        [|reflexivity].
      destruct (newRange _ _ _ _) as [range|]; [|reflexivity].
      cbn [option_map]. rewrite IH.
      destruct (diagnosticsOf fullText _) as [ds|]; [|reflexivity].
      cbn [option_map]. rewrite <- List.app_assoc. reflexivity.
    + apply IH.
Qed.

(** The pass gives the diagnostics of the unresolved references. *)
Lemma legacy_buildInvalidReferenceDiagnostics_run (fullText : string)
    (referenceableKeys : list (option string)) (referencingNodes : list ReferencingNode) :
  buildInvalidReferenceDiagnostics fullText referenceableKeys referencingNodes
  = diagnosticsOf fullText (unresolvedOf referenceableKeys referencingNodes).
Proof.
  unfold buildInvalidReferenceDiagnostics.
  transitivity (option_map (app [])
                  (diagnosticsOf fullText (unresolvedOf referenceableKeys referencingNodes)));
    [|destruct (diagnosticsOf fullText _); reflexivity].
  generalize (@nil Diagnostic).
  induction referencingNodes as [|node nodes IH]; intros invalidReferences.
  - cbn. rewrite List.app_nil_r. reflexivity.
  - cbn [forEachO]. rewrite forEachO_checkReference.
    unfold unresolvedOf. cbn [List.flat_map]. fold (unresolvedOf referenceableKeys nodes).
    rewrite diagnosticsOf_app.
    destruct (diagnosticsOf fullText (List.map _ _)) as [ds|]; [|reflexivity].
    cbn [option_map]. rewrite IH.
    destruct (diagnosticsOf fullText (unresolvedOf referenceableKeys nodes)) as [ds'|];
      [|reflexivity].
    cbn [option_map]. rewrite List.app_assoc. reflexivity.
Qed.

(** The key positions of the unresolved references. *)
Lemma unresolvedOf_placed (referenceableKeys : list (option string))
    (referencingNodes : list ReferencingNode) :
  keysWithinValues referencingNodes ->
  Forall (fun entry => 0 <= keyPositionInValue entry.2)
         (unresolvedOf referenceableKeys referencingNodes).
Proof.
  unfold keysWithinValues, unresolvedOf. intros Hall.
  apply List.Forall_forall. intros entry Hin.
  apply List.in_flat_map in Hin. destruct Hin as [node [Hnode Hin]].
  apply List.in_map_iff in Hin. destruct Hin as [reference [<- Hin]].
  apply List.filter_In in Hin. destruct Hin as [Hin _].
  rewrite List.Forall_forall in Hall. specialize (Hall node Hnode).
  rewrite List.Forall_forall in Hall. exact (Hall reference Hin).
Qed.

Lemma diagnosticsOf_none (fullText : string) (entries : list (Z * Reference)) :
  Forall (fun entry => 0 <= keyPositionInValue entry.2) entries ->
  (diagnosticsOf fullText entries = None
   <-> Exists (fun entry => lineFeedEnds 0 (substring fullText 0 entry.1) = []) entries).
Proof.
  induction 1 as [|entry entries Hentry _ IH]; cbn [diagnosticsOf].
  - split; [discriminate | intros H; inversion H].
  - rewrite List.Exists_cons, <- getRowColumnPosition_none, <- IH.
    rewrite (diagnosticOf_placed _ _ Hentry).
    destruct (Legacy.getRowColumnPosition fullText entry.1) as [position|];
      cbn [option_map].
    + destruct (diagnosticsOf fullText entries); cbn [option_map].
      * split; [discriminate | intros [H|H]; discriminate].
      * split; [right; reflexivity | reflexivity].
    + split; [left; reflexivity | reflexivity].
Qed.

Lemma diagnosticsOf_some (fullText : string) (entries : list (Z * Reference)) :
  forall diagnostics,
    diagnosticsOf fullText entries = Some diagnostics ->
    Forall2 (fun entry diagnostic =>
               exists position,
                 Legacy.getRowColumnPosition fullText entry.1 = Some position
                 /\ diagnostic = diagnosticAt position entry.2)
            entries diagnostics.
Proof.
  induction entries as [|entry entries IH]; cbn [diagnosticsOf]; intros ds H.
  - injection H as <-. constructor.
  - destruct (diagnosticOf fullText entry) as [diagnostic|] eqn:Hd; [|discriminate].
    destruct (diagnosticsOf fullText entries) as [ds'|]; [|discriminate].
    injection H as <-. constructor; [|apply IH; reflexivity].
    unfold diagnosticOf in Hd.
    destruct (Legacy.getRowColumnPosition fullText entry.1) as [position|]; [|discriminate].
    destruct (newRange _ _ _ _) as [range|] eqn:Hrange; [|discriminate].
    injection Hd as <-. rewrite (newRange_range _ _ _ _ _ Hrange).
    exists position. split; reflexivity.
Qed.

End LegacyPassFacts.

Module LegacyPassProperties.
Import Js Yaml CloudformationYaml LegacyPass Measures LegacyPassFacts.

(** X7: for references whose key positions are not negative, the first
    revision of the pass throws exactly when a node with a reference that
    does not resolve starts where no line feed precedes it, that is on the
    first line; references that resolve never make it throw. *)
Theorem first_pass_throws_on_first_line (fullText : string)
    (referenceableKeys : list (option string)) (referencingNodes : list ReferencingNode) :
  keysWithinValues referencingNodes ->
  (buildInvalidReferenceDiagnostics fullText referenceableKeys referencingNodes = None
   <-> Exists (fun entry => lineFeedEnds 0 (substring fullText 0 entry.1) = [])
              (unresolvedOf referenceableKeys referencingNodes)).
Proof.
  intros Hkeys. rewrite legacy_buildInvalidReferenceDiagnostics_run.
  apply diagnosticsOf_none, unresolvedOf_placed, Hkeys.
Qed.

(** X8: for references whose key positions are not negative: when every
    node with a reference that does not resolve starts behind a line feed,
    the first revision of the pass returns one diagnostic for each such
    reference, in the order of the nodes and of their references: an error
    on the line of the node, from the column of the node plus the position
    of the key in the value, as long as the key, with the message that
    names the key. *)
Theorem first_pass_reports_unresolved_references (fullText : string)
    (referenceableKeys : list (option string)) (referencingNodes : list ReferencingNode) :
  keysWithinValues referencingNodes ->
  Forall (fun entry => lineFeedEnds 0 (substring fullText 0 entry.1) <> [])
         (unresolvedOf referenceableKeys referencingNodes) ->
  exists diagnostics,
    buildInvalidReferenceDiagnostics fullText referenceableKeys referencingNodes
    = Some diagnostics
    /\ Forall2 (fun entry diagnostic =>
                  exists position,
                    Legacy.getRowColumnPosition fullText entry.1 = Some position
                    /\ diagnostic = diagnosticAt position entry.2)
               (unresolvedOf referenceableKeys referencingNodes) diagnostics.
Proof.
  intros Hkeys Hall. rewrite legacy_buildInvalidReferenceDiagnostics_run.
  destruct (diagnosticsOf fullText (unresolvedOf referenceableKeys referencingNodes))
    as [diagnostics|] eqn:Hrun.
  - exists diagnostics. split; [reflexivity|]. apply diagnosticsOf_some. exact Hrun.
  - exfalso.
    apply (diagnosticsOf_none _ _ (unresolvedOf_placed referenceableKeys _ Hkeys)) in Hrun.
    apply List.Exists_exists in Hrun. destruct Hrun as [entry [Hin Hnone]].
    rewrite List.Forall_forall in Hall. exact (Hall entry Hin Hnone).
Qed.

End LegacyPassProperties.

Module LegacyPassEvidence.
Import Js Yaml CloudformationYaml LegacyPass Measures LegacyPassProperties.

Lemma first_pass_reports_unresolved_references_witness :
  exists diagnostics,
    buildInvalidReferenceDiagnostics
      ("Resources:" +:+ String LF "  Topic: !Ref Missing") [Some "Topic"]
      [mkNode 20 [mkReference "Missing" 5; mkReference "Topic" 5]]
    = Some diagnostics
    /\ Forall2 (fun entry diagnostic =>
                  exists position,
                    Legacy.getRowColumnPosition
                      ("Resources:" +:+ String LF "  Topic: !Ref Missing") entry.1
                    = Some position
                    /\ diagnostic = diagnosticAt position entry.2)
               (unresolvedOf [Some "Topic"]
                  [mkNode 20 [mkReference "Missing" 5; mkReference "Topic" 5]])
               diagnostics.
Proof.
  apply first_pass_reports_unresolved_references.
  - repeat constructor; discriminate.
  - vm_compute. repeat constructor. discriminate.
Defined.

Lemma first_pass_throws_on_first_line_witness :
  buildInvalidReferenceDiagnostics "Foo: !Ref Bar" [Some "Foo"]
    [mkNode 5 [mkReference "Bar" 5]]
  = None.
Proof.
  refine (proj2 (first_pass_throws_on_first_line "Foo: !Ref Bar" [Some "Foo"]
                   [mkNode 5 [mkReference "Bar" 5]] _) _).
  - repeat constructor; discriminate.
  - apply Exists_cons_hd. reflexivity.
Defined.

End LegacyPassEvidence.

(** * The reference extractor on whole trees *)

Module TraversalFacts.
Import Js Yaml CloudformationYaml Measures JsFacts ExtractorFacts.

Lemma NodeType_eqb_eq (a b : NodeType) : NodeType_eqb a b = true <-> a = b.
Proof. destruct a, b; split; intros H; try reflexivity; discriminate. Qed.

Lemma tagIs_eq (t : option string) (s : string) : tagIs t s = true -> t = Some s.
Proof.
  destruct t as [t'|]; [|discriminate]. cbn. intros H.
  apply String.eqb_eq in H. subst. reflexivity.
Qed.

(** A map: every entry without a tag inherits the tag of the map, and
    every entry is traversed. *)
Lemma getSubNodesWhichReference_map (tag : option string) (items : list Node) (range0 : Z) :
  getSubNodesWhichReference (NodeRef (Collection MAP tag items range0))
  = bindO (mapO (fun item => getSubNodesWhichReference (NodeRef (inheritTag item tag))) items)
      (fun subNodes => Ok (flattenArray subNodes)).
Proof.
  set (map := Collection MAP tag items range0).
  pose proof (height_item map _ eq_refl) as Hits.
  change (getSubNodesWhichReference (NodeRef map))
    with (getSubNodesWhichReferenceFuel (S (height map)) map).
  cbn [getSubNodesWhichReferenceFuel getNodeValueIfPair map type_of items_of NodeType_eqb tag_of].
  fold map.
  rewrite (mapO_ext_in _ (fun item => getSubNodesWhichReference (NodeRef (inheritTag item tag)))
             items); [reflexivity|].
  intros x Hx. apply getSubNodesWhichReference_fuel.
  rewrite height_inheritTag. apply Hits. exact Hx.
Qed.

(** What the inspection of a node returns is extracted. *)
Lemma inspectNode_extracted (nodeValue : Node) : Forall extracted (inspectNode nodeValue).
Proof.
  destruct nodeValue as [type tag stringKey value range0 refs| |]; try constructor.
  unfold inspectNode.
  destruct (NodeType_eqb type PLAIN || NodeType_eqb type QUOTE_DOUBLE) eqn:Htype;
    [|constructor].
  assert (Hty : type = PLAIN \/ type = QUOTE_DOUBLE).
  { apply orb_true_iff in Htype. destruct Htype as [H|H]; apply NodeType_eqb_eq in H; auto. }
  destruct (nodeTagToReferenceType (orElse tag stringKey)) as [kind|] eqn:Hkind.
  { constructor; [|constructor].
    exists type, tag, stringKey, value, range0, [mkReference kind value range0].
    split; [reflexivity|]. split; [exact Hty|]. split; [|left; eexists; reflexivity].
    constructor; [|constructor]. unfold referenceFits. cbn [refType].
    assert (Hk : kind = IF \/ kind = FIND_IN_MAP \/ kind = DEPENDS_ON).
    { unfold nodeTagToReferenceType in Hkind.
      destruct (orElse tag stringKey) as [t|]; [|discriminate].
      destruct (String.eqb t "!If"); [injection Hkind as <-; auto|].
      destruct (String.eqb t "!FindInMap"); [injection Hkind as <-; auto|].
      destruct (String.eqb t "DependsOn"); [injection Hkind as <-; auto|].
      discriminate. }
    destruct Hk as [->|[->| ->]]; (split; [exact Hkind | reflexivity]). }
  destruct (tagIs tag "!GetAtt") eqn:Hget.
  { constructor; [|constructor].
    exists type, tag, stringKey, value, range0, [mkReference GET_ATT value (range0 + 8)].
    split; [reflexivity|]. split; [exact Hty|]. split; [|left; eexists; reflexivity].
    constructor; [|constructor]. split; [apply tagIs_eq; exact Hget | reflexivity]. }
  destruct (tagIs tag "!Ref" && negb (startsWith value "AWS::")) eqn:Href.
  { apply andb_true_iff in Href. destruct Href as [Href Haws].
    constructor; [|constructor].
    exists type, tag, stringKey, value, range0, [mkReference REF value (range0 + 5)].
    split; [reflexivity|]. split; [exact Hty|]. split; [|left; eexists; reflexivity].
    constructor; [|constructor]. split; [apply tagIs_eq; exact Href|].
    split; [reflexivity|]. destruct (startsWith value "AWS::"); [discriminate | reflexivity]. }
  destruct (tagIs tag "!Sub") eqn:Hsub; [|constructor].
  constructor; [|constructor].
  exists type, tag, stringKey, value, range0, (subReferences type value range0).
  split; [reflexivity|]. split; [exact Hty|].
  unfold subReferences. split; [|right]; apply List.Forall_forall; intros reference Hin;
    apply List.in_map_iff in Hin; destruct Hin as [m [<- Hm]]; [|reflexivity].
  split; [apply tagIs_eq; exact Hsub|]. exists m. split; [exact Hm | reflexivity].
Qed.

(** A property of what the inspection returns holds of what the traversal
    returns. *)
Lemma getSubNodesWhichReferenceFuel_all (P : Node -> Prop) :
  (forall nodeValue, Forall P (inspectNode nodeValue)) ->
  forall fuel n nodes,
    getSubNodesWhichReferenceFuel fuel n = Ok nodes -> Forall P nodes.
Proof.
  intros Hinspect.
  induction fuel as [|fuel IH]; intros n nodes H; [discriminate|].
  cbn [getSubNodesWhichReferenceFuel] in H.
  destruct (getNodeValueIfPair n) as [nv|]; [|discriminate].
  assert (Hmap : forall its,
    bindO (mapO (fun item =>
                   getSubNodesWhichReferenceFuel fuel (inheritTag item (tag_of nv))) its)
          (fun subNodes => Ok (flattenArray subNodes)) = Ok nodes ->
    Forall P nodes).
  { intros its Hits.
    destruct (mapO (fun item =>
                      getSubNodesWhichReferenceFuel fuel (inheritTag item (tag_of nv))) its)
      as [ys|] eqn:Hys; [|discriminate].
    cbn [bindO] in Hits. injection Hits as <-. apply ResolutionFacts.Forall_concat.
    apply (ResolutionFacts.mapO_Forall _ _ _ (fun x y _ Hy => IH _ _ Hy) _ Hys). }
  destruct (if NodeType_eqb (type_of nv) FLOW_SEQ then items_of nv else None)
    as [[|firstSubNode items]|].
  - destruct (if NodeType_eqb (type_of nv) MAP then items_of nv else None) as [its|];
      [apply (Hmap its H)|].
    injection H as <-. apply Hinspect.
  - destruct (getSubNodesWhichReferenceFuel fuel (inheritTag firstSubNode (tag_of nv)))
      as [firstSubNodes|] eqn:Hf; [|discriminate].
    cbn [bindO] in H.
    destruct (mapO (getSubNodesWhichReferenceFuel fuel) items) as [ys|] eqn:Hys;
      [|discriminate].
    cbn [bindO] in H. injection H as <-. apply List.Forall_app. split.
    + apply (IH _ _ Hf).
    + apply ResolutionFacts.Forall_concat.
      apply (ResolutionFacts.mapO_Forall _ _ _ (fun x y _ Hy => IH _ _ Hy) _ Hys).
  - destruct (if NodeType_eqb (type_of nv) MAP then items_of nv else None) as [its|];
      [apply (Hmap its H)|].
    injection H as <-. apply Hinspect.
Qed.

Lemma complete_setTag (n : Node) (t : option string) : complete (setTag n t) = complete n.
Proof. destruct n; reflexivity. Qed.

Lemma complete_inheritTag (n : Node) (t : option string) :
  complete (inheritTag n t) = complete n.
Proof. unfold inheritTag. destruct (truthy (tag_of n)); [reflexivity | apply complete_setTag]. Qed.

Lemma complete_getNodeValueIfPair (n : Node) :
  complete n = true -> exists nv, getNodeValueIfPair n = Some nv /\ complete nv = true.
Proof.
  destruct n as [ty t k v r refs | t k sk [m|] | ty t its r]; cbn [complete getNodeValueIfPair];
    intros H; try discriminate; try (eexists; split; [reflexivity | exact H]).
  destruct m; eexists; (split; [reflexivity | exact H]).
Qed.

Lemma complete_items (nv : Node) (its : list Node) :
  complete nv = true -> items_of nv = Some its -> forall m, In m its -> complete m = true.
Proof.
  destruct nv as [| |ty t l r]; cbn [items_of complete]; intros H Hits; try discriminate.
  injection Hits as ->. rewrite List.forallb_forall in H. exact H.
Qed.

Lemma mapO_returns {A B : Type} (f : A -> Outcome B) (l : list A) :
  (forall x, In x l -> exists y, f x = Ok y) -> exists ys, mapO f l = Ok ys.
Proof.
  induction l as [|x l IH]; intros H; [exists []; reflexivity|].
  destruct (H x (or_introl eq_refl)) as [y Hy].
  destruct IH as [ys Hys]; [intros z Hz; apply H; right; exact Hz|].
  exists (y :: ys). cbn [mapO]. rewrite Hy. cbn [bindO]. rewrite Hys. reflexivity.
Qed.

Lemma mapO_throws {A B : Type} (f : A -> Outcome B) (l : list A) (e : string) :
  mapO f l = Throw e -> exists x, In x l /\ f x = Throw e.
Proof.
  induction l as [|x l IH]; cbn [mapO]; intros H; [discriminate|].
  destruct (f x) as [y|e'] eqn:Hx; cbn [bindO] in H.
  - destruct (mapO f l) as [ys|e'']; cbn [bindO] in H; [discriminate|].
    injection H as ->. destruct (IH eq_refl) as [z [Hz Hfz]].
    exists z. split; [right; exact Hz | exact Hfz].
  - injection H as ->. exists x. split; [left; reflexivity | exact Hx].
Qed.

End TraversalFacts.

Module TraversalProperties.
Import Js Yaml CloudformationYaml Measures JsFacts ExtractorFacts TraversalFacts.

(** X9: a map hands its tag to every entry that has none of its own,
    traverses every entry and concatenates what the entries give, in their
    order; an exception raised in an entry ends the traversal, and a map
    without entries gives nothing. *)
Theorem map_traversal (tag : option string) (items : list Node) (range0 : Z) :
  getSubNodesWhichReference (NodeRef (Collection MAP tag items range0))
  = bindO (mapO (fun item => getSubNodesWhichReference (NodeRef (inheritTag item tag))) items)
      (fun subNodes => Ok (List.concat subNodes))
  /\ (forall item, In item items ->
        (truthy (tag_of item) = false -> inheritTag item tag = setTag item tag)
        /\ (truthy (tag_of item) = true -> inheritTag item tag = item))
  /\ (forall error before item after,
        items = before ++ item :: after ->
        Forall (fun earlier =>
                  exists found,
                    getSubNodesWhichReference (NodeRef (inheritTag earlier tag)) = Ok found)
               before ->
        getSubNodesWhichReference (NodeRef (inheritTag item tag)) = Throw error ->
        getSubNodesWhichReference (NodeRef (Collection MAP tag items range0)) = Throw error)
  /\ getSubNodesWhichReference (NodeRef (Collection MAP tag [] range0)) = Ok [].
Proof.
  split; [apply getSubNodesWhichReference_map|].
  split; [intros item _; unfold inheritTag; split; intros ->; reflexivity|].
  split; [|reflexivity].
  intros error before item after -> Hbefore Hthrow.
  rewrite getSubNodesWhichReference_map.
  induction Hbefore as [|earlier before [found Hfound] _ IH]; cbn [List.app mapO].
  - rewrite Hthrow. reflexivity.
  - rewrite Hfound. cbn [bindO].
    destruct (mapO _ (before ++ item :: after)); [discriminate IH | exact IH].
Qed.

(** X10: every node that the extractor returns is a plain or double-quoted
    scalar that holds the list of its references; the list holds one
    reference, or the references of a [!Sub] scalar, and each reference has
    the kind of the tag context of the scalar, the key and the offset that
    the rule of its kind gives; a reference of kind Ref never names a key
    that starts with [AWS::]. *)
Theorem extractor_returns_extracted_nodes (node : JsValue) (nodes : list Node) :
  getSubNodesWhichReference node = Ok nodes -> Forall extracted nodes.
Proof.
  destruct node as [|s|n]; cbn [getSubNodesWhichReference]; intros H;
    try (injection H as <-; constructor).
  apply (getSubNodesWhichReferenceFuel_all extracted inspectNode_extracted _ _ _ H).
Qed.

(** X12: a node that stands for neither a flow sequence, a map, a plain
    scalar nor a double-quoted scalar gives no node, whatever it holds: a
    block sequence, a flow map, a single-quoted or block scalar and an
    alias are passed over together with everything below them. *)
Theorem other_nodes_are_passed_over (node nodeValue : Node) :
  getNodeValueIfPair node = Some nodeValue ->
  type_of nodeValue <> FLOW_SEQ -> type_of nodeValue <> MAP ->
  type_of nodeValue <> PLAIN -> type_of nodeValue <> QUOTE_DOUBLE ->
  getSubNodesWhichReference (NodeRef node) = Ok [].
Proof.
  intros Hnv Hseq Hmap Hplain Hquote.
  cbn [getSubNodesWhichReference getSubNodesWhichReferenceFuel]. rewrite Hnv.
  destruct (NodeType_eqb (type_of nodeValue) FLOW_SEQ) eqn:E1;
    [apply NodeType_eqb_eq in E1; contradiction|].
  destruct (NodeType_eqb (type_of nodeValue) MAP) eqn:E2;
    [apply NodeType_eqb_eq in E2; contradiction|].
  destruct nodeValue as [type t k v r refs| |]; [|reflexivity|reflexivity].
  cbn [type_of] in *. unfold inspectNode.
  destruct (NodeType_eqb type PLAIN) eqn:E3; [apply NodeType_eqb_eq in E3; contradiction|].
  destruct (NodeType_eqb type QUOTE_DOUBLE) eqn:E4;
    [apply NodeType_eqb_eq in E4; contradiction|].
  reflexivity.
Qed.

End TraversalProperties.

Module TraversalEvidence.
Import Js Yaml CloudformationYaml Measures Scenarios TraversalProperties.

Lemma extractor_returns_extracted_nodes_witness :
  getSubNodesWhichReference
    (NodeRef (block [entry "Topic" 11 (tagged PLAIN "!Ref" "Bucket" 20);
                     entry "Name" 34 (tagged QUOTE_DOUBLE "!Sub" "${Stage}-${Bucket}" 40)] 0))
  = Ok [Scalar PLAIN (Some "!Ref") (Some "Topic") "Bucket" 20
          (Some [mkReference REF "Bucket" 25]);
        Scalar QUOTE_DOUBLE (Some "!Sub") (Some "Name") "${Stage}-${Bucket}" 40
          (Some [mkReference SUB "Stage" 48; mkReference SUB "Bucket" 57])]
  /\ Forall extracted
       [Scalar PLAIN (Some "!Ref") (Some "Topic") "Bucket" 20
          (Some [mkReference REF "Bucket" 25]);
        Scalar QUOTE_DOUBLE (Some "!Sub") (Some "Name") "${Stage}-${Bucket}" 40
          (Some [mkReference SUB "Stage" 48; mkReference SUB "Bucket" 57])].
Proof.
  split; [reflexivity|].
  apply (extractor_returns_extracted_nodes
           (NodeRef (block [entry "Topic" 11 (tagged PLAIN "!Ref" "Bucket" 20);
                            entry "Name" 34
                              (tagged QUOTE_DOUBLE "!Sub" "${Stage}-${Bucket}" 40)] 0))).
  reflexivity.
Defined.

Lemma other_nodes_are_passed_over_witness :
  getSubNodesWhichReference
    (NodeRef (entry "Items" 34 (Collection SEQ None [tagged PLAIN "!Ref" "Missing" 45] 43)))
  = Ok [].
Proof.
  apply (other_nodes_are_passed_over _
           (Collection SEQ None [tagged PLAIN "!Ref" "Missing" 45] 43));
    [reflexivity | discriminate | discriminate | discriminate | discriminate].
Defined.

Lemma map_traversal_witness :
  getSubNodesWhichReference
    (NodeRef (Collection MAP (Some "!GetAtt")
                [entry "Arn" 10 (plain "Child.Outputs.Arn" 15);
                 entry "Name" 40 (tagged PLAIN "!Ref" "Bucket" 46)] 10))
  = bindO (mapO (fun item =>
                   getSubNodesWhichReference (NodeRef (inheritTag item (Some "!GetAtt"))))
                [entry "Arn" 10 (plain "Child.Outputs.Arn" 15);
                 entry "Name" 40 (tagged PLAIN "!Ref" "Bucket" 46)])
      (fun subNodes => Ok (List.concat subNodes)).
Proof.
  exact (proj1 (map_traversal (Some "!GetAtt")
                  [entry "Arn" 10 (plain "Child.Outputs.Arn" 15);
                   entry "Name" 40 (tagged PLAIN "!Ref" "Bucket" 46)] 10)).
Defined.

End TraversalEvidence.

(** * The extractor on trees as the parser may leave them *)

Module ParsedFacts.
Import Js Yaml CloudformationYaml Measures ExtractorFacts TraversalFacts.

Lemma parsed_type_of_embed (n : Node) : Parsed.type_of (Parsed.embed n) = type_of n.
Proof. destruct n; reflexivity. Qed.

Lemma parsed_tag_of_embed (n : Node) : Parsed.tag_of (Parsed.embed n) = tag_of n.
Proof. destruct n; reflexivity. Qed.

Lemma parsed_items_of_embed (n : Node) :
  Parsed.items_of (Parsed.embed n)
  = option_map (List.map (fun m => Some (Parsed.embed m))) (items_of n).
Proof. destruct n; reflexivity. Qed.

Lemma parsed_setTag_embed (n : Node) (t : option string) :
  Parsed.setTag (Parsed.embed n) t = Parsed.embed (setTag n t).
Proof. destruct n; reflexivity. Qed.

Lemma parsed_inheritTag_embed (n : Node) (t : option string) :
  Parsed.inheritTag (Parsed.embed n) t = Parsed.embed (inheritTag n t).
Proof.
  unfold Parsed.inheritTag, inheritTag. rewrite parsed_tag_of_embed.
  destruct (truthy (tag_of n)); [reflexivity | apply parsed_setTag_embed].
Qed.

Lemma parsed_getNodeValueIfPair_embed (n : Node) :
  Parsed.getNodeValueIfPair (Parsed.embed n) = option_map Parsed.embed (getNodeValueIfPair n).
Proof.
  destruct n as [ty t k v r refs | t k sk [m|] | ty t its r]; try reflexivity.
  destruct m; reflexivity.
Qed.

Lemma parsed_inspectNode_embed (n : Node) :
  Parsed.inspectNode (Parsed.embed n) = Ok (List.map Parsed.embed (inspectNode n)).
Proof.
  destruct n as [ty t k v r refs | t k sk m | ty t its r]; try reflexivity.
  cbn [Parsed.embed Parsed.inspectNode inspectNode].
  destruct (NodeType_eqb ty PLAIN || NodeType_eqb ty QUOTE_DOUBLE); [|reflexivity].
  cbv zeta. destruct (nodeTagToReferenceType (orElse t k)) as [kind|]; [reflexivity|].
  destruct (tagIs t "!GetAtt"); [reflexivity|].
  assert (Hsub : Ok [Parsed.setReferences
                       (Parsed.PScalar ty t k (Parsed.StringValue v) r
                          (option_map (List.map Parsed.embedReference) refs))
                       (Parsed.subReferences ty (Parsed.StringValue v) r)]
                 = Ok (List.map Parsed.embed
                         [setReferences (Scalar ty t k v r refs) (subReferences ty v r)])).
  { cbn [List.map Parsed.embed setReferences Parsed.setReferences option_map].
    unfold Parsed.subReferences, subReferences. rewrite List.map_map. reflexivity. }
  destruct (tagIs t "!Ref"); cbn [Parsed.startsWithOf bindO andb].
  - destruct (startsWith v "AWS::"); cbn [negb]; [|reflexivity].
    destruct (tagIs t "!Sub"); [exact Hsub | reflexivity].
  - destruct (tagIs t "!Sub"); [exact Hsub | reflexivity].
Qed.

Lemma parsed_height_embed (n : Node) : Parsed.height (Parsed.embed n) = height n.
Proof.
  assert (H : forall k m, (height m < k)%nat -> Parsed.height (Parsed.embed m) = height m).
  { induction k as [|k IH]; intros m Hm; [lia|].
    destruct m as [ty t sk v r refs | t key sk [m|] | ty t its r];
      cbn [Parsed.embed Parsed.height height]; try reflexivity.
    - rewrite IH; [reflexivity | cbn [height] in Hm; lia].
    - f_equal.
      assert (Hitems : forall x, In x its -> Parsed.height (Parsed.embed x) = height x).
      { intros x Hx. apply IH.
        pose proof (height_item (Collection ty t its r) its eq_refl x Hx). lia. }
      clear IH Hm. induction its as [|x its IHl]; [reflexivity|].
      cbn [List.map List.fold_right]. rewrite (Hitems x (or_introl eq_refl)).
      rewrite IHl; [reflexivity|]. intros y Hy. apply Hitems. right. exact Hy. }
  apply (H (S (height n))). lia.
Qed.

Lemma mapO_map {A B C : Type} (f : B -> Outcome C) (g : A -> B) (l : list A) :
  mapO f (List.map g l) = mapO (fun x => f (g x)) l.
Proof.
  induction l as [|x l IH]; [reflexivity|].
  cbn [List.map mapO]. rewrite IH. reflexivity.
Qed.

Lemma mapO_then {A B C : Type} (f : A -> Outcome B) (h : B -> C) (l : list A) :
  mapO (fun x => bindO (f x) (fun y => Ok (h y))) l
  = bindO (mapO f l) (fun ys => Ok (List.map h ys)).
Proof.
  induction l as [|x l IH]; [reflexivity|].
  cbn [mapO]. rewrite IH. destruct (f x) as [y|e]; cbn [bindO]; [|reflexivity].
  destruct (mapO f l) as [ys|e]; reflexivity.
Qed.

Lemma mapO_ext {A B : Type} (f g : A -> Outcome B) (l : list A) :
  (forall x, f x = g x) -> mapO f l = mapO g l.
Proof.
  intros H. induction l as [|x l IH]; [reflexivity|].
  cbn [mapO]. rewrite H, IH. reflexivity.
Qed.

Lemma flattenArray_map {A B : Type} (h : A -> B) (l : list (list A)) :
  flattenArray (List.map (List.map h) l) = List.map h (flattenArray l).
Proof. unfold flattenArray. symmetry. apply List.concat_map. Qed.

(** On a tree of [Yaml.Node] the traversal is the one of the analysis. *)
Lemma parsed_getSubNodesWhichReferenceFuel_embed (fuel : nat) :
  forall n,
    Parsed.getSubNodesWhichReferenceFuel fuel (Parsed.embed n)
    = bindO (getSubNodesWhichReferenceFuel fuel n)
            (fun nodes => Ok (List.map Parsed.embed nodes)).
Proof.
  induction fuel as [|fuel IH]; intros n; [reflexivity|].
  cbn [Parsed.getSubNodesWhichReferenceFuel getSubNodesWhichReferenceFuel].
  rewrite parsed_getNodeValueIfPair_embed.
  destruct (getNodeValueIfPair n) as [nv|]; cbn [option_map bindO]; [|reflexivity].
  rewrite parsed_type_of_embed, parsed_items_of_embed, parsed_tag_of_embed.
  assert (Hmap : forall its,
            bindO (mapO (fun item : option Parsed.ParsedNode =>
                           match item with
                           | Some item =>
                             Parsed.getSubNodesWhichReferenceFuel fuel
                               (Parsed.inheritTag item (tag_of nv))
                           | None => Throw TypeError
                           end)
                        (List.map (fun m => Some (Parsed.embed m)) its))
                  (fun subNodes => Ok (flattenArray subNodes))
            = bindO (bindO (mapO (fun item =>
                                    getSubNodesWhichReferenceFuel fuel
                                      (inheritTag item (tag_of nv)))
                                 its)
                           (fun subNodes => Ok (flattenArray subNodes)))
                    (fun nodes => Ok (List.map Parsed.embed nodes))).
  { intros its. rewrite mapO_map.
    rewrite (mapO_ext _ (fun x => bindO (getSubNodesWhichReferenceFuel fuel
                                           (inheritTag x (tag_of nv)))
                                        (fun nodes => Ok (List.map Parsed.embed nodes)))).
    - rewrite mapO_then.
      destruct (mapO _ its) as [ys|e]; cbn [bindO]; [|reflexivity].
      rewrite flattenArray_map. reflexivity.
    - intros x. rewrite parsed_inheritTag_embed. apply IH. }
  destruct (NodeType_eqb (type_of nv) FLOW_SEQ) eqn:Hseq.
  - destruct (items_of nv) as [[|firstSubNode items]|] eqn:Hits;
      cbn [option_map List.map].
    + destruct (NodeType_eqb (type_of nv) MAP); [apply (Hmap []) |].
      apply parsed_inspectNode_embed.
    + rewrite parsed_inheritTag_embed, IH.
      destruct (getSubNodesWhichReferenceFuel fuel (inheritTag firstSubNode (tag_of nv)))
        as [firstSubNodes|e]; cbn [bindO]; [|reflexivity].
      rewrite mapO_map.
      rewrite (mapO_ext _ (fun x => bindO (getSubNodesWhichReferenceFuel fuel x)
                                          (fun nodes => Ok (List.map Parsed.embed nodes))))
        by (intros x; apply IH).
      rewrite mapO_then.
      destruct (mapO _ items) as [ys|e]; cbn [bindO]; [|reflexivity].
      rewrite List.map_app, flattenArray_map. reflexivity.
    + destruct (NodeType_eqb (type_of nv) MAP); apply parsed_inspectNode_embed.
  - destruct (NodeType_eqb (type_of nv) MAP).
    + destruct (items_of nv) as [its|]; cbn [option_map];
        [apply Hmap | apply parsed_inspectNode_embed].
    + apply parsed_inspectNode_embed.
Qed.

Lemma parsed_height_setTag (n : Parsed.ParsedNode) (t : option string) :
  Parsed.height (Parsed.setTag n t) = Parsed.height n.
Proof. destruct n; reflexivity. Qed.

Lemma parsed_height_inheritTag (n : Parsed.ParsedNode) (t : option string) :
  Parsed.height (Parsed.inheritTag n t) = Parsed.height n.
Proof.
  unfold Parsed.inheritTag.
  destruct (truthy (Parsed.tag_of n)); [reflexivity | apply parsed_height_setTag].
Qed.

Lemma parsed_getNodeValueIfPair_height (n nv : Parsed.ParsedNode) :
  Parsed.getNodeValueIfPair n = Some nv -> (Parsed.height nv <= Parsed.height n)%nat.
Proof.
  destruct n as [ty t k v r refs | t k sk [m|] | ty t its r]; simpl; intros H;
    try (injection H as <-; simpl; lia); try discriminate.
  destruct m; injection H as <-; simpl; lia.
Qed.

Lemma parsed_height_item (nv : Parsed.ParsedNode) (its : list (option Parsed.ParsedNode)) :
  Parsed.items_of nv = Some its ->
  forall m, In (Some m) its -> (Parsed.height m < Parsed.height nv)%nat.
Proof.
  destruct nv as [| |ty t l r]; simpl; intros H; try discriminate.
  injection H as ->. induction its as [|x its IH]; intros m Hm; [destruct Hm|].
  simpl in *. destruct Hm as [->|Hm]; [lia|]. specialize (IH m Hm). lia.
Qed.

Lemma parsed_sequence_items (nv : Parsed.ParsedNode) (its : list (option Parsed.ParsedNode))
    (ty : NodeType) :
  (if NodeType_eqb (Parsed.type_of nv) ty then Parsed.items_of nv else None) = Some its ->
  NodeType_eqb (Parsed.type_of nv) ty = true /\ Parsed.items_of nv = Some its.
Proof.
  destruct (NodeType_eqb (Parsed.type_of nv) ty); [intros H; split; [reflexivity|exact H]|].
  discriminate.
Qed.

Lemma fit_setTag (n : Parsed.ParsedNode) (t : option string) :
  Parsed.fit (Parsed.setTag n t) = Parsed.fit n.
Proof. destruct n; reflexivity. Qed.

Lemma fit_inheritTag (n : Parsed.ParsedNode) (t : option string) :
  Parsed.fit (Parsed.inheritTag n t) = Parsed.fit n.
Proof.
  unfold Parsed.inheritTag.
  destruct (truthy (Parsed.tag_of n)); [reflexivity | apply fit_setTag].
Qed.

Lemma fit_getNodeValueIfPair (n : Parsed.ParsedNode) :
  Parsed.fit n = true ->
  exists nv, Parsed.getNodeValueIfPair n = Some nv /\ Parsed.fit nv = true.
Proof.
  destruct n as [ty t k v r refs | t k sk [m|] | ty t its r]; cbn [Parsed.fit]; intros H;
    try discriminate.
  - eexists. split; [reflexivity | exact H].
  - destruct m; (eexists; split; [reflexivity | exact H]).
  - eexists. split; [reflexivity | exact H].
Qed.

Lemma fit_items (nv : Parsed.ParsedNode) (its : list (option Parsed.ParsedNode)) :
  Parsed.fit nv = true -> Parsed.items_of nv = Some its ->
  forall item, In item its ->
    match item with
    | Some m => Parsed.fit m = true
    | None => NodeType_eqb (Parsed.type_of nv) MAP = false
    end.
Proof.
  destruct nv as [| |ty t l r]; cbn [Parsed.items_of Parsed.fit Parsed.type_of];
    intros H Hits; try discriminate.
  injection Hits as ->. rewrite List.forallb_forall in H.
  intros item Hitem. specialize (H item Hitem). destruct item as [m|]; [exact H|].
  destruct (NodeType_eqb ty MAP); [discriminate | reflexivity].
Qed.

Lemma fit_inspectNode (nv : Parsed.ParsedNode) :
  Parsed.fit nv = true -> exists nodes, Parsed.inspectNode nv = Ok nodes.
Proof.
  destruct nv as [ty t k v r refs | t k sk m | ty t its r]; intros H;
    try (eexists; reflexivity).
  cbn [Parsed.fit] in H. destruct v as [s| | |]; try discriminate.
  cbn [Parsed.inspectNode].
  destruct (NodeType_eqb ty PLAIN || NodeType_eqb ty QUOTE_DOUBLE); [|eexists; reflexivity].
  cbv zeta. destruct (nodeTagToReferenceType (orElse t k)); [eexists; reflexivity|].
  destruct (tagIs t "!GetAtt"); [eexists; reflexivity|].
  destruct (tagIs t "!Ref"); cbn [Parsed.startsWithOf bindO].
  - destruct (negb (startsWith s "AWS::")); [eexists; reflexivity|].
    destruct (tagIs t "!Sub"); eexists; reflexivity.
  - destruct (tagIs t "!Sub"); eexists; reflexivity.
Qed.

Lemma parsed_inspectNode_throws (nv : Parsed.ParsedNode) (e : string) :
  Parsed.inspectNode nv = Throw e -> e = TypeError.
Proof.
  destruct nv as [ty t k v r refs | t k sk m | ty t its r]; try discriminate.
  cbn [Parsed.inspectNode].
  destruct (NodeType_eqb ty PLAIN || NodeType_eqb ty QUOTE_DOUBLE); [|discriminate].
  cbv zeta. destruct (nodeTagToReferenceType (orElse t k)); [discriminate|].
  destruct (tagIs t "!GetAtt"); [discriminate|].
  destruct (tagIs t "!Ref"); cbn [bindO].
  - destruct v as [s| | |]; cbn [Parsed.startsWithOf bindO];
      try (intros H; injection H as <-; reflexivity).
    destruct (negb (startsWith s "AWS::")); [discriminate|].
    destruct (tagIs t "!Sub"); discriminate.
  - destruct (tagIs t "!Sub"); discriminate.
Qed.

(** With more fuel than the node is high, the traversal of a fit tree
    returns. *)
Lemma parsed_getSubNodesWhichReferenceFuel_returns (fuel : nat) :
  forall n,
    (Parsed.height n < fuel)%nat -> Parsed.fit n = true ->
    exists nodes, Parsed.getSubNodesWhichReferenceFuel fuel n = Ok nodes.
Proof.
  induction fuel as [|fuel IH]; intros n Hh Hc; [lia|].
  cbn [Parsed.getSubNodesWhichReferenceFuel].
  destruct (fit_getNodeValueIfPair _ Hc) as [nv [Hnv Hcv]]. rewrite Hnv.
  pose proof (parsed_getNodeValueIfPair_height _ _ Hnv) as Hhv.
  assert (Hlast :
            exists nodes,
              match (if NodeType_eqb (Parsed.type_of nv) MAP
                     then Parsed.items_of nv else None) with
              | Some items =>
                bindO (mapO (fun item : option Parsed.ParsedNode =>
                               match item with
                               | Some item =>
                                 Parsed.getSubNodesWhichReferenceFuel fuel
                                   (Parsed.inheritTag item (Parsed.tag_of nv))
                               | None => Throw TypeError
                               end)
                            items)
                      (fun subNodes => Ok (flattenArray subNodes))
              | None => Parsed.inspectNode nv
              end = Ok nodes).
  { destruct (if NodeType_eqb (Parsed.type_of nv) MAP then Parsed.items_of nv else None)
      as [its|] eqn:Hm; [|apply fit_inspectNode; exact Hcv].
    destruct (parsed_sequence_items _ _ _ Hm) as [Hty Hits].
    destruct (mapO_returns
                (fun item : option Parsed.ParsedNode =>
                   match item with
                   | Some item =>
                     Parsed.getSubNodesWhichReferenceFuel fuel
                       (Parsed.inheritTag item (Parsed.tag_of nv))
                   | None => Throw TypeError
                   end)
                its) as [ys Hys].
    - intros x Hx. pose proof (fit_items _ _ Hcv Hits x Hx) as Hfx.
      destruct x as [x|]; [|rewrite Hty in Hfx; discriminate].
      apply IH.
      + rewrite parsed_height_inheritTag. pose proof (parsed_height_item _ _ Hits x Hx). lia.
      + rewrite fit_inheritTag. exact Hfx.
    - rewrite Hys. eexists. reflexivity. }
  destruct (if NodeType_eqb (Parsed.type_of nv) FLOW_SEQ then Parsed.items_of nv else None)
    as [[|[firstSubNode|] items]|] eqn:Hseq; try exact Hlast.
  destruct (parsed_sequence_items _ _ _ Hseq) as [Hty Hits].
  destruct (IH (Parsed.inheritTag firstSubNode (Parsed.tag_of nv))) as [firstSubNodes Hfirst].
  - rewrite parsed_height_inheritTag.
    pose proof (parsed_height_item _ _ Hits firstSubNode (or_introl eq_refl)). lia.
  - rewrite fit_inheritTag.
    apply (fit_items _ _ Hcv Hits (Some firstSubNode) (or_introl eq_refl)).
  - rewrite Hfirst. cbn [bindO].
    destruct (mapO_returns
                (fun item : option Parsed.ParsedNode =>
                   match item with
                   | Some item => Parsed.getSubNodesWhichReferenceFuel fuel item
                   | None => Ok []
                   end)
                items) as [ys Hys].
    + intros x Hx. destruct x as [x|]; [|eexists; reflexivity].
      apply IH.
      * pose proof (parsed_height_item _ _ Hits x (or_intror Hx)). lia.
      * apply (fit_items _ _ Hcv Hits (Some x) (or_intror Hx)).
    + rewrite Hys. eexists. reflexivity.
Qed.

(** With more fuel than the node is high, the one exception of the
    traversal is the [TypeError]: the stack does not run out. *)
Lemma parsed_getSubNodesWhichReferenceFuel_throws (fuel : nat) :
  forall n e,
    (Parsed.height n < fuel)%nat ->
    Parsed.getSubNodesWhichReferenceFuel fuel n = Throw e -> e = TypeError.
Proof.
  induction fuel as [|fuel IH]; intros n e Hh H; [lia|].
  cbn [Parsed.getSubNodesWhichReferenceFuel] in H.
  destruct (Parsed.getNodeValueIfPair n) as [nv|] eqn:Hnv; [|injection H as <-; reflexivity].
  pose proof (parsed_getNodeValueIfPair_height _ _ Hnv) as Hhv.
  assert (Hlast :
            match (if NodeType_eqb (Parsed.type_of nv) MAP
                   then Parsed.items_of nv else None) with
            | Some items =>
              bindO (mapO (fun item : option Parsed.ParsedNode =>
                             match item with
                             | Some item =>
                               Parsed.getSubNodesWhichReferenceFuel fuel
                                 (Parsed.inheritTag item (Parsed.tag_of nv))
                             | None => Throw TypeError
                             end)
                          items)
                    (fun subNodes => Ok (flattenArray subNodes))
            | None => Parsed.inspectNode nv
            end = Throw e -> e = TypeError).
  { destruct (if NodeType_eqb (Parsed.type_of nv) MAP then Parsed.items_of nv else None)
      as [its|] eqn:Hm; [|apply parsed_inspectNode_throws].
    destruct (parsed_sequence_items _ _ _ Hm) as [Hty Hits]. intros Hrun.
    destruct (mapO _ its) as [ys|e'] eqn:Hys; cbn [bindO] in Hrun; [discriminate|].
    injection Hrun as ->. destruct (mapO_throws _ _ _ Hys) as [x [Hx Hfx]].
    destruct x as [x|]; [|injection Hfx as <-; reflexivity].
    apply (IH (Parsed.inheritTag x (Parsed.tag_of nv))); [|exact Hfx].
    rewrite parsed_height_inheritTag. pose proof (parsed_height_item _ _ Hits x Hx). lia. }
  destruct (if NodeType_eqb (Parsed.type_of nv) FLOW_SEQ then Parsed.items_of nv else None)
    as [[|[firstSubNode|] items]|] eqn:Hseq; try exact (Hlast H).
  destruct (parsed_sequence_items _ _ _ Hseq) as [Hty Hits].
  destruct (Parsed.getSubNodesWhichReferenceFuel fuel
              (Parsed.inheritTag firstSubNode (Parsed.tag_of nv)))
    as [firstSubNodes|e'] eqn:Hfirst; cbn [bindO] in H.
  - destruct (mapO _ items) as [ys|e'] eqn:Hys; cbn [bindO] in H; [discriminate|].
    injection H as ->. destruct (mapO_throws _ _ _ Hys) as [x [Hx Hfx]].
    destruct x as [x|]; [|discriminate].
    apply (IH x); [|exact Hfx].
    pose proof (parsed_height_item _ _ Hits x (or_intror Hx)). lia.
  - injection H as ->.
    apply (IH (Parsed.inheritTag firstSubNode (Parsed.tag_of nv))); [|exact Hfirst].
    rewrite parsed_height_inheritTag.
    pose proof (parsed_height_item _ _ Hits firstSubNode (or_introl eq_refl)). lia.
Qed.

End ParsedFacts.

Module ParsedProperties.
Import Js Yaml CloudformationYaml Measures ExtractorFacts TraversalFacts ParsedFacts.

(** X11: the extractor on trees as the parser may leave them, in which a
    scalar may hold a number, a boolean or null instead of a string and an
    item of a collection may be empty. (1) On a tree whose scalars hold
    strings and whose items are all there, it is the extractor of the
    analysis. (2) It returns on every tree in which every scalar holds a
    string, every entry has a value and no item of a map is empty: it
    throws neither a [TypeError] nor, for want of stack, a [RangeError];
    empty items of a flow sequence are passed over. (3) It throws a
    [TypeError] on a flow sequence tagged [!Ref] whose first item is a plain
    or double-quoted scalar without a tag that holds no string, as in
    [!Ref [1]]: the item inherits the tag, and [startsWith] cannot be called
    on its value. (4) Whatever the tree, a [TypeError] is the one exception
    it throws. *)
Theorem extractor_returns_on_fit_trees (n : Parsed.ParsedNode) :
  (forall m,
     n = Parsed.embed m ->
     Parsed.getSubNodesWhichReference (Some n)
     = bindO (getSubNodesWhichReference (NodeRef m))
             (fun nodes => Ok (List.map Parsed.embed nodes)))
  /\ (Parsed.fit n = true ->
      exists nodes, Parsed.getSubNodesWhichReference (Some n) = Ok nodes)
  /\ (forall type tag stringKey value range0 references rest range1,
        n = Parsed.PCollection FLOW_SEQ (Some "!Ref")
              (Some (Parsed.PScalar type tag stringKey value range0 references) :: rest)
              range1 ->
        truthy tag = false ->
        type = PLAIN \/ type = QUOTE_DOUBLE ->
        (forall s, value <> Parsed.StringValue s) ->
        Parsed.getSubNodesWhichReference (Some n) = Throw TypeError)
  /\ (forall e, Parsed.getSubNodesWhichReference (Some n) = Throw e -> e = TypeError).
Proof.
  cbn [Parsed.getSubNodesWhichReference]. repeat split.
  - intros m ->. rewrite parsed_height_embed.
    apply parsed_getSubNodesWhichReferenceFuel_embed.
  - intros Hfit. apply parsed_getSubNodesWhichReferenceFuel_returns; [lia | exact Hfit].
  - intros type tag stringKey value range0 references rest range1 -> Htag Htype Hvalue.
    cbn [Parsed.height List.fold_right Nat.max Parsed.getSubNodesWhichReferenceFuel
         Parsed.getNodeValueIfPair Parsed.type_of Parsed.items_of Parsed.tag_of
         NodeType_eqb].
    unfold Parsed.inheritTag. cbn [Parsed.tag_of]. rewrite Htag.
    cbn [Parsed.setTag Parsed.getNodeValueIfPair Parsed.type_of Parsed.items_of].
    assert (Hinspect : Parsed.inspectNode
                         (Parsed.PScalar type (Some "!Ref") stringKey value range0 references)
                       = Throw TypeError).
    { cbn [Parsed.inspectNode].
      replace (NodeType_eqb type PLAIN || NodeType_eqb type QUOTE_DOUBLE) with true
        by (destruct Htype as [-> | ->]; reflexivity).
      cbv zeta. change (orElse (Some "!Ref") stringKey) with (Some "!Ref").
      cbn [nodeTagToReferenceType tagIs String.eqb Ascii.eqb Bool.eqb bindO].
      destruct value as [s| | |]; try reflexivity.
      destruct (Hvalue s eq_refl). }
    destruct Htype as [-> | ->]; cbn [NodeType_eqb]; rewrite Hinspect; reflexivity.
  - intros e. apply parsed_getSubNodesWhichReferenceFuel_throws. lia.
Qed.

End ParsedProperties.

Module ParsedEvidence.
Import Js Yaml CloudformationYaml Scenarios ParsedProperties.

(** [Name: !Ref [1]] throws, and [Path: [prefix, , !Ref Bucket]], with an
    empty item, gives the reference. *)
Lemma extractor_returns_on_fit_trees_witness :
  Parsed.getSubNodesWhichReference
    (Some (Parsed.PCollection FLOW_SEQ (Some "!Ref")
             [Some (Parsed.PScalar PLAIN None None (Parsed.NumberValue "1") 12 None)] 6))
  = Throw TypeError
  /\ exists nodes,
       Parsed.getSubNodesWhichReference
         (Some (Parsed.PPair None (mkKey 0) "Path"
                  (Some (Parsed.PCollection FLOW_SEQ None
                           [Some (Parsed.PScalar PLAIN None None
                                    (Parsed.StringValue "prefix") 7 None);
                            None;
                            Some (Parsed.PScalar PLAIN (Some "!Ref") None
                                    (Parsed.StringValue "Bucket") 17 None)] 6))))
       = Ok nodes.
Proof.
  split.
  - apply (proj1 (proj2 (proj2 (extractor_returns_on_fit_trees _)))
             PLAIN None None (Parsed.NumberValue "1") 12 None [] 6 eq_refl eq_refl
             (or_introl eq_refl)).
    intros s. discriminate.
  - apply (proj1 (proj2 (extractor_returns_on_fit_trees _))). reflexivity.
Defined.

End ParsedEvidence.

(** * Sub stacks: the search and the collector *)

Module SubStackSearchFacts.
Import Js Yaml CloudformationYaml Measures ExtractorFacts AnalysisFacts TraversalFacts.

(** The test [nodeValue.get('Type') === 'AWS::CloudFormation::Stack']. *)
Lemma stack_type_cases {A : Type} (type : JsValue) (a b : A) :
  match type with
  | Str "AWS::CloudFormation::Stack" => a
  | _ => b
  end
  = match type with
    | Str s => if String.eqb s "AWS::CloudFormation::Stack" then a else b
    | _ => b
    end.
Proof.
  destruct type as [|s|n]; try reflexivity.
  destruct (String.eqb s "AWS::CloudFormation::Stack") eqn:E.
  - apply String.eqb_eq in E. subst s. reflexivity.
  - repeat match goal with
           | |- context [match ?x with _ => _ end] =>
             is_var x; destruct x; try reflexivity
           end.
    discriminate E.
Qed.

Lemma getSubStackNodePairsFuel_sound (fuel : nat) :
  forall n pairs,
    getSubStackNodePairsFuel fuel n = Ok pairs -> Forall isSubStack pairs.
Proof.
  induction fuel as [|fuel IH]; intros n pairs H; [discriminate|].
  cbn [getSubStackNodePairsFuel] in H.
  destruct (getNodeValueIfPair n) as [nv|] eqn:Hnv; [|discriminate].
  destruct (NodeType_eqb (type_of nv) MAP) eqn:Htype;
    [|injection H as <-; constructor].
  destruct (items_of nv) as [items|]; [|injection H as <-; constructor].
  destruct (get nv "Type") as [type|] eqn:Hget; [|discriminate].
  cbn [bindO] in H. rewrite stack_type_cases in H.
  assert (Hrest :
    bindO (mapO (getSubStackNodePairsFuel fuel) items)
          (fun subStackNodePairs => Ok (flattenArray subStackNodePairs)) = Ok pairs ->
    Forall isSubStack pairs).
  { intros Hmap.
    destruct (mapO (getSubStackNodePairsFuel fuel) items) as [ys|] eqn:Hys; [|discriminate].
    cbn [bindO] in Hmap. injection Hmap as <-. apply ResolutionFacts.Forall_concat.
    apply (ResolutionFacts.mapO_Forall _ _ _ (fun x y _ Hy => IH _ _ Hy) _ Hys). }
  destruct type as [|s|m]; try (apply Hrest; exact H).
  destruct (String.eqb s "AWS::CloudFormation::Stack") eqn:Hs; [|apply Hrest; exact H].
  apply String.eqb_eq in Hs. subst s. injection H as <-.
  constructor; [|constructor]. exists nv. split; [exact Hnv|].
  split; [apply NodeType_eqb_eq; exact Htype | exact Hget].
Qed.

(** A collection answers [get(key)]. *)
Lemma get_collection (type : NodeType) (tag : option string) (items : list Node)
    (range0 : Z) (k : string) :
  get (Collection type tag items range0) k
  = Ok (documentGet (mkDocument (Some (Collection type tag items range0))) k).
Proof.
  unfold documentGet. cbn [contents]. unfold get.
  destruct (NodeType_eqb type MAP || NodeType_eqb type FLOW_MAP); [|reflexivity].
  destruct (getNodeItemByStringKey (Collection type tag items range0) k)
    as [[| t' key sk [[]|] |]|]; reflexivity.
Qed.

End SubStackSearchFacts.

Module CollectorFacts.
Import Js Yaml CloudformationYaml Measures AnalysisFacts SubStackSearchFacts.

(** The loop over the declared parameters of a child template appends to
    the list recorded for the template URL. *)
Lemma foldM_collectParameter (templateUrl : string) (items : list Node) :
  Forall readable items ->
  forall (referenceableParameters : gmap string (list ParameterReferenceable))
         (recorded : list ParameterReferenceable) (ds : list Diagnostic),
    referenceableParameters !! templateUrl = Some recorded ->
    foldM items (collectParameter templateUrl) referenceableParameters ds
    = (Ok (<[templateUrl := recorded ++ List.flat_map declaredParameter items]>
             referenceableParameters),
       ds).
Proof.
  induction 1 as [|item items Hitem _ IH]; intros m recorded ds Hm.
  - cbn [foldM List.flat_map]. unfold ret. rewrite List.app_nil_r, insert_id by exact Hm.
    reflexivity.
  - cbn [foldM List.flat_map]. unfold bindM at 1.
    destruct item as [| t key stringKey [value|] |];
      try (cbn [collectParameter declaredParameter List.app]; unfold ret at 1;
           apply IH; exact Hm).
    destruct value as [| |type tag its range0]; try (destruct Hitem).
    cbn [collectParameter declaredParameter]. rewrite bindM_lift, get_collection.
    unfold ret at 1. rewrite Hm. cbn [default].
    rewrite (IH _ (recorded ++ [mkParameter stringKey
                                  (toBoolean (documentGet
                                     (mkDocument (Some (Collection type tag its range0)))
                                     "Default"))]))
      by apply lookup_insert_eq.
    rewrite insert_insert_eq, <- List.app_assoc. reflexivity.
Qed.

Lemma addsOnly_ret {A : Type} (P : Diagnostic -> Prop) (a : A) : addsOnly P (ret a).
Proof. intros ds. exists []. split; [symmetry; apply List.app_nil_r | constructor]. Qed.

Lemma addsOnly_throw {A : Type} (P : Diagnostic -> Prop) (e : string) :
  addsOnly P (@throw A e).
Proof. intros ds. exists []. split; [symmetry; apply List.app_nil_r | constructor]. Qed.

Lemma addsOnly_lift {A : Type} (P : Diagnostic -> Prop) (o : Outcome A) :
  addsOnly P (lift o).
Proof. intros ds. exists []. split; [symmetry; apply List.app_nil_r | constructor]. Qed.

Lemma addsOnly_addDiagnostic (P : Diagnostic -> Prop) (d : Diagnostic) :
  P d -> addsOnly P (addDiagnostic d).
Proof. intros Hd ds. exists [d]. split; [reflexivity | repeat constructor; exact Hd]. Qed.

Lemma addsOnly_bindM {A B : Type} (P : Diagnostic -> Prop) (m : M A) (f : A -> M B) :
  addsOnly P m -> (forall a, addsOnly P (f a)) -> addsOnly P (bindM m f).
Proof.
  intros Hm Hf ds. unfold bindM. destruct (Hm ds) as [e1 [H1 P1]].
  destruct (m ds) as [[a|e] ds']; cbn [snd] in *; subst ds'.
  - destruct (Hf a (ds ++ e1)) as [e2 [H2 P2]]. exists (e1 ++ e2).
    rewrite H2, List.app_assoc. split; [reflexivity | apply List.Forall_app; split; assumption].
  - exists e1. split; [reflexivity | exact P1].
Qed.

Lemma addsOnly_foldM {A S : Type} (P : Diagnostic -> Prop) (l : list A) (f : S -> A -> M S) :
  (forall s x, addsOnly P (f s x)) -> forall s, addsOnly P (foldM l f s).
Proof.
  intros Hf. induction l as [|x l IH]; intros s; cbn [foldM];
    [apply addsOnly_ret | apply addsOnly_bindM; [apply Hf | exact IH]].
Qed.

Lemma addsOnly_collectParameter (P : Diagnostic -> Prop) (templateUrl : string)
    (referenceableParameters : gmap string (list ParameterReferenceable)) (item : Node) :
  addsOnly P (collectParameter templateUrl referenceableParameters item).
Proof.
  destruct item as [| t key stringKey [value|] |]; cbn [collectParameter];
    try apply addsOnly_ret.
  apply addsOnly_bindM; [apply addsOnly_lift | intros; apply addsOnly_ret].
Qed.

(** The collector adds diagnostics of load failures only. *)
Lemma addsOnly_subStackReferenceablesOf (host : Host) (fullText parentPath : string)
    (acc : SubStackReferenceables) (nodePair : Node) :
  addsOnly isLoadFailure (subStackReferenceablesOf host fullText parentPath acc nodePair).
Proof.
  unfold subStackReferenceablesOf.
  apply addsOnly_bindM; [apply addsOnly_lift|]. intros properties.
  apply addsOnly_bindM; [apply addsOnly_lift|]. intros [|templateUrl|n];
    try apply addsOnly_ret.
  destruct (bindO (readFileSync host (parentPath +:+ "/" +:+ templateUrl))
                  (parseDocument host)) as [document|error].
  - destruct (contents document) as [documentContents|]; [|apply addsOnly_throw].
    apply addsOnly_bindM; [apply addsOnly_lift|]. intros childOutputs.
    apply addsOnly_bindM; [apply addsOnly_lift|]. intros [|s|parametersNode];
      try apply addsOnly_ret.
    destruct (items_of parametersNode) as [items|]; [|apply addsOnly_ret].
    apply addsOnly_bindM; [|intros; apply addsOnly_ret].
    apply addsOnly_foldM. intros. apply addsOnly_collectParameter.
  - destruct properties as [|s|propertiesNode]; try apply addsOnly_throw.
    destruct (getNodeItemByStringKey propertiesNode "TemplateURL") as [pair|];
      [|apply addsOnly_ret].
    destruct (value_of pair) as [|s|[type tag key value range0 refs| |]];
      try apply addsOnly_throw.
    apply addsOnly_bindM; [|intros; apply addsOnly_ret].
    apply addsOnly_addDiagnostic. split; [reflexivity|]. eexists _, _. reflexivity.
Qed.

(** A loop ends with an exception when its body throws for one of the
    items, whatever the state. *)
Lemma foldM_throws {A S : Type} (l : list A) (f : S -> A -> M S) :
  Exists (fun x => forall s ds, exists e, fst (f s x ds) = Throw e) l ->
  forall s ds, exists e, fst (foldM l f s ds) = Throw e.
Proof.
  induction 1 as [x l Hx | x l _ IH]; intros s ds; cbn [foldM]; unfold bindM.
  - destruct (Hx s ds) as [e He]. destruct (f s x ds) as [[s'|e'] ds']; cbn [fst] in He;
      [discriminate | exists e'; reflexivity].
  - destruct (f s x ds) as [[s'|e'] ds']; [apply IH | exists e'; reflexivity].
Qed.

(** The collector on a sub stack whose child template is read and
    parsed. *)
Lemma subStackReferenceablesOf_loaded (host : Host) (fullText parentPath : string)
    (acc : SubStackReferenceables) (nodePair propertiesNode documentContents : Node)
    (templateUrl : string) (document : Document) (childOutputs childParameters : JsValue)
    (ds : list Diagnostic) :
  getOf (value_of nodePair) "Properties" = Ok (NodeRef propertiesNode) ->
  get propertiesNode "TemplateURL" = Ok (Str templateUrl) ->
  bindO (readFileSync host (parentPath +:+ "/" +:+ templateUrl)) (parseDocument host)
  = Ok document ->
  contents document = Some documentContents ->
  get documentContents "Outputs" = Ok childOutputs ->
  get documentContents "Parameters" = Ok childParameters ->
  Forall readable (declaredItems childParameters) ->
  subStackReferenceablesOf host fullText parentPath acc nodePair ds
  = (Ok (mkSubStack
           (outputs acc ++ outputNames (stringKey_of nodePair) childOutputs)
           (<[templateUrl := List.flat_map declaredParameter (declaredItems childParameters)]>
              (parameters acc))),
     ds).
Proof.
  intros Hprops Hurl Hload Hcontents Houtputs Hparameters Hreadable.
  unfold subStackReferenceablesOf. rewrite bindM_lift, Hprops.
  rewrite bindM_lift. cbn [getOf]. rewrite Hurl, Hload, Hcontents.
  rewrite bindM_lift, Houtputs, bindM_lift, Hparameters.
  fold (outputNames (stringKey_of nodePair) childOutputs).
  destruct childParameters as [|s|parametersNode]; cbn [declaredItems List.flat_map] in *;
    try (unfold ret; reflexivity).
  destruct (items_of parametersNode) as [items|]; cbn [default List.flat_map] in *;
    [|unfold ret; reflexivity].
  unfold bindM.
  rewrite (foldM_collectParameter templateUrl items Hreadable _ [] ds)
    by apply lookup_insert_eq.
  unfold ret. rewrite insert_insert_eq. reflexivity.
Qed.

End CollectorFacts.

Module SubStackSearchProperties.
Import Js Yaml CloudformationYaml Measures AnalysisFacts SubStackSearchFacts CollectorFacts.

(** X13: every node that the search for sub stacks returns is a sub stack:
    it stands for a map whose [Type] is the literal
    [AWS::CloudFormation::Stack]. *)
Theorem found_pairs_are_sub_stacks (document : Document) (pairs : list Node) :
  findSubStackNodePairs document = Ok pairs -> Forall isSubStack pairs.
Proof.
  unfold findSubStackNodePairs.
  destruct (contents document) as [c|]; [|intros H; injection H as <-; constructor].
  destruct (items_of c) as [documentItems|]; [|intros H; injection H as <-; constructor].
  destruct (List.find _ documentItems) as [resources|];
    [|intros H; injection H as <-; constructor].
  cbn [getSubStackNodePairs]. apply getSubStackNodePairsFuel_sound.
Qed.

(** X14: a sub stack is returned as a whole and alone: the search does not
    go into it, so a sub stack declared within a sub stack is not found. *)
Theorem sub_stack_is_found_whole (node : Node) :
  isSubStack node -> getSubStackNodePairs (Some node) = Ok [node].
Proof.
  intros (nodeValue & Hnv & Htype & Hget).
  cbn [getSubStackNodePairs getSubStackNodePairsFuel]. rewrite Hnv, Htype.
  destruct nodeValue as [| |type tag items range0]; try discriminate.
  cbn [NodeType_eqb items_of]. rewrite Hget. reflexivity.
Qed.

(** X15: for a sub stack with a literal [TemplateURL] whose child template
    is read and parsed, the collector adds no diagnostic; it appends to the
    outputs one name [<stack>.Outputs.<key>] for each key of the [Outputs]
    of the child, and it records for the template URL, in place of what was
    recorded before, one parameter for each entry of the [Parameters] of the
    child that has a value, with a default exactly when that value holds a
    non-empty [Default]. *)
Theorem child_template_is_recorded (host : Host) (fullText parentPath : string)
    (acc : SubStackReferenceables) (nodePair propertiesNode documentContents : Node)
    (templateUrl : string) (document : Document) (childOutputs childParameters : JsValue)
    (ds : list Diagnostic) :
  getOf (value_of nodePair) "Properties" = Ok (NodeRef propertiesNode) ->
  get propertiesNode "TemplateURL" = Ok (Str templateUrl) ->
  bindO (readFileSync host (parentPath +:+ "/" +:+ templateUrl)) (parseDocument host)
  = Ok document ->
  contents document = Some documentContents ->
  get documentContents "Outputs" = Ok childOutputs ->
  get documentContents "Parameters" = Ok childParameters ->
  Forall readable (declaredItems childParameters) ->
  subStackReferenceablesOf host fullText parentPath acc nodePair ds
  = (Ok (mkSubStack
           (outputs acc ++ outputNames (stringKey_of nodePair) childOutputs)
           (<[templateUrl := List.flat_map declaredParameter (declaredItems childParameters)]>
              (parameters acc))),
     ds).
Proof.
  intros Hprops Hurl Hload Hcontents Houtputs Hparameters Hreadable.
  apply (subStackReferenceablesOf_loaded host fullText parentPath acc nodePair propertiesNode
           documentContents templateUrl document childOutputs childParameters ds);
    assumption.
Qed.

(** X16: a sub stack without [Properties], or with [Properties] that are
    no collection, ends the pass with an exception before any reference is
    checked: the diagnostics of the document are then at most load failures
    of child templates. *)
Theorem sub_stack_without_properties_ends_the_pass (host : Host)
    (fullText fileName : string) (document : Document) (pairs : list Node) :
  parseDocument host fullText = Ok document ->
  findSubStackNodePairs document = Ok pairs ->
  Exists (fun pair => forall propertiesNode,
            getOf (value_of pair) "Properties" <> Ok (NodeRef propertiesNode)) pairs ->
  (exists error, fst (analyse host fullText fileName []) = Throw error)
  /\ Forall isLoadFailure (checkYaml host fullText fileName).
Proof.
  intros Hparse Hpairs Hbad.
  assert (Hcollector :
    exists error extra,
      getReferenceables host fullText fileName [] = (Throw error, extra)
      /\ Forall isLoadFailure extra).
  { unfold getReferenceables. rewrite bindM_lift, Hparse.
    unfold findSubStackNodePairs in Hpairs.
    destruct (contents document) as [c|] eqn:Hc;
      [|injection Hpairs as <-; inversion Hbad].
    destruct c as [| |type tag items range0];
      try (cbn [items_of] in Hpairs; injection Hpairs as <-; inversion Hbad).
    cbn [items_of] in Hpairs.
    do 4 (rewrite bindM_lift, get_collection; cbn beta iota).
    rewrite bindM_lift. unfold findSubStackNodePairs. rewrite Hc. cbn [items_of].
    rewrite Hpairs.
    unfold bindM, getSubStackReferenceables, getSubStackReferenceablesFrom.
    set (parentPath := substring fileName 0 (lastIndexOf fileName "/")).
    destruct (foldM_throws pairs (subStackReferenceablesOf host fullText parentPath))
      with (s := mkSubStack [] ∅) (ds := @nil Diagnostic) as [error Herror].
    - eapply List.Exists_impl; [|exact Hbad]. cbn beta. intros pair Hpair acc ds.
      unfold subStackReferenceablesOf. rewrite bindM_lift.
      destruct (getOf (value_of pair) "Properties") as [[|s|propertiesNode]|e] eqn:Hp;
        try (eexists; reflexivity).
      exfalso. exact (Hpair propertiesNode eq_refl).
    - destruct (addsOnly_foldM isLoadFailure pairs
                  (subStackReferenceablesOf host fullText parentPath)
                  (addsOnly_subStackReferenceablesOf host fullText parentPath)
                  (mkSubStack [] ∅) []) as [extra [Hextra Hall]].
      destruct (foldM pairs (subStackReferenceablesOf host fullText parentPath)
                      (mkSubStack [] ∅) []) as [[result|e] ds'];
        cbn [fst snd] in *; [discriminate|].
      exists e, extra. subst ds'. split; [reflexivity | exact Hall]. }
  destruct Hcollector as (error & extra & Hrun & Hall).
  assert (Hpass : analyse host fullText fileName [] = (Throw error, extra)).
  { unfold analyse. rewrite bindM_lift, Hparse. unfold bindM at 1. rewrite Hrun.
    reflexivity. }
  unfold checkYaml. rewrite Hpass. split; [exists error; reflexivity | exact Hall].
Qed.

End SubStackSearchProperties.

Module SubStackSearchEvidence.
Import Js Yaml CloudformationYaml Measures Scenarios SubStackSearchProperties.

Lemma found_pairs_are_sub_stacks_witness :
  findSubStackNodePairs parentDocument = Ok [childResource]
  /\ Forall isSubStack [childResource].
Proof.
  split; [reflexivity|].
  apply (found_pairs_are_sub_stacks parentDocument). reflexivity.
Defined.

Lemma sub_stack_is_found_whole_witness :
  getSubStackNodePairs (Some handingResource) = Ok [handingResource].
Proof.
  apply sub_stack_is_found_whole.
  eexists. split; [reflexivity|]. split; reflexivity.
Defined.

Lemma child_template_is_recorded_witness :
  subStackReferenceablesOf (hostOf parentText parentDocument childFiles) parentText
    "/templates" (mkSubStack [] ∅) childResource []
  = (Ok (mkSubStack
           ([] ++ outputNames (stringKey_of childResource)
                    (NodeRef (block [entry "Bucket" 86
                                       (block [entry "Value" 98 (plain "b" 105)] 98)] 86)))
           (<["child.yaml" :=
                List.flat_map declaredParameter
                  (declaredItems
                     (NodeRef (block
                        [entry "Foo" 14 (block [entry "Type" 23 (plain "String" 29)] 23);
                         entry "Bar" 38 (block [entry "Type" 47 (plain "String" 53);
                                                entry "Default" 64 (plain "x" 73)] 47)]
                        14)))]> ∅)),
     []).
Proof.
  refine (child_template_is_recorded (hostOf parentText parentDocument childFiles) parentText
            "/templates" (mkSubStack [] ∅) childResource childProperties _ "child.yaml"
            childDocument _ _ [] eq_refl eq_refl eq_refl eq_refl eq_refl eq_refl _).
  repeat constructor.
Defined.

Lemma sub_stack_without_properties_ends_the_pass_witness :
  (exists error,
     fst (analyse (hostOf bareText bareDocument []) bareText "/templates/parent.yaml" [])
     = Throw error)
  /\ Forall isLoadFailure
       (checkYaml (hostOf bareText bareDocument []) bareText "/templates/parent.yaml").
Proof.
  apply (sub_stack_without_properties_ends_the_pass _ _ _ bareDocument [bareResource]);
    [reflexivity | reflexivity |].
  apply Exists_cons_hd. intros propertiesNode H. discriminate H.
Defined.

End SubStackSearchEvidence.

(** * The matcher on names without duplicates *)

Module MatcherFacts.
Import Js Yaml CloudformationYaml Measures PassFacts AnalysisFacts.

Lemma existsb_eqb_In (k : string) (l : list string) :
  List.existsb (String.eqb k) l = true <-> In k l.
Proof.
  rewrite List.existsb_exists. split.
  - intros [x [Hin Hx]]. apply String.eqb_eq in Hx. subst x. exact Hin.
  - intros Hin. exists k. split; [exact Hin | apply String.eqb_refl].
Qed.

Lemma existsb_eqb_ext (k : string) (l1 l2 : list string) :
  (In k l1 <-> In k l2) ->
  List.existsb (String.eqb k) l1 = List.existsb (String.eqb k) l2.
Proof.
  intros H. destruct (List.existsb (String.eqb k) l1) eqn:E1,
                     (List.existsb (String.eqb k) l2) eqn:E2; try reflexivity.
  - apply existsb_eqb_In, H, existsb_eqb_In in E1. congruence.
  - apply existsb_eqb_In, H, existsb_eqb_In in E2. congruence.
Qed.

Lemma filter_nothing {A : Type} (f : A -> bool) (l : list A) :
  (forall x, In x l -> f x = false) -> List.filter f l = [].
Proof.
  induction l as [|x l IH]; intros H; [reflexivity|].
  cbn [List.filter]. rewrite (H x (or_introl eq_refl)).
  apply IH. intros y Hy. apply H. right. exact Hy.
Qed.

Lemma removeMatching_none (k : string) (l : list ParameterReferenceable) :
  removeMatching (Some k) l = None -> ~ In k (List.map parameterName l).
Proof.
  induction l as [|p l IH]; intros H Hin; [destruct Hin|].
  cbn [removeMatching optionStringEqb] in H.
  destruct (String.eqb k (parameterName p)) eqn:E; [discriminate|].
  destruct (removeMatching (Some k) l); [discriminate|].
  destruct Hin as [Hin|Hin]; [|exact (IH eq_refl Hin)].
  cbn in Hin. subst k. rewrite String.eqb_refl in E. discriminate.
Qed.

Lemma removeMatching_some (k : string) (l r : list ParameterReferenceable) :
  removeMatching (Some k) l = Some r -> In k (List.map parameterName l).
Proof.
  intros H. destruct (List.in_dec String.string_dec k (List.map parameterName l)) as [Hin|Hn];
    [exact Hin|].
  rewrite (removeMatching_absent _ _ Hn) in H. discriminate.
Qed.

(** Without duplicates among the names, what is left is the list without
    the parameters of the name. *)
Lemma removeMatching_filter (k : string) (l : list ParameterReferenceable) :
  NoDup (List.map parameterName l) ->
  forall r,
    removeMatching (Some k) l = Some r ->
    r = List.filter (fun d => negb (String.eqb (parameterName d) k)) l
    /\ NoDup (List.map parameterName r).
Proof.
  induction l as [|p l IH]; intros Hnd r H; [discriminate|].
  cbn [List.map] in Hnd. apply NoDup_cons in Hnd. destruct Hnd as [Hp Hnd].
  cbn [removeMatching optionStringEqb] in H. cbn [List.filter].
  destruct (String.eqb k (parameterName p)) eqn:E.
  - injection H as <-. apply String.eqb_eq in E. subst k.
    rewrite String.eqb_refl. cbn [negb]. split; [|exact Hnd].
    clear IH Hnd. induction l as [|d l IHl]; [reflexivity|].
    cbn [List.filter]. destruct (String.eqb (parameterName d) (parameterName p)) eqn:Ed.
    + apply String.eqb_eq in Ed. exfalso. apply Hp. apply list_elem_of_In. left.
      exact Ed.
    + cbn [negb]. f_equal. apply IHl. intros Hin. apply Hp.
      apply list_elem_of_In. right. apply list_elem_of_In. exact Hin.
  - destruct (removeMatching (Some k) l) as [r'|] eqn:Hr; [|discriminate].
    cbn [option_map] in H. injection H as <-.
    destruct (IH Hnd r' eq_refl) as [Hfilter Hnd'].
    rewrite String.eqb_sym, E. cbn [negb]. split; [f_equal; exact Hfilter|].
    cbn [List.map]. apply NoDup_cons. split; [|exact Hnd'].
    intros Hin. apply Hp. apply list_elem_of_In. apply list_elem_of_In in Hin.
    apply List.in_map_iff in Hin. destruct Hin as [d [Hd Hin]].
    apply List.in_map_iff. exists d. split; [exact Hd|].
    apply (removeMatching_subset _ _ _ Hr). exact Hin.
Qed.

Lemma removeMatching_names (k k' : string) (l r : list ParameterReferenceable) :
  removeMatching (Some k) l = Some r -> k' <> k ->
  (In k' (List.map parameterName r) <-> In k' (List.map parameterName l)).
Proof.
  intros H Hne. split; intros Hin; apply List.in_map_iff in Hin;
    destruct Hin as [d [Hd Hin]]; apply List.in_map_iff; exists d; (split; [exact Hd|]).
  - apply (removeMatching_subset _ _ _ H). exact Hin.
  - apply (removeMatching_keeps _ _ _ _ H Hin). congruence.
Qed.

(** The handed-over parameters that the matcher reports. *)
Lemma matchSupplied_reported (supplied : list SuppliedParameter) :
  NoDup (List.map suppliedName supplied) ->
  forall declared,
    fst (matchSupplied supplied declared) = List.filter (notDeclared declared) supplied.
Proof.
  induction supplied as [|q rest IH]; intros Hnd declared; [reflexivity|].
  cbn [List.map] in Hnd. apply NoDup_cons in Hnd. destruct Hnd as [Hq Hnd].
  cbn [matchSupplied List.filter]. unfold notDeclared at 1.
  destruct (removeMatching (Some (suppliedName q)) declared) as [remaining|] eqn:Hrem.
  - pose proof (removeMatching_some _ _ _ Hrem) as Hin.
    apply existsb_eqb_In in Hin. rewrite Hin. cbn [negb]. rewrite (IH Hnd).
    apply List.filter_ext_in. intros p Hp. unfold notDeclared. f_equal.
    apply existsb_eqb_ext. apply (removeMatching_names _ _ _ _ Hrem).
    intros Heq. apply Hq. apply list_elem_of_In. apply List.in_map_iff.
    exists p. split; [exact Heq | exact Hp].
  - pose proof (removeMatching_none _ _ Hrem) as Hn.
    destruct (List.existsb (String.eqb (suppliedName q)) (List.map parameterName declared))
      eqn:E; [apply existsb_eqb_In in E; contradiction|].
    cbn [negb]. specialize (IH Hnd declared).
    destruct (matchSupplied rest declared) as [unknown remaining]. cbn [fst] in *.
    rewrite IH. reflexivity.
Qed.

(** The declared parameters that the matcher leaves over. *)
Lemma matchSupplied_left_over (supplied : list SuppliedParameter) :
  forall declared,
    NoDup (List.map parameterName declared) ->
    snd (matchSupplied supplied declared) = List.filter (notSupplied supplied) declared.
Proof.
  induction supplied as [|q rest IH]; intros declared Hnd.
  - cbn [matchSupplied snd]. clear Hnd. induction declared as [|d l IHl]; [reflexivity|].
    cbn. f_equal. exact IHl.
  - cbn [matchSupplied].
    destruct (removeMatching (Some (suppliedName q)) declared) as [remaining|] eqn:Hrem.
    + destruct (removeMatching_filter _ _ Hnd _ Hrem) as [Hfilter Hnd'].
      rewrite (IH remaining Hnd'), Hfilter. clear.
      induction declared as [|d l IHl]; [reflexivity|].
      cbn [List.filter]. unfold notSupplied at 2. cbn [List.map List.existsb].
      destruct (String.eqb (parameterName d) (suppliedName q)); cbn [negb orb List.filter];
        [exact IHl|].
      fold (notSupplied rest d). destruct (notSupplied rest d); [f_equal|]; exact IHl.
    + pose proof (removeMatching_none _ _ Hrem) as Hn.
      specialize (IH declared Hnd).
      destruct (matchSupplied rest declared) as [unknown remaining]. cbn [snd] in *.
      rewrite IH. apply List.filter_ext_in. intros d Hd. unfold notSupplied.
      cbn [List.map List.existsb].
      destruct (String.eqb (parameterName d) (suppliedName q)) eqn:E; [|reflexivity].
      apply String.eqb_eq in E. exfalso. apply Hn. rewrite <- E.
      apply List.in_map. exact Hd.
Qed.

(** The matcher on a sub stack with a literal [TemplateURL] and a
    [Parameters] block. *)
Lemma checkSubStack_run (host : Host) (fullText : string)
    (subStackReferenceables : SubStackReferenceables)
    (subStackNodePair subStackNodeValue propertiesPair properties : Node)
    (templateUrl : string)
    (blockTag : option string) (blockKey : KeyNode) (blockName : string)
    (blockType : NodeType) (blockValueTag : option string) (blockRange : Z)
    (supplied : list SuppliedParameter) (declared : list ParameterReferenceable)
    (ds : list Diagnostic) :
  value_of subStackNodePair = NodeRef subStackNodeValue ->
  getNodeItemByStringKey subStackNodeValue "Properties" = Some propertiesPair ->
  getNodeValueIfPair propertiesPair = Some properties ->
  get properties "TemplateURL" = Ok (Str templateUrl) ->
  getNodeItemByStringKey properties "Parameters"
  = Some (Pair blockTag blockKey blockName
            (Some (Collection blockType blockValueTag
                     (List.map suppliedPair supplied) blockRange))) ->
  parameters subStackReferenceables !! templateUrl = Some declared ->
  checkSubStack host fullText subStackReferenceables subStackNodePair ds
  = (Ok tt,
     ds ++ List.map (unknownParameterDiagnostic host fullText)
             (fst (matchSupplied supplied declared))
        ++ List.map (missingParameterDiagnostic host fullText blockKey)
             (snd (matchSupplied supplied declared))).
Proof.
  intros Hvalue Hprops Hproperties Hurl Hblock Hdeclared.
  unfold checkSubStack. rewrite Hvalue, Hprops.
  unfold bindM at 1, lift at 1, valueOfItem at 1. rewrite Hproperties.
  unfold bindM at 1, lift at 1. rewrite Hurl.
  unfold bindM at 1, lift at 1, valueOfItem at 1. rewrite Hblock.
  cbn [getNodeValueIfPair items_of]. rewrite Hdeclared.
  unfold bindM at 1. rewrite checkSuppliedParameters_run.
  destruct (snd (matchSupplied supplied declared)) as [|d remaining] eqn:Hrem.
  - unfold ret. cbn [List.map]. rewrite List.app_nil_r. reflexivity.
  - cbn [key_of].
    rewrite (forEach_appends _ _
               (fun p => [missingParameterDiagnostic host fullText blockKey p]))
      by (intros; reflexivity).
    rewrite concat_map_singleton, <- List.app_assoc. reflexivity.
Qed.

End MatcherFacts.

Module MatcherProperties.
Import Js Yaml CloudformationYaml Measures PassFacts MatcherFacts.

(** X17: when no name is handed over twice and no name is declared twice,
    the matcher reports exactly the handed-over parameters whose name the
    child does not declare, in their order, and then exactly the declared
    parameters whose name is not handed over, in the order of their
    declaration; so a parent that hands over all the declared names and no
    other, in whatever order, gets no diagnostic for the sub stack. *)
Theorem matcher_without_duplicates (host : Host) (fullText : string)
    (subStackReferenceables : SubStackReferenceables)
    (subStackNodePair subStackNodeValue propertiesPair properties : Node)
    (templateUrl : string)
    (blockTag : option string) (blockKey : KeyNode) (blockName : string)
    (blockType : NodeType) (blockValueTag : option string) (blockRange : Z)
    (supplied : list SuppliedParameter) (declared : list ParameterReferenceable)
    (ds : list Diagnostic) :
  value_of subStackNodePair = NodeRef subStackNodeValue ->
  getNodeItemByStringKey subStackNodeValue "Properties" = Some propertiesPair ->
  getNodeValueIfPair propertiesPair = Some properties ->
  get properties "TemplateURL" = Ok (Str templateUrl) ->
  getNodeItemByStringKey properties "Parameters"
  = Some (Pair blockTag blockKey blockName
            (Some (Collection blockType blockValueTag
                     (List.map suppliedPair supplied) blockRange))) ->
  parameters subStackReferenceables !! templateUrl = Some declared ->
  NoDup (List.map suppliedName supplied) ->
  NoDup (List.map parameterName declared) ->
  checkSubStack host fullText subStackReferenceables subStackNodePair ds
  = (Ok tt,
     ds ++ List.map (unknownParameterDiagnostic host fullText)
             (List.filter (notDeclared declared) supplied)
        ++ List.map (missingParameterDiagnostic host fullText blockKey)
             (List.filter (notSupplied supplied) declared))
  /\ ((forall p, In p supplied -> In (suppliedName p) (List.map parameterName declared)) ->
      (forall d, In d declared -> In (parameterName d) (List.map suppliedName supplied)) ->
      checkSubStack host fullText subStackReferenceables subStackNodePair ds = (Ok tt, ds)).
Proof.
  intros Hvalue Hprops Hproperties Hurl Hblock Hdeclared Hsupplied Hnames.
  assert (Hrun :
    checkSubStack host fullText subStackReferenceables subStackNodePair ds
    = (Ok tt,
       ds ++ List.map (unknownParameterDiagnostic host fullText)
               (List.filter (notDeclared declared) supplied)
          ++ List.map (missingParameterDiagnostic host fullText blockKey)
               (List.filter (notSupplied supplied) declared))).
  { rewrite (checkSubStack_run _ _ _ _ _ _ _ _ _ _ _ _ _ _ _ _ _
               Hvalue Hprops Hproperties Hurl Hblock Hdeclared).
    rewrite (matchSupplied_reported _ Hsupplied), (matchSupplied_left_over _ _ Hnames).
    reflexivity. }
  split; [exact Hrun|]. intros Hall Hevery. rewrite Hrun.
  rewrite (filter_nothing (notDeclared declared) supplied),
          (filter_nothing (notSupplied supplied) declared).
  - cbn [List.map List.app]. rewrite List.app_nil_r. reflexivity.
  - intros d Hd. unfold notSupplied.
    rewrite (proj2 (existsb_eqb_In _ _) (Hevery d Hd)). reflexivity.
  - intros p Hp. unfold notDeclared.
    rewrite (proj2 (existsb_eqb_In _ _) (Hall p Hp)). reflexivity.
Qed.

End MatcherProperties.

Module MatcherEvidence.
Import Js Yaml CloudformationYaml Measures Scenarios MatcherProperties.

Lemma matcher_without_duplicates_witness :
  checkSubStack (hostOf handingText handingDocument childFiles) handingText
    (mkSubStack ["Child.Outputs.Bucket"]
       {[ "child.yaml" := [mkParameter "Foo" false; mkParameter "Bar" true] ]})
    handingResource []
  = (Ok tt,
     [] ++ List.map (unknownParameterDiagnostic (hostOf handingText handingDocument childFiles)
                       handingText)
             (List.filter
                (notDeclared [mkParameter "Foo" false; mkParameter "Bar" true])
                [fooParameter])
        ++ List.map (missingParameterDiagnostic (hostOf handingText handingDocument childFiles)
                       handingText (mkKey 109))
             (List.filter (notSupplied [fooParameter])
                          [mkParameter "Foo" false; mkParameter "Bar" true])).
Proof.
  refine (proj1 (matcher_without_duplicates (hostOf handingText handingDocument childFiles)
                   handingText
                   (mkSubStack ["Child.Outputs.Bucket"]
                      {[ "child.yaml" := [mkParameter "Foo" false; mkParameter "Bar" true] ]})
                   handingResource
                   (block [entry "Type" 24 (plain "AWS::CloudFormation::Stack" 30);
                           entry "Properties" 61 handingProperties] 24)
                   (entry "Properties" 61 handingProperties) handingProperties
                   "child.yaml" None (mkKey 109) "Parameters" MAP None 129
                   [fooParameter] [mkParameter "Foo" false; mkParameter "Bar" true] []
                   eq_refl eq_refl eq_refl eq_refl eq_refl eq_refl _ _)).
  - repeat constructor. intros H. apply elem_of_nil in H. exact H.
  - repeat constructor.
    + intros H. apply elem_of_cons in H. destruct H as [H|H]; [discriminate H|].
      apply elem_of_nil in H. exact H.
    + intros H. apply elem_of_nil in H. exact H.
Defined.

End MatcherEvidence.

(** * The pass as a whole *)

Module PassOrderFacts.
Import Js Yaml CloudformationYaml Measures PassFacts AnalysisFacts ResolutionFacts
       SubStackSearchFacts.

Lemma appends_ret {A : Type} (a : A) : appends (ret a).
Proof. intros ds. unfold ret. cbn. rewrite List.app_nil_r. reflexivity. Qed.

Lemma appends_throw {A : Type} (e : string) : appends (@throw A e).
Proof. intros ds. unfold throw. cbn. rewrite List.app_nil_r. reflexivity. Qed.

Lemma appends_lift {A : Type} (o : Outcome A) : appends (lift o).
Proof. intros ds. unfold lift. cbn. rewrite List.app_nil_r. reflexivity. Qed.

Lemma appends_addDiagnostic (d : Diagnostic) : appends (addDiagnostic d).
Proof. intros ds. reflexivity. Qed.

Lemma appends_bindM {A B : Type} (m : M A) (f : A -> M B) :
  appends m -> (forall a, appends (f a)) -> appends (bindM m f).
Proof.
  intros Hm Hf ds. unfold bindM. rewrite (Hm ds).
  destruct (m []) as [[a|e] added]; cbn [fst snd].
  - rewrite (Hf a (ds ++ added)), (Hf a added). cbn [fst snd].
    rewrite List.app_assoc. reflexivity.
  - reflexivity.
Qed.

Lemma appends_forEach {A : Type} (l : list A) (f : A -> M unit) :
  (forall x, appends (f x)) -> appends (forEach l f).
Proof.
  intros Hf. induction l as [|x l IH]; [apply appends_ret|].
  cbn [forEach]. apply appends_bindM; [apply Hf | intros _; exact IH].
Qed.

Lemma appends_foldM {A S : Type} (l : list A) (f : S -> A -> M S) :
  (forall s x, appends (f s x)) -> forall s, appends (foldM l f s).
Proof.
  intros Hf. induction l as [|x l IH]; intros s; [apply appends_ret|].
  cbn [foldM]. apply appends_bindM; [apply Hf | intros s'; apply IH].
Qed.

Ltac appends_step :=
  first
    [ apply appends_ret
    | apply appends_throw
    | apply appends_lift
    | apply appends_addDiagnostic
    | apply appends_bindM; [|intros ?]
    | apply appends_forEach; intros ?
    | apply appends_foldM; intros ? ?
    | match goal with
      | |- appends (match ?x with _ => _ end) => destruct x
      end ].

(** What the matcher adds does not depend on what the collection holds. *)
Lemma appends_buildInvalidSubStackParameterDiagnostics (host : Host) (fullText : string)
    (subStackReferenceables : SubStackReferenceables) (subStackNodePairs : list Node) :
  appends (buildInvalidSubStackParameterDiagnostics host fullText subStackReferenceables
             subStackNodePairs).
Proof.
  unfold buildInvalidSubStackParameterDiagnostics.
  apply appends_forEach. intros pair.
  unfold checkSubStack, checkSuppliedParameter, reportMissingParameter.
  repeat appends_step.
Qed.

Lemma referencesOf_concat (nodes : list Node) (referencesOfNodes : list (list Reference)) :
  List.map references_of nodes = List.map Some referencesOfNodes ->
  List.concat referencesOfNodes = referencesOf nodes.
Proof.
  revert referencesOfNodes.
  induction nodes as [|n nodes IH]; intros [|refs rss] H; try discriminate; [reflexivity|].
  cbn [List.map] in H. injection H as Hn Hrest.
  unfold referencesOf. cbn [List.concat List.flat_map]. rewrite Hn. cbn [default].
  f_equal. apply IH. exact Hrest.
Qed.

(** The reference diagnostics of the nodes that the extractor returns. *)
Lemma reference_diagnostics_of_extracted (host : Host) (fullText : string)
    (referenceables : Referenceables) (document : Document) (nodes : list Node)
    (ds : list Diagnostic) :
  getNodesWhichReference document = Ok nodes ->
  buildInvalidReferenceDiagnostics host fullText referenceables nodes ds
  = (Ok tt,
     ds ++ List.map (referenceDiagnostic host fullText)
             (List.filter (fun reference => negb (resolvesb referenceables reference))
                          (referencesOf nodes))).
Proof.
  intros Hnodes.
  destruct (holdsReferences_lists _ (getNodesWhichReference_holds _ _ Hnodes))
    as [referencesOfNodes Hlists].
  rewrite (PassFacts.buildInvalidReferenceDiagnostics_run _ _ _ _ _ _ Hlists).
  rewrite (referencesOf_concat _ _ Hlists). reflexivity.
Qed.

(** The referenceables of a document that declares no sub stack. *)
Lemma getReferenceables_local (host : Host) (fullText fileName : string)
    (document : Document) (type : NodeType) (tag : option string) (items : list Node)
    (range0 : Z) (ds : list Diagnostic) :
  parseDocument host fullText = Ok document ->
  contents document = Some (Collection type tag items range0) ->
  findSubStackNodePairs document = Ok [] ->
  getReferenceables host fullText fileName ds = (Ok (localReferenceables document), ds).
Proof.
  intros Hparse Hc Hpairs. unfold getReferenceables. rewrite bindM_lift, Hparse.
  cbn beta iota. rewrite Hc.
  do 4 (rewrite bindM_lift, get_collection; cbn beta iota).
  rewrite bindM_lift, Hpairs. cbn beta iota.
  destruct document as [c]. cbn [contents] in Hc. subst c. reflexivity.
Qed.

End PassOrderFacts.

Module PassOrderProperties.
Import Js Yaml CloudformationYaml Measures PassFacts AnalysisFacts ResolutionFacts
       SubStackSearchFacts CollectorFacts PassOrderFacts.

(** X18: a text that the parser refuses, and a document whose contents are
    absent or no collection, get no diagnostic: the exception, if any, is
    caught. *)
Theorem unreadable_document_gives_nothing (host : Host) (fullText fileName : string) :
  (forall document node,
     parseDocument host fullText = Ok document ->
     contents document = Some node -> items_of node = None) ->
  checkYaml host fullText fileName = [].
Proof.
  intros Hnone. unfold checkYaml, analyse. rewrite bindM_lift.
  destruct (parseDocument host fullText) as [document|error] eqn:Hparse; [|reflexivity].
  specialize (Hnone document).
  unfold bindM at 1. unfold getReferenceables. rewrite bindM_lift, Hparse. cbn beta iota.
  unfold getNodesWhichReference, findSubStackNodePairs, documentGet.
  destruct (contents document) as [node|].
  - specialize (Hnone node eq_refl eq_refl).
    destruct node as [| |type tag items range0]; try discriminate; reflexivity.
  - reflexivity.
Qed.

(** X19: for a document that declares no sub stack, the diagnostics of one
    pass are exactly the diagnostics of the references that the extractor
    returns and that do not resolve against the keys of the [Parameters],
    [Resources], [Conditions] and [Mappings] of the document, in the order
    of extraction; a reference of kind GetAtt never resolves there. *)
Theorem pass_without_sub_stacks (host : Host) (fullText fileName : string)
    (document : Document) (type : NodeType) (tag : option string) (items : list Node)
    (range0 : Z) (nodes : list Node) :
  parseDocument host fullText = Ok document ->
  contents document = Some (Collection type tag items range0) ->
  findSubStackNodePairs document = Ok [] ->
  getNodesWhichReference document = Ok nodes ->
  checkYaml host fullText fileName
  = List.map (referenceDiagnostic host fullText)
      (List.filter (fun reference => negb (resolvesb (localReferenceables document) reference))
                   (referencesOf nodes))
  /\ (forall reference,
        refType reference = GET_ATT ->
        resolvesb (localReferenceables document) reference = false).
Proof.
  intros Hparse Hc Hpairs Hnodes. split.
  - unfold checkYaml, analyse. rewrite bindM_lift, Hparse. unfold bindM at 1.
    rewrite (getReferenceables_local _ _ _ _ _ _ _ _ _ Hparse Hc Hpairs).
    rewrite bindM_lift, Hnodes. unfold bindM at 1.
    rewrite (reference_diagnostics_of_extracted _ _ _ _ _ _ Hnodes).
    rewrite bindM_lift, Hpairs. reflexivity.
  - intros reference Hkind. unfold resolvesb. rewrite Hkind. reflexivity.
Qed.

(** X20: the diagnostics of one pass come in the order of its three parts:
    first what the collection of the referenceables adds, which are load
    failures of child templates only; then the diagnostics of the extracted
    references that do not resolve; then what the matcher adds for the sub
    stacks, up to an exception if it throws. *)
Theorem pass_diagnostics_in_order (host : Host) (fullText fileName : string)
    (document : Document) (referenceables : Referenceables)
    (loadFailures : list Diagnostic) (nodes pairs : list Node) :
  parseDocument host fullText = Ok document ->
  getReferenceables host fullText fileName [] = (Ok referenceables, loadFailures) ->
  getNodesWhichReference document = Ok nodes ->
  findSubStackNodePairs document = Ok pairs ->
  checkYaml host fullText fileName
  = loadFailures
    ++ List.map (referenceDiagnostic host fullText)
         (List.filter (fun reference => negb (resolvesb referenceables reference))
                      (referencesOf nodes))
    ++ snd (buildInvalidSubStackParameterDiagnostics host fullText
              (subStackReferenceables referenceables) pairs [])
  /\ Forall isLoadFailure loadFailures.
Proof.
  intros Hparse Hrefs Hnodes Hpairs. split.
  - unfold checkYaml, analyse. rewrite bindM_lift, Hparse. unfold bindM at 1. rewrite Hrefs.
    rewrite bindM_lift, Hnodes. unfold bindM at 1.
    rewrite (reference_diagnostics_of_extracted _ _ _ _ _ _ Hnodes).
    rewrite bindM_lift, Hpairs.
    rewrite (appends_buildInvalidSubStackParameterDiagnostics host fullText
               (subStackReferenceables referenceables) pairs).
    cbn [snd]. rewrite List.app_assoc. reflexivity.
  - assert (Hadds : addsOnly isLoadFailure (getReferenceables host fullText fileName)).
    { unfold getReferenceables.
      apply addsOnly_bindM; [apply addsOnly_lift|]. intros d.
      destruct (contents d); [|apply addsOnly_ret].
      repeat (apply addsOnly_bindM; [apply addsOnly_lift|]; intros ?).
      apply addsOnly_bindM; [|intros; apply addsOnly_ret].
      apply addsOnly_foldM. intros. apply addsOnly_subStackReferenceablesOf. }
    destruct (Hadds []) as [extra [Hextra Hall]]. rewrite Hrefs in Hextra.
    cbn [snd List.app] in Hextra. subst extra. exact Hall.
Qed.

End PassOrderProperties.

Module PassOrderEvidence.
Import Js Yaml CloudformationYaml Measures Scenarios PassOrderProperties.

Lemma unreadable_document_gives_nothing_witness :
  checkYaml (hostOf bucketText bucketDocument []) "Resources: [" "/stacks/bucket.yaml" = [].
Proof.
  apply unreadable_document_gives_nothing.
  intros document node H. discriminate H.
Defined.

Lemma pass_without_sub_stacks_witness :
  checkYaml (hostOf regionText (regionDocumentOf PLAIN) []) regionText "/stacks/region.yaml"
  = List.map (referenceDiagnostic (hostOf regionText (regionDocumentOf PLAIN) []) regionText)
      (List.filter
         (fun reference =>
            negb (resolvesb (localReferenceables (regionDocumentOf PLAIN)) reference))
         (referencesOf
            [Scalar PLAIN (Some "!Sub") (Some "BucketName") "${AWS::Region}-logs" 81
               (Some [mkReference SUB "AWS::Region" 88])])).
Proof.
  exact (proj1 (pass_without_sub_stacks (hostOf regionText (regionDocumentOf PLAIN) [])
                  regionText "/stacks/region.yaml" (regionDocumentOf PLAIN) MAP None _ 0
                  [Scalar PLAIN (Some "!Sub") (Some "BucketName") "${AWS::Region}-logs" 81
                     (Some [mkReference SUB "AWS::Region" 88])]
                  eq_refl eq_refl eq_refl eq_refl)).
Defined.

Lemma pass_diagnostics_in_order_witness :
  checkYaml (hostOf handingText handingDocument []) handingText "/templates/parent.yaml"
  = [createDiagnostic (positionOf handingText 92) 10 Error
       (loadFailureMessage "/templates/child.yaml" "ENOENT")]
    ++ List.map (referenceDiagnostic (hostOf handingText handingDocument []) handingText)
         (List.filter
            (fun reference =>
               negb (resolvesb
                       (mkReferenceables (mkSubStack [] (<["child.yaml" := []]> ∅))
                          [] [Some "Child"] [] [])
                       reference))
            (referencesOf []))
    ++ snd (buildInvalidSubStackParameterDiagnostics
              (hostOf handingText handingDocument []) handingText
              (mkSubStack [] (<["child.yaml" := []]> ∅)) [handingResource] []).
Proof.
  exact (proj1 (pass_diagnostics_in_order (hostOf handingText handingDocument []) handingText
                  "/templates/parent.yaml" handingDocument
                  (mkReferenceables (mkSubStack [] (<["child.yaml" := []]> ∅))
                     [] [Some "Child"] [] [])
                  [createDiagnostic (positionOf handingText 92) 10 Error
                     (loadFailureMessage "/templates/child.yaml" "ENOENT")]
                  [] [handingResource] eq_refl eq_refl eq_refl eq_refl)).
Defined.

End PassOrderEvidence.

(** * The directory of the child templates *)

Module ParentPathFacts.
Import Js Yaml CloudformationYaml Measures JsFacts AnalysisFacts SubStackSearchFacts.

Lemma strlen_app (a b : string) : strlen (a +:+ b) = strlen a + strlen b.
Proof. unfold strlen. rewrite length_app. lia. Qed.

Lemma lastIndexOfFrom_app (c : ascii) (a b : string) :
  forall idx found,
    lastIndexOfFrom c idx found (a +:+ b)
    = lastIndexOfFrom c (idx + strlen a) (lastIndexOfFrom c idx found a) b.
Proof.
  induction a as [|d a IH]; intros idx found.
  - cbn. f_equal. unfold strlen. cbn. lia.
  - change (String d a +:+ b) with (String d (a +:+ b)). cbn [lastIndexOfFrom].
    rewrite IH. f_equal. unfold strlen. cbn [String.length]. lia.
Qed.

Lemma lastIndexOfFrom_noSlash (s : string) :
  noSlash s = true -> forall idx found, lastIndexOfFrom "/" idx found s = found.
Proof.
  induction s as [|c s IH]; intros H idx found; [reflexivity|].
  cbn [noSlash] in H. apply andb_true_iff in H. destruct H as [Hc Hs].
  cbn [lastIndexOfFrom]. apply negb_true_iff in Hc. rewrite Hc. apply IH. exact Hs.
Qed.

Lemma substring_prefix (a b : string) : substring (a +:+ b) 0 (strlen a) = a.
Proof.
  unfold substring, clamp. rewrite strlen_app.
  assert (Ha : 0 <= strlen a) by (unfold strlen; lia).
  assert (Hb : 0 <= strlen b) by (unfold strlen; lia).
  replace (Z.max 0 (Z.min 0 (strlen a + strlen b))) with 0 by lia.
  replace (Z.max 0 (Z.min (strlen a) (strlen a + strlen b))) with (strlen a) by lia.
  replace (Z.min 0 (strlen a)) with 0 by lia.
  replace (Z.max 0 (strlen a) - 0) with (strlen a) by lia.
  unfold strlen. rewrite Nat2Z.id. apply substring_0_app.
Qed.

Lemma substring_nothing (s : string) : substring s 0 (-1) = "".
Proof.
  unfold substring, clamp.
  assert (Hs : 0 <= strlen s) by (unfold strlen; lia).
  replace (Z.max 0 (Z.min 0 (strlen s))) with 0 by lia.
  replace (Z.max 0 (Z.min (-1) (strlen s))) with 0 by lia.
  destruct s; reflexivity.
Qed.

(** The text before the last slash of a file name. *)
Lemma parent_of_file (dir base : string) :
  noSlash base = true ->
  substring (dir +:+ "/" +:+ base) 0 (lastIndexOf (dir +:+ "/" +:+ base) "/") = dir.
Proof.
  intros Hbase. unfold lastIndexOf. rewrite lastIndexOfFrom_app.
  change ("/" +:+ base) with (String "/" base). cbn [lastIndexOfFrom].
  rewrite (Ascii.eqb_refl "/"), (lastIndexOfFrom_noSlash _ Hbase).
  replace (0 + strlen dir) with (strlen dir) by lia. apply substring_prefix.
Qed.

Lemma parent_of_bare_name (fileName : string) :
  noSlash fileName = true ->
  substring fileName 0 (lastIndexOf fileName "/") = "".
Proof.
  intros H. unfold lastIndexOf. rewrite (lastIndexOfFrom_noSlash _ H).
  apply substring_nothing.
Qed.

(** The referenceables, given the path of the parent. *)
Lemma getReferenceables_at (host : Host) (fullText fileName : string)
    (document : Document) (type : NodeType) (tag : option string) (items : list Node)
    (range0 : Z) (pairs : list Node) (ds : list Diagnostic) :
  parseDocument host fullText = Ok document ->
  contents document = Some (Collection type tag items range0) ->
  findSubStackNodePairs document = Ok pairs ->
  getReferenceables host fullText fileName ds
  = bindM (getSubStackReferenceables host fullText pairs
             (substring fileName 0 (lastIndexOf fileName "/")))
      (fun subStackReferenceables =>
         ret (mkReferenceables subStackReferenceables
                (refParameters (localReferenceables document))
                (refResources (localReferenceables document))
                (refMappings (localReferenceables document))
                (refConditions (localReferenceables document))))
      ds.
Proof.
  intros Hparse Hc Hpairs. unfold getReferenceables. rewrite bindM_lift, Hparse.
  cbn beta iota. rewrite Hc.
  do 4 (rewrite bindM_lift, get_collection; cbn beta iota).
  rewrite bindM_lift, Hpairs. cbn beta iota.
  destruct document as [c]. cbn [contents] in Hc. subst c. reflexivity.
Qed.

End ParentPathFacts.

Module ParentPathProperties.
Import Js Yaml CloudformationYaml Measures ParentPathFacts.

(** X21: the child templates of the sub stacks are sought in the directory
    of the parent: for a file name [dir/base], where [base] holds no slash,
    the collector gets [dir] for the path of the parent, so a template URL
    is read from [dir/<TemplateURL>]; for a file name without slash it gets
    the empty path, so a template URL is read from [/<TemplateURL>]. *)
Theorem child_templates_are_sought_beside_the_parent (host : Host)
    (fullText fileName : string) (document : Document) (type : NodeType)
    (tag : option string) (items : list Node) (range0 : Z) (pairs : list Node)
    (ds : list Diagnostic) :
  parseDocument host fullText = Ok document ->
  contents document = Some (Collection type tag items range0) ->
  findSubStackNodePairs document = Ok pairs ->
  let collected := fun parentPath =>
    bindM (getSubStackReferenceables host fullText pairs parentPath)
      (fun subStackReferenceables =>
         ret (mkReferenceables subStackReferenceables
                (refParameters (localReferenceables document))
                (refResources (localReferenceables document))
                (refMappings (localReferenceables document))
                (refConditions (localReferenceables document))))
      ds in
  (forall dir base,
     fileName = dir +:+ "/" +:+ base -> noSlash base = true ->
     getReferenceables host fullText fileName ds = collected dir)
  /\ (noSlash fileName = true ->
      getReferenceables host fullText fileName ds = collected "").
Proof.
  intros Hparse Hc Hpairs collected. unfold collected.
  rewrite (getReferenceables_at _ _ _ _ _ _ _ _ _ _ Hparse Hc Hpairs). split.
  - intros dir base -> Hbase. rewrite (parent_of_file _ _ Hbase). reflexivity.
  - intros Hname. rewrite (parent_of_bare_name _ Hname). reflexivity.
Qed.

End ParentPathProperties.

Module ParentPathEvidence.
Import Js Yaml CloudformationYaml Measures Scenarios ParentPathProperties.

Lemma child_templates_are_sought_beside_the_parent_witness :
  getReferenceables (hostOf parentText parentDocument childFiles) parentText
    "/templates/parent.yaml" []
  = bindM (getSubStackReferenceables (hostOf parentText parentDocument childFiles) parentText
             [childResource] "/templates")
      (fun subStackReferenceables =>
         ret (mkReferenceables subStackReferenceables
                (refParameters (localReferenceables parentDocument))
                (refResources (localReferenceables parentDocument))
                (refMappings (localReferenceables parentDocument))
                (refConditions (localReferenceables parentDocument))))
      [].
Proof.
  exact (proj1 (child_templates_are_sought_beside_the_parent
                  (hostOf parentText parentDocument childFiles) parentText
                  "/templates/parent.yaml" parentDocument MAP None _ 0 [childResource] []
                  eq_refl eq_refl eq_refl)
               "/templates" "parent.yaml" eq_refl eq_refl).
Defined.

End ParentPathEvidence.

(** * Sub stacks: empty items, and a template used twice *)

Module SubStackLoopFacts.
Import Js Yaml CloudformationYaml Measures ExtractorFacts AnalysisFacts TraversalFacts
       SubStackSearchFacts CollectorFacts.

(** With more fuel than the node is high, the search of a tree whose
    entries all have values returns. *)
Lemma getSubStackNodePairsFuel_returns (fuel : nat) :
  forall n,
    (height n < fuel)%nat -> complete n = true ->
    exists pairs, getSubStackNodePairsFuel fuel n = Ok pairs.
Proof.
  induction fuel as [|fuel IH]; intros n Hh Hc; [lia|].
  cbn [getSubStackNodePairsFuel].
  destruct (complete_getNodeValueIfPair _ Hc) as [nv [Hnv Hcv]]. rewrite Hnv.
  pose proof (getNodeValueIfPair_height _ _ Hnv) as Hhv.
  destruct (if NodeType_eqb (type_of nv) MAP then items_of nv else None) as [items|] eqn:Hm;
    [|eexists; reflexivity].
  pose proof (sequence_items _ _ _ Hm) as Hitems.
  destruct nv as [| |type tag its range0]; try discriminate.
  rewrite get_collection. cbn [bindO]. rewrite stack_type_cases.
  assert (Hrest : exists pairs,
            bindO (mapO (getSubStackNodePairsFuel fuel) items)
                  (fun subStackNodePairs => Ok (flattenArray subStackNodePairs)) = Ok pairs).
  { destruct (mapO_returns (getSubStackNodePairsFuel fuel) items) as [ys Hys].
    - intros x Hx. apply IH.
      + pose proof (height_item _ _ Hitems x Hx). lia.
      + apply (complete_items _ _ Hcv Hitems x Hx).
    - rewrite Hys. eexists. reflexivity. }
  destruct (documentGet _ "Type") as [|s|m]; try exact Hrest.
  destruct (String.eqb s "AWS::CloudFormation::Stack"); [eexists; reflexivity | exact Hrest].
Qed.

End SubStackLoopFacts.

Module SubStackLoopProperties.
Import Js Yaml CloudformationYaml Items Measures AnalysisFacts CollectorFacts
       SubStackLoopFacts.

(** X22: the search for sub stacks among the items of a document, of which
    some may be empty. On items that are all there it is the search on the
    document; it returns when every item is there and every entry has a
    value, throwing neither a [TypeError] nor, for want of stack, a
    [RangeError]; and it throws a [TypeError] when an empty item stands
    before the first item of the key [Resources]. *)
Theorem search_returns_unless_an_item_is_empty (documentItems : list (option Node)) :
  (forall type tag items range0,
     documentItems = List.map Some items ->
     findSubStackNodePairsAmong documentItems
     = findSubStackNodePairs (mkDocument (Some (Collection type tag items range0))))
  /\ (Forall (fun item => exists node, item = Some node /\ complete node = true)
             documentItems ->
      exists pairs, findSubStackNodePairsAmong documentItems = Ok pairs)
  /\ (forall before after,
        documentItems = before ++ None :: after ->
        Forall (fun item => exists node,
                  item = Some node /\ tagIs (stringKey_of node) "Resources" = false)
               before ->
        findSubStackNodePairsAmong documentItems = Throw TypeError).
Proof.
  unfold findSubStackNodePairsAmong. split; [|split].
  - intros type tag items range0 ->. unfold findSubStackNodePairs. cbn [contents items_of].
    induction items as [|item items IH]; [reflexivity|].
    cbn [List.map findResources List.find].
    destruct (tagIs (stringKey_of item) "Resources"); [reflexivity | exact IH].
  - induction 1 as [|item items (node & -> & Hnode) _ IH]; [eexists; reflexivity|].
    cbn [findResources].
    destruct (tagIs (stringKey_of node) "Resources"); [|exact IH].
    cbn [bindO getSubStackNodePairs].
    apply getSubStackNodePairsFuel_returns; [lia | exact Hnode].
  - intros before after -> Hbefore.
    induction Hbefore as [|item before (node & -> & Hkey) _ IH]; [reflexivity|].
    cbn [List.app findResources]. rewrite Hkey. exact IH.
Qed.

(** X23: two sub stacks that use one child template: the output names of
    both are collected, each under the name of its stack, and the
    parameters of the template are recorded once, not twice. *)
Theorem same_template_is_recorded_once (host : Host) (fullText parentPath : string)
    (acc : SubStackReferenceables)
    (first second propertiesOfFirst propertiesOfSecond documentContents : Node)
    (templateUrl : string) (document : Document) (childOutputs childParameters : JsValue)
    (ds : list Diagnostic) :
  getOf (value_of first) "Properties" = Ok (NodeRef propertiesOfFirst) ->
  get propertiesOfFirst "TemplateURL" = Ok (Str templateUrl) ->
  getOf (value_of second) "Properties" = Ok (NodeRef propertiesOfSecond) ->
  get propertiesOfSecond "TemplateURL" = Ok (Str templateUrl) ->
  bindO (readFileSync host (parentPath +:+ "/" +:+ templateUrl)) (parseDocument host)
  = Ok document ->
  contents document = Some documentContents ->
  get documentContents "Outputs" = Ok childOutputs ->
  get documentContents "Parameters" = Ok childParameters ->
  Forall readable (declaredItems childParameters) ->
  getSubStackReferenceablesFrom host fullText [first; second] parentPath acc ds
  = (Ok (mkSubStack
           (outputs acc
            ++ outputNames (stringKey_of first) childOutputs
            ++ outputNames (stringKey_of second) childOutputs)
           (<[templateUrl := List.flat_map declaredParameter (declaredItems childParameters)]>
              (parameters acc))),
     ds).
Proof.
  intros Hp1 Hu1 Hp2 Hu2 Hload Hcontents Houtputs Hparameters Hreadable.
  unfold getSubStackReferenceablesFrom. cbn [foldM]. unfold bindM at 1.
  rewrite (subStackReferenceablesOf_loaded _ _ _ _ _ _ _ _ _ _ _ _
             Hp1 Hu1 Hload Hcontents Houtputs Hparameters Hreadable).
  unfold bindM at 1.
  rewrite (subStackReferenceablesOf_loaded _ _ _ _ _ _ _ _ _ _ _ _
             Hp2 Hu2 Hload Hcontents Houtputs Hparameters Hreadable).
  unfold ret. cbn [outputs parameters]. rewrite insert_insert_eq, <- List.app_assoc.
  reflexivity.
Qed.

End SubStackLoopProperties.

Module SubStackLoopEvidence.
Import Js Yaml CloudformationYaml Items Measures Scenarios SubStackLoopProperties.

Lemma search_returns_unless_an_item_is_empty_witness :
  findSubStackNodePairsAmong
    [Some (entry "Parameters" 0 (block [] 12)); None;
     Some (entry "Resources" 20 (block [bareResource] 33))]
  = Throw TypeError.
Proof.
  refine (proj2 (proj2 (search_returns_unless_an_item_is_empty
                          [Some (entry "Parameters" 0 (block [] 12)); None;
                           Some (entry "Resources" 20 (block [bareResource] 33))]))
                [Some (entry "Parameters" 0 (block [] 12))]
                [Some (entry "Resources" 20 (block [bareResource] 33))] eq_refl _).
  repeat constructor. eexists. split; reflexivity.
Defined.

Lemma same_template_is_recorded_once_witness :
  getSubStackReferenceablesFrom (hostOf parentText parentDocument childFiles) parentText
    [childResource;
     entry "Other" 13 (block
       [entry "Type" 24 (plain "AWS::CloudFormation::Stack" 30);
        entry "Properties" 61 childProperties] 24)]
    "/templates" (mkSubStack [] ∅) []
  = (Ok (mkSubStack
           ([] ++ outputNames (Some "Child")
                    (NodeRef (block [entry "Bucket" 86
                                       (block [entry "Value" 98 (plain "b" 105)] 98)] 86))
               ++ outputNames (Some "Other")
                    (NodeRef (block [entry "Bucket" 86
                                       (block [entry "Value" 98 (plain "b" 105)] 98)] 86)))
           (<["child.yaml" :=
                List.flat_map declaredParameter
                  (declaredItems
                     (NodeRef (block
                        [entry "Foo" 14 (block [entry "Type" 23 (plain "String" 29)] 23);
                         entry "Bar" 38 (block [entry "Type" 47 (plain "String" 53);
                                                entry "Default" 64 (plain "x" 73)] 47)]
                        14)))]> ∅)),
     []).
Proof.
  refine (same_template_is_recorded_once (hostOf parentText parentDocument childFiles)
            parentText "/templates" (mkSubStack [] ∅) childResource
            (entry "Other" 13 (block
               [entry "Type" 24 (plain "AWS::CloudFormation::Stack" 30);
                entry "Properties" 61 childProperties] 24))
            childProperties childProperties _ "child.yaml" childDocument _ _ []
            eq_refl eq_refl eq_refl eq_refl eq_refl eq_refl eq_refl eq_refl _).
  repeat constructor.
Defined.

End SubStackLoopEvidence.

(** * The sub-stack checks and the tags of the tree *)

Module TagFacts.
Import Js Yaml CloudformationYaml Measures ExtractorFacts AnalysisFacts SubStackSearchFacts.

(** Induction on the nesting depth of a node. *)
Lemma node_height_ind (P : Node -> Prop) :
  (forall n, (forall m, (height m < height n)%nat -> P m) -> P n) -> forall n, P n.
Proof.
  intros Hstep n.
  assert (H : forall k m, (height m < k)%nat -> P m).
  { induction k as [|k IH]; intros m Hm; [lia|].
    apply Hstep. intros m' Hm'. apply IH. lia. }
  apply (H (S (height n))). lia.
Qed.

Lemma height_untag (n : Node) : height (untag n) = height n.
Proof.
  induction n as [n IH] using node_height_ind.
  destruct n as [type tag stringKey value range0 refs | tag key stringKey [m|]
                | type tag items range0]; cbn [untag height]; try reflexivity.
  - rewrite IH; [reflexivity | cbn; lia].
  - f_equal.
    assert (Hitems : forall m, In m items -> height (untag m) = height m).
    { intros m Hm. apply IH.
      apply (height_item (Collection type tag items range0) items eq_refl m Hm). }
    clear IH. induction items as [|x items IHl]; [reflexivity|].
    cbn [List.map List.fold_right]. rewrite (Hitems x (or_introl eq_refl)).
    rewrite IHl; [reflexivity|]. intros m Hm. apply Hitems. right. exact Hm.
Qed.

Lemma type_of_untag (n : Node) : type_of (untag n) = type_of n.
Proof. destruct n; reflexivity. Qed.

Lemma stringKey_of_untag (n : Node) : stringKey_of (untag n) = stringKey_of n.
Proof. destruct n; reflexivity. Qed.

Lemma key_of_untag (n : Node) : key_of (untag n) = key_of n.
Proof. destruct n; reflexivity. Qed.

Lemma items_of_untag (n : Node) :
  items_of (untag n) = option_map (List.map untag) (items_of n).
Proof. destruct n; reflexivity. Qed.

Lemma getNodeValueIfPair_untag (n : Node) :
  getNodeValueIfPair (untag n) = option_map untag (getNodeValueIfPair n).
Proof.
  destruct n as [type tag stringKey value range0 refs | tag key stringKey [m|]
                | type tag items range0]; try reflexivity.
  destruct m; reflexivity.
Qed.

Lemma find_untag (p : Node -> bool) (items : list Node) :
  (forall item, p (untag item) = p item) ->
  List.find p (List.map untag items) = option_map untag (List.find p items).
Proof.
  intros Hp. induction items as [|x items IH]; [reflexivity|].
  cbn [List.map List.find]. rewrite Hp. destruct (p x); [reflexivity | exact IH].
Qed.

Lemma getNodeItemByStringKey_untag (n : Node) (k : string) :
  getNodeItemByStringKey (untag n) k = option_map untag (getNodeItemByStringKey n k).
Proof.
  unfold getNodeItemByStringKey. rewrite items_of_untag.
  destruct (items_of n) as [items|]; [|reflexivity]. cbn [option_map].
  apply find_untag. intros item. rewrite stringKey_of_untag. reflexivity.
Qed.

(** What [get(key)] gives does not depend on the tags, but for the tags of
    the node it gives. *)
Lemma get_untag (n : Node) (k : string) :
  get (untag n) k
  = match get n k with
    | Ok (NodeRef m) => Ok (NodeRef (untag m))
    | other => other
    end.
Proof.
  destruct n as [type tag stringKey value range0 refs | tag key stringKey v
                | type tag items range0]; try reflexivity.
  change (untag (Collection type tag items range0))
    with (Collection type None (List.map untag items) range0).
  unfold get.
  destruct (NodeType_eqb type MAP || NodeType_eqb type FLOW_MAP); [|reflexivity].
  pose proof (getNodeItemByStringKey_untag (Collection type tag items range0) k) as H.
  change (untag (Collection type tag items range0))
    with (Collection type None (List.map untag items) range0) in H.
  rewrite H.
  destruct (getNodeItemByStringKey (Collection type tag items range0) k)
    as [[| t' key' sk [[]|] |]|]; reflexivity.
Qed.

Lemma stack_type_bind {A : Type} (type : JsValue) (a b : Outcome A) :
  bindO (Ok type)
    (fun type => match type with
                 | Str "AWS::CloudFormation::Stack" => a
                 | _ => b
                 end)
  = match type with
    | Str s => if String.eqb s "AWS::CloudFormation::Stack" then a else b
    | _ => b
    end.
Proof. cbn [bindO]. apply stack_type_cases. Qed.

Lemma mapO_untag (f : Node -> Outcome (list Node)) (items : list Node) :
  (forall item, In item items ->
     f (untag item) = bindO (f item) (fun pairs => Ok (List.map untag pairs))) ->
  bindO (mapO f (List.map untag items)) (fun found => Ok (flattenArray found))
  = bindO (bindO (mapO f items) (fun found => Ok (flattenArray found)))
      (fun pairs => Ok (List.map untag pairs)).
Proof.
  induction items as [|x items IH]; intros Hf; [reflexivity|].
  cbn [List.map mapO]. rewrite (Hf x (or_introl eq_refl)).
  destruct (f x) as [y|e]; [|reflexivity]. cbn [bindO].
  specialize (IH (fun item Hitem => Hf item (or_intror Hitem))).
  destruct (mapO f (List.map untag items)) as [ys'|e'], (mapO f items) as [ys|e];
    cbn [bindO] in *; try discriminate; try reflexivity.
  - injection IH as IH. unfold flattenArray in *. cbn [List.concat].
    rewrite List.map_app, IH. reflexivity.
  - exact IH.
Qed.

(** The search on the tree without tags finds the same nodes, without
    their tags. *)
Lemma getSubStackNodePairsFuel_untag (fuel : nat) :
  forall n,
    getSubStackNodePairsFuel fuel (untag n)
    = bindO (getSubStackNodePairsFuel fuel n) (fun pairs => Ok (List.map untag pairs)).
Proof.
  induction fuel as [|fuel IH]; intros n; [reflexivity|].
  cbn [getSubStackNodePairsFuel]. rewrite getNodeValueIfPair_untag.
  destruct (getNodeValueIfPair n) as [nv|]; [|reflexivity]. cbn [option_map].
  rewrite type_of_untag, items_of_untag.
  destruct (NodeType_eqb (type_of nv) MAP); [|reflexivity].
  destruct (items_of nv) as [items|]; [|reflexivity]. cbn [option_map].
  rewrite get_untag.
  destruct (get nv "Type") as [type|e]; [|reflexivity].
  assert (Hrest :
    bindO (mapO (getSubStackNodePairsFuel fuel) (List.map untag items))
          (fun found => Ok (flattenArray found))
    = bindO (bindO (mapO (getSubStackNodePairsFuel fuel) items)
                   (fun found => Ok (flattenArray found)))
        (fun pairs => Ok (List.map untag pairs)))
    by (apply mapO_untag; intros item _; apply IH).
  destruct type as [|s|m]; try (cbn [bindO]; exact Hrest).
  rewrite !stack_type_bind.
  destruct (String.eqb s "AWS::CloudFormation::Stack"); [reflexivity | exact Hrest].
Qed.

Lemma findSubStackNodePairs_untag (document : Document) :
  findSubStackNodePairs (untagDocument document)
  = bindO (findSubStackNodePairs document) (fun pairs => Ok (List.map untag pairs)).
Proof.
  unfold findSubStackNodePairs, untagDocument. cbn [contents].
  destruct (contents document) as [c|]; [|reflexivity].
  rewrite items_of_untag. destruct (items_of c) as [documentItems|]; [|reflexivity].
  cbn [option_map]. rewrite find_untag
    by (intros item; rewrite stringKey_of_untag; reflexivity).
  destruct (List.find _ documentItems) as [resources|]; [|reflexivity].
  cbn [option_map getSubStackNodePairs]. rewrite height_untag.
  apply getSubStackNodePairsFuel_untag.
Qed.

Lemma checkSuppliedParameter_untag (host : Host) (fullText : string)
    (referenceableParameters : list ParameterReferenceable) (parameterPair : Node) :
  checkSuppliedParameter host fullText referenceableParameters (untag parameterPair)
  = checkSuppliedParameter host fullText referenceableParameters parameterPair.
Proof.
  unfold checkSuppliedParameter. rewrite stringKey_of_untag.
  destruct (removeMatching (stringKey_of parameterPair) referenceableParameters);
    [reflexivity|].
  destruct parameterPair; reflexivity.
Qed.

Lemma foldM_untag (host : Host) (fullText : string) (items : list Node) :
  forall referenceableParameters ds,
    foldM (List.map untag items) (checkSuppliedParameter host fullText)
          referenceableParameters ds
    = foldM items (checkSuppliedParameter host fullText) referenceableParameters ds.
Proof.
  induction items as [|x items IH]; intros declared ds; [reflexivity|].
  cbn [List.map foldM]. unfold bindM. rewrite checkSuppliedParameter_untag.
  destruct (checkSuppliedParameter host fullText declared x ds) as [[remaining|e] ds'];
    [apply IH | reflexivity].
Qed.

Lemma valueOfItem_untag (item : option Node) :
  valueOfItem (option_map untag item)
  = bindO (valueOfItem item) (fun nodeValue => Ok (untag nodeValue)).
Proof.
  destruct item as [node|]; [|reflexivity]. cbn [option_map valueOfItem].
  rewrite getNodeValueIfPair_untag. destruct (getNodeValueIfPair node); reflexivity.
Qed.

(** The matcher on one sub stack does not read the tags. *)
Lemma checkSubStack_untag (host : Host) (fullText : string)
    (subStackReferenceables : SubStackReferenceables) (subStackNodePair : Node)
    (ds : list Diagnostic) :
  checkSubStack host fullText subStackReferenceables (untag subStackNodePair) ds
  = checkSubStack host fullText subStackReferenceables subStackNodePair ds.
Proof.
  unfold checkSubStack.
  destruct subStackNodePair as [type tag stringKey value range0 refs | tag key stringKey [v|]
                               | type tag items range0]; try reflexivity.
  cbn [untag value_of].
  rewrite !bindM_lift, getNodeItemByStringKey_untag, valueOfItem_untag.
  destruct (valueOfItem (getNodeItemByStringKey v "Properties")) as [properties|e];
    [|reflexivity].
  cbn [bindO]. rewrite !bindM_lift, get_untag.
  destruct (get properties "TemplateURL") as [[|templateUrl|m]|e]; try reflexivity.
  rewrite !bindM_lift, getNodeItemByStringKey_untag, valueOfItem_untag.
  destruct (valueOfItem (getNodeItemByStringKey properties "Parameters"))
    as [block|e]; [|reflexivity].
  cbn [bindO]. rewrite items_of_untag.
  destruct (items_of block) as [supplied|]; [|reflexivity]. cbn [option_map].
  destruct (parameters subStackReferenceables !! templateUrl) as [declared|]; [|reflexivity].
  unfold bindM. rewrite foldM_untag.
  destruct (foldM supplied (checkSuppliedParameter host fullText) declared ds)
    as [[[|d remaining]|e] ds']; try reflexivity.
  destruct (getNodeItemByStringKey properties "Parameters") as [propertiesPair|];
    [|reflexivity].
  cbn [option_map]. rewrite key_of_untag. reflexivity.
Qed.

Lemma forEach_untag (host : Host) (fullText : string)
    (subStackReferenceables : SubStackReferenceables) (pairs : list Node) :
  forall ds,
    buildInvalidSubStackParameterDiagnostics host fullText subStackReferenceables
      (List.map untag pairs) ds
    = buildInvalidSubStackParameterDiagnostics host fullText subStackReferenceables pairs ds.
Proof.
  unfold buildInvalidSubStackParameterDiagnostics.
  induction pairs as [|pair pairs IH]; intros ds; [reflexivity|].
  cbn [List.map forEach]. unfold bindM. rewrite checkSubStack_untag.
  destruct (checkSubStack host fullText subStackReferenceables pair ds) as [[u|e] ds'];
    [apply IH | reflexivity].
Qed.

(** The checks of the sub stacks on the document without its tags. *)
Lemma checkSubStacksOf_untag (host : Host) (fullText : string)
    (subStackReferenceables : SubStackReferenceables) (document : Document)
    (ds : list Diagnostic) :
  checkSubStacksOf host fullText subStackReferenceables (untagDocument document) ds
  = checkSubStacksOf host fullText subStackReferenceables document ds.
Proof.
  unfold checkSubStacksOf. rewrite !bindM_lift, findSubStackNodePairs_untag.
  destruct (findSubStackNodePairs document) as [pairs|e]; [|reflexivity].
  cbn [bindO]. apply forEach_untag.
Qed.

End TagFacts.

Module TagProperties.
Import Js Yaml CloudformationYaml Measures TagFacts.

(** X24: the checks of the sub stacks do not read the tags of the tree: two
    documents that differ in tags only, such as the document before and
    after the extractor has handed tags down to items, get the same result
    and the same diagnostics from the search for sub stacks followed by the
    matcher. *)
Theorem sub_stack_checks_ignore_tags (host : Host) (fullText : string)
    (subStackReferenceables : SubStackReferenceables) (before after : Document)
    (ds : list Diagnostic) :
  untagDocument before = untagDocument after ->
  checkSubStacksOf host fullText subStackReferenceables before ds
  = checkSubStacksOf host fullText subStackReferenceables after ds.
Proof.
  intros Hsame.
  rewrite <- (checkSubStacksOf_untag _ _ _ before), <- (checkSubStacksOf_untag _ _ _ after).
  rewrite Hsame. reflexivity.
Qed.

End TagProperties.

Module TagEvidence.
Import Js Yaml CloudformationYaml Measures Scenarios TagProperties.

Lemma sub_stack_checks_ignore_tags_witness :
  checkSubStacksOf (hostOf handingText handingDocument []) handingText requiredBaz
    handingDocument []
  = checkSubStacksOf (hostOf handingText handingDocument []) handingText requiredBaz
      (mkDocument
         (Some (Collection MAP (Some "!If")
                  [Pair (Some "!If") (mkKey 0) "Resources"
                     (Some (Collection MAP (Some "!If")
                              [inheritTag handingResource (Some "!If")] 13))] 0)))
      [].
Proof.
  apply sub_stack_checks_ignore_tags. reflexivity.
Defined.

End TagEvidence.
